(** * digitalFotoFrame: a shallow embedding of [digitalFotoFrame.py]

    The development follows the three functions of the script:
    [scanForFiles], [checkForControlFile] and [runFotoFrame].

    Conventions of the embedding.
    - Python [str] values are [string]s; slicing and the [startswith],
      [endswith] and [lower] methods are defined below on that type.
    - Python [float] values are [pyfloat]s: the rational value of a finite
      double, or one of the three special values.  Every arithmetic
      operation rounds its exact result to binary64, to nearest with ties
      to even ([round64]).  The two zeros are one value: their sign shows
      only in operations this program does not use.
    - The built-in [float(str)] conversion is a parameter of the
      definitions that use it ([pyfloat_of_string]); a concrete parser for
      plain decimal literals, [decimal_float], instantiates it in examples.
    - Everything the script asks of its environment (clock, files,
      directory listing, random draws, image decoder, keyboard) is read
      from a [World] record, one per loop step.
    - [print] calls are omitted. *)

From Stdlib Require Import ZArith QArith Qround Qabs Qminmax Qpower Bool List Ascii String Lia Lqa.
From Stdlib Require Import Permutation.
From Stdlib Require PrimFloat FloatOps.
Import ListNotations.

Open Scope string_scope.
Open Scope Z_scope.

(** ** Python strings *)

Module PyStr.

(** [s.startswith(p)] *)
Fixpoint startswith (s p : string) {struct p} : bool :=
  match p, s with
  | EmptyString, _ => true
  | String _ _, EmptyString => false
  | String a p', String b s' => Ascii.eqb a b && startswith s' p'
  end.

Fixpoint drop (n : nat) (s : string) : string :=
  match n, s with
  | O, _ => s
  | S _, EmptyString => EmptyString
  | S n', String _ s' => drop n' s'
  end.

Fixpoint take (n : nat) (s : string) : string :=
  match n, s with
  | O, _ => EmptyString
  | S _, EmptyString => EmptyString
  | S n', String a s' => String a (take n' s')
  end.

(** Python's normalisation of a slice bound against a length: a negative
    bound counts from the end, and the result is clipped to [0, len]. *)
Definition slice_bound (len i : Z) : Z :=
  if i <? 0 then Z.max 0 (len + i) else Z.min i len.

(** [s[i:j]] *)
Definition slice (s : string) (i j : Z) : string :=
  let len := Z.of_nat (String.length s) in
  let a := slice_bound len i in
  let b := slice_bound len j in
  take (Z.to_nat (b - a)) (drop (Z.to_nat a) s).

(** [s[i:]] *)
Definition slice_from (s : string) (i : Z) : string :=
  let len := Z.of_nat (String.length s) in
  drop (Z.to_nat (slice_bound len i)) s.

(** [s.endswith(p)], written as Python evaluates it: compare the last
    [len(p)] characters. *)
Definition endswith (s p : string) : bool :=
  (String.length p <=? String.length s)%nat
  && String.eqb (drop (String.length s - String.length p) s) p.

Definition lower_ascii (c : ascii) : ascii :=
  let n := nat_of_ascii c in
  if ((65 <=? n) && (n <=? 90))%nat then ascii_of_nat (n + 32) else c.

(** [s.lower()] on the ASCII letters.  No character outside ASCII lowers to
    one of the letters tested by this program. *)
Fixpoint lower (s : string) : string :=
  match s with
  | EmptyString => EmptyString
  | String c s' => String (lower_ascii c) (lower s')
  end.

(** The string without its last character. *)
Fixpoint removelast (s : string) : string :=
  match s with
  | EmptyString => EmptyString
  | String _ EmptyString => EmptyString
  | String a s' => String a (removelast s')
  end.

End PyStr.

(** ** Python floats *)

Inductive pyfloat : Type :=
| Fin (q : Q)
| PInf
| NInf
| NaN.

Module PyFloat.

Definition Qlt_bool (x y : Q) : bool := negb (Qle_bool y x).

(** [a < b]; every comparison with NaN is false. *)
Definition lt (a b : pyfloat) : bool :=
  match a, b with
  | Fin x, Fin y => Qlt_bool x y
  | Fin _, PInf => true
  | NInf, Fin _ => true
  | NInf, PInf => true
  | _, _ => false
  end.

(** [a > b] *)
Definition gt (a b : pyfloat) : bool := lt b a.

(** The built-in [max(a, b)]: the first argument is kept unless the second
    compares greater. *)
Definition max (a b : pyfloat) : pyfloat := if gt b a then b else a.

(** The built-in [min(a, b)]: the first argument is kept unless the second
    compares less. *)
Definition min (a b : pyfloat) : pyfloat := if lt b a then b else a.

(** Truncation toward zero. *)
Definition Qtrunc (q : Q) : Z := Z.quot (Qnum q) (Zpos (Qden q)).

(** [int(x)]: truncates a finite float, raises on the special values. *)
Definition to_int (x : pyfloat) : option Z :=
  match x with
  | Fin q => Some (Qtrunc q)
  | _ => None
  end.

(** *** Rounding to binary64

    A finite double is [m * 2^e] with [|m| < 2^53] and [-1074 <= e]; its
    magnitude is below [2^1024]. *)

(** The nearest integer, a tie going to the even one. *)
Definition rne (y : Q) : Z :=
  let f := Qfloor y in
  match (y - inject_Z f ?= 1 # 2)%Q with
  | Lt => f
  | Gt => f + 1
  | Eq => if Z.even f then f else f + 1
  end.

(** For [x > 0], the exponent [k] with [2^k <= x < 2^(k+1)]. *)
Definition mag (x : Q) : Z :=
  let k := Z.log2 (Qnum x) - Z.log2 (Zpos (Qden x)) in
  if Qle_bool (2 ^ k) x then k else k - 1.

(** The exponent of the unit in the last place of the doubles around [x]:
    53 significant bits, and no exponent below that of the subnormal
    numbers. *)
Definition ulp_exp (x : Q) : Z := Z.max (mag (Qabs x) - 52) (-1074).

(** [x] rounded to the nearest multiple of its unit in the last place. *)
Definition rnd (x : Q) : Q :=
  (inject_Z (rne (x / 2 ^ ulp_exp x)) * 2 ^ ulp_exp x)%Q.

(** The double nearest to [x]; an infinity when the rounded magnitude
    reaches [2^1024]. *)
Definition round64 (x : Q) : pyfloat :=
  let r := Qred (rnd (Qred x)) in
  if Qle_bool (2 ^ 1024) r then PInf
  else if Qle_bool r (- 2 ^ 1024) then NInf
  else Fin r.

(** [a * b] *)
Definition mul (a b : pyfloat) : pyfloat :=
  match a, b with
  | NaN, _ | _, NaN => NaN
  | Fin x, Fin y => round64 (x * y)
  | Fin x, PInf | PInf, Fin x =>
      match (x ?= 0)%Q with Gt => PInf | Lt => NInf | Eq => NaN end
  | Fin x, NInf | NInf, Fin x =>
      match (x ?= 0)%Q with Gt => NInf | Lt => PInf | Eq => NaN end
  | PInf, PInf | NInf, NInf => PInf
  | PInf, NInf | NInf, PInf => NInf
  end.

(** [a - b] *)
Definition sub (a b : pyfloat) : pyfloat :=
  match a, b with
  | NaN, _ | _, NaN => NaN
  | Fin x, Fin y => round64 (x - y)
  | Fin _, PInf | NInf, PInf | NInf, Fin _ => NInf
  | Fin _, NInf | PInf, NInf | PInf, Fin _ => PInf
  | PInf, PInf | NInf, NInf => NaN
  end.

(** [a / b]; [None] when Python raises [ZeroDivisionError], which it does
    for a zero divisor whatever the dividend. *)
Definition div (a b : pyfloat) : option pyfloat :=
  match b with
  | NaN => Some NaN
  | Fin y =>
      match (y ?= 0)%Q with
      | Eq => None
      | Gt => Some (match a with Fin x => round64 (x / y) | _ => a end)
      | Lt => Some (match a with
                    | Fin x => round64 (x / y)
                    | PInf => NInf
                    | NInf => PInf
                    | NaN => NaN
                    end)
      end
  | PInf | NInf => Some (match a with Fin _ => Fin 0 | _ => NaN end)
  end.

(** The conversion of an [int] operand of a float operation, and
    [float(n)]: the nearest double; [None] when Python raises
    [OverflowError]. *)
Definition of_int (n : Z) : option pyfloat :=
  match round64 (inject_Z n) with
  | Fin q => Some (Fin q)
  | _ => None
  end.

End PyFloat.

Arguments PyFloat.round64 : simpl never.
Arguments PyFloat.mul : simpl never.
Arguments PyFloat.sub : simpl never.
Arguments PyFloat.div : simpl never.
Arguments PyFloat.of_int : simpl never.

(** A parser for plain decimal literals: optional surrounding white space,
    an optional sign, digits with an optional fractional part.  Every
    string it accepts is accepted by Python's [float] with the same value,
    the double nearest to the number written; [float] accepts more
    (exponents, [inf], [nan]). *)
Module Decimal.

Definition is_space (c : ascii) : bool :=
  let n := nat_of_ascii c in
  ((n =? 32) || ((9 <=? n) && (n <=? 13)))%nat.

Definition is_digit (c : ascii) : bool :=
  let n := nat_of_ascii c in ((48 <=? n) && (n <=? 57))%nat.

Definition digit_value (c : ascii) : Z := Z.of_nat (nat_of_ascii c - 48).

Fixpoint lstrip (s : string) : string :=
  match s with
  | String c s' => if is_space c then lstrip s' else s
  | EmptyString => EmptyString
  end.

Fixpoint rstrip (s : string) : string :=
  match s with
  | EmptyString => EmptyString
  | String c s' =>
      match rstrip s' with
      | EmptyString => if is_space c then EmptyString else String c EmptyString
      | r => String c r
      end
  end.

(** Reads digits up to the end of the string or a dot; returns the value
    accumulated, the number of digits read and what follows the dot. *)
Fixpoint int_part (s : string) (acc : Z) (n : nat)
  : option (Z * nat * option string) :=
  match s with
  | EmptyString => Some (acc, n, None)
  | String c s' =>
      if Ascii.eqb c "."%char then Some (acc, n, Some s')
      else if is_digit c then int_part s' (10 * acc + digit_value c) (S n)
      else None
  end.

Fixpoint frac_part (s : string) (acc : Z) (n : nat) : option (Z * nat) :=
  match s with
  | EmptyString => Some (acc, n)
  | String c s' =>
      if is_digit c then frac_part s' (10 * acc + digit_value c) (S n)
      else None
  end.

Definition unsigned (s : string) : option Q :=
  match int_part s 0 0 with
  | None => None
  | Some (i, ni, None) =>
      if (ni =? 0)%nat then None else Some (inject_Z i)
  | Some (i, ni, Some rest) =>
      match frac_part rest 0 0 with
      | None => None
      | Some (f, nf) =>
          if ((ni + nf) =? 0)%nat then None
          else Some (Qred (inject_Z i + (f # Pos.of_nat (10 ^ nf)))%Q)
      end
  end.

Definition decimal_float (s : string) : option pyfloat :=
  match rstrip (lstrip s) with
  | String "-"%char u =>
      match unsigned u with
      | Some q => Some (PyFloat.round64 (- q))
      | None => None
      end
  | String "+"%char u =>
      match unsigned u with
      | Some q => Some (PyFloat.round64 q)
      | None => None
      end
  | u => match unsigned u with
         | Some q => Some (PyFloat.round64 q)
         | None => None
         end
  end.

End Decimal.

(** ** checkForControlFile *)

(** The five-element list [result]: indices 0 to 4 in this order. *)
Record result : Type := mkResult {
  res_delay : pyfloat;
  res_wakeHour : Z;
  res_bedtimeHour : Z;
  res_photoFolder : string;
  res_ok : bool
}.

Definition set_delay (r : result) (x : pyfloat) : result :=
  mkResult x (res_wakeHour r) (res_bedtimeHour r) (res_photoFolder r) (res_ok r).
Definition set_wakeHour (r : result) (x : Z) : result :=
  mkResult (res_delay r) x (res_bedtimeHour r) (res_photoFolder r) (res_ok r).
Definition set_bedtimeHour (r : result) (x : Z) : result :=
  mkResult (res_delay r) (res_wakeHour r) x (res_photoFolder r) (res_ok r).
Definition set_photoFolder (r : result) (x : string) : result :=
  mkResult (res_delay r) (res_wakeHour r) (res_bedtimeHour r) x (res_ok r).
Definition set_ok (r : result) (x : bool) : result :=
  mkResult (res_delay r) (res_wakeHour r) (res_bedtimeHour r) (res_photoFolder r) x.

(** What the body of the [try] block has reached: it ran on, or an
    exception was raised.  Either way the variables assigned so far keep
    their values, which is why both constructors carry the state. *)
Inductive outcome (A : Type) : Type :=
| Normal (a : A)
| Raised (a : A).
Arguments Normal {A} a.
Arguments Raised {A} a.

Definition bind {A : Type} (o : outcome A) (k : A -> outcome A) : outcome A :=
  match o with
  | Normal a => k a
  | Raised a => Raised a
  end.

Definition final {A : Type} (o : outcome A) : A :=
  match o with Normal a | Raised a => a end.

Definition CR : ascii := ascii_of_nat 13.
Definition LF : ascii := ascii_of_nat 10.

(** Text mode with the default [newline=None]: every line ending is read
    as a single line feed. *)
Fixpoint universal_newlines (s : string) : string :=
  match s with
  | EmptyString => EmptyString
  | String c s' =>
      if Ascii.eqb c CR then
        match s' with
        | String c' _ =>
            if Ascii.eqb c' LF then universal_newlines s'
            else String LF (universal_newlines s')
        | EmptyString => String LF EmptyString
        end
      else String c (universal_newlines s')
  end.

(** Iterating over a text file: the lines, each with its line feed, the
    last one without when the text does not end in one. *)
Fixpoint readlines (s : string) : list string :=
  match s with
  | EmptyString => []
  | String c s' =>
      if Ascii.eqb c LF then String c EmptyString :: readlines s'
      else match readlines s' with
           | [] => [String c EmptyString]
           | l :: ls => String c l :: ls
           end
  end.

Section ConfigLoader.

(** The built-in [float]: [None] when it raises [ValueError]. *)
Variable pyfloat_of_string : string -> option pyfloat.

(** The loader's variables inside the loop: [result] and [readparams]. *)
Definition loader : Type := (result * Z)%type.

Definition on_DELAY (st : loader) (line : string) : outcome loader :=
  let '(r, readparams) := st in
  if PyStr.startswith line "DELAY=" then
    match pyfloat_of_string (PyStr.slice_from line 6) with
    | None => Raised st
    | Some x =>
        let x := PyFloat.max (Fin 1) x in
        let x := PyFloat.min (Fin 60) x in
        Normal (set_delay r x, Z.lor readparams 1)
    end
  else Normal st.

Definition on_WAKE (st : loader) (line : string) : outcome loader :=
  let '(r, readparams) := st in
  if PyStr.startswith line "WAKE=" then
    match pyfloat_of_string (PyStr.slice_from line 5) with
    | None => Raised st
    | Some x =>
        let x := PyFloat.max (Fin 0) x in
        let x := PyFloat.min (Fin 10) x in
        match PyFloat.to_int x with
        | None => Raised st
        | Some n => Normal (set_wakeHour r n, Z.lor readparams 2)
        end
    end
  else Normal st.

Definition on_SLEEP (st : loader) (line : string) : outcome loader :=
  let '(r, readparams) := st in
  if PyStr.startswith line "SLEEP=" then
    match pyfloat_of_string (PyStr.slice_from line 6) with
    | None => Raised st
    | Some x =>
        let x := PyFloat.max (Fin 0) x in
        let x := PyFloat.min (Fin 23) x in
        match PyFloat.to_int x with
        | None => Raised st
        | Some n => Normal (set_bedtimeHour r n, Z.lor readparams 4)
        end
    end
  else Normal st.

Definition on_PATH (st : loader) (line : string) : outcome loader :=
  let '(r, readparams) := st in
  if PyStr.startswith line "PATH=" then
    Normal (set_photoFolder r (PyStr.slice line 5 (-1)), Z.lor readparams 8)
  else Normal st.

(** The body of [for line in finp]: four independent [if]s in a row. *)
Definition process_line (st : loader) (line : string) : outcome loader :=
  bind (bind (bind (on_DELAY st line)
                   (fun st => on_WAKE st line))
             (fun st => on_SLEEP st line))
       (fun st => on_PATH st line).

Fixpoint read_lines (lines : list string) (st : loader) : outcome loader :=
  match lines with
  | [] => Normal st
  | line :: rest =>
      match process_line st line with
      | Normal st' => read_lines rest st'
      | Raised st' => Raised st'
      end
  end.

(** [open_file controlFn] is the text of the file, [None] when [open]
    raises.  The bare [except: pass] swallows every exception, so the
    function always returns. *)
Definition checkForControlFile (open_file : string -> option string)
    (controlFn : string) (delay : pyfloat) (wakeHour bedtimeHour : Z)
    (photoFolder : string) : result :=
  let result0 := mkResult delay wakeHour bedtimeHour photoFolder false in
  let '(result1, readparams) :=
    match open_file controlFn with
    | None => (result0, 0)
    | Some text =>
        final (read_lines (readlines (universal_newlines text)) (result0, 0))
    end in
  if readparams =? 15 then set_ok result1 true else result1.

End ConfigLoader.

(** ** scanForFiles *)

(** What [os.scandir] yields for a folder.  [is_file()] holds of [EFile],
    [is_dir()] of [EDir] and [EDenied]; [EOther] is an entry that is
    neither (a socket, a dangling link).  [EDenied] is a folder on which
    [os.scandir] raises.  A tree is finite, so cycles through symbolic
    links are outside the model. *)
#[warnings="-register-all"]
Inductive entry : Type :=
| EFile (name : string)
| EDir (name : string) (children : list entry)
| EDenied (name : string)
| EOther (name : string).

(** [os.path.join(a, b)] with the POSIX separator. *)
Definition path_join (a b : string) : string :=
  if PyStr.startswith b "/" then b
  else if (String.length a =? 0)%nat || PyStr.endswith a "/" then a ++ b
  else a ++ "/" ++ b.

(** The test of line 65 on [entry.name]. *)
Definition is_picture (name : string) : bool :=
  let fn := PyStr.lower name in
  PyStr.endswith fn ".jpg" || PyStr.endswith fn ".png".

(** One turn of the [for entry in itr] loop, started on the entries of
    [folder]; [None] when an exception escapes. *)
Fixpoint scanEntry (folder : string) (e : entry) {struct e}
  : option (list string) :=
  match e with
  | EFile name =>
      if is_picture name then Some [path_join folder name] else Some []
  | EDir name children =>
      let sub := path_join folder name in
      (fix scanAll (es : list entry) : option (list string) :=
         match es with
         | [] => Some []
         | e' :: es' =>
             match scanEntry sub e' with
             | None => None
             | Some here =>
                 match scanAll es' with
                 | None => None
                 | Some later => Some (here ++ later)%list
                 end
             end
         end) children
  | EDenied _ => None
  | EOther _ => Some []
  end.

(** The loop over the entries of [folder]: [pictureFiles] grows in the
    order of the entries. *)
Fixpoint scanEntries (folder : string) (es : list entry)
  : option (list string) :=
  match es with
  | [] => Some []
  | e :: es' =>
      match scanEntry folder e with
      | None => None
      | Some here =>
          match scanEntries folder es' with
          | None => None
          | Some later => Some (here ++ later)%list
          end
      end
  end.

(** [scandir folder] is the tree below [folder], [None] when
    [os.scandir(folder)] raises. *)
Definition scanForFiles (scandir : string -> option (list entry))
    (folder : string) : option (list string) :=
  match scandir folder with
  | None => None
  | Some es => scanEntries folder es
  end.

(** ** random.shuffle *)

Fixpoint update {A : Type} (l : list A) (i : nat) (x : A) : list A :=
  match l, i with
  | [], _ => []
  | _ :: t, O => x :: t
  | h :: t, S i' => h :: update t i' x
  end.

(** [x[i], x[j] = x[j], x[i]] *)
Definition swap {A : Type} (l : list A) (i j : nat) : list A :=
  match nth_error l i, nth_error l j with
  | Some a, Some b => update (update l i b) j a
  | _, _ => l
  end.

(** The Fisher-Yates loop of [random.shuffle]: for [i] from [len - 1] down
    to [1], swap position [i] with position [randbelow(i + 1)]. *)
Fixpoint shuffle_from {A : Type} (randbelow : nat -> nat) (i : nat)
    (l : list A) : list A :=
  match i with
  | O => l
  | S i' =>
      shuffle_from randbelow i' (swap l i (randbelow (S i) mod S i))
  end.

Definition shuffle {A : Type} (randbelow : nat -> nat) (l : list A) : list A :=
  shuffle_from randbelow (List.length l - 1) l.

(** ** The image fit of runFotoFrame (lines 255 to 269) *)

Module ImageFitter.

Section Fit.
(** Screen size and [img.shape]: [rows = img.shape[0]]
    and [cols = img.shape[1]]. *)
Variables (wid hgt : Q) (rows cols : Z).

(** [size/n], [n] an [int]. *)
Definition per (size : Q) (n : Z) : option pyfloat :=
  match PyFloat.of_int n with
  | Some f => PyFloat.div (Fin size) f
  | None => None
  end.

Definition widratio : option pyfloat := per wid cols.
Definition hgtratio : option pyfloat := per hgt rows.
Definition ratio : option pyfloat :=
  match widratio, hgtratio with
  | Some a, Some b => Some (PyFloat.min a b)
  | _, _ => None
  end.

(** [int(ratio*n)], [n] an [int]. *)
Definition scaled (r : pyfloat) (n : Z) : option Z :=
  match PyFloat.of_int n with
  | Some f => PyFloat.to_int (PyFloat.mul r f)
  | None => None
  end.

(** [dims], width first; [None] when a division or [int] raises. *)
Definition dims : option (Z * Z) :=
  match ratio with
  | Some r =>
      match scaled r cols, scaled r rows with
      | Some dw, Some dh => Some (dw, dh)
      | _, _ => None
      end
  | None => None
  end.

(** The size of [imgresized], width first: the size asked of
    [cv2.resize], which raises when asked for an empty one. *)
Definition resized : option (Z * Z) :=
  match dims with
  | Some (dw, dh) => if (dw <=? 0) || (dh <=? 0) then None else Some (dw, dh)
  | None => None
  end.

(** [max(1,int((size-n)/2))], [n] an [int]. *)
Definition border (size : Q) (n : Z) : option Z :=
  match PyFloat.of_int n with
  | Some f =>
      match PyFloat.div (PyFloat.sub (Fin size) f) (Fin 2) with
      | Some half => option_map (Z.max 1) (PyFloat.to_int half)
      | None => None
      end
  | None => None
  end.

(** [imgresized.shape[1]] is the width, [imgresized.shape[0]] the
    height. *)
Definition widborder (dw : Z) : option Z := border wid dw.
Definition hgtborder (dh : Z) : option Z := border hgt dh.

(** Size of [imgbordered], width first; [None] when a line from 255 to
    269 raises. *)
Definition bordered : option (Z * Z) :=
  match resized with
  | Some (dw, dh) =>
      match widborder dw, hgtborder dh with
      | Some wb, Some hb => Some (dw + 2 * wb, dh + 2 * hb)
      | _, _ => None
      end
  | None => None
  end.

End Fit.
End ImageFitter.

Arguments ImageFitter.dims : simpl never.
Arguments ImageFitter.bordered : simpl never.

(** ** runFotoFrame *)

(** What the environment answers during one step of the loop. *)
Record World : Type := mkWorld {
  now_hour : Z;                                (* datetime.datetime.now().hour *)
  open_file : string -> option string;         (* open(fn,'r'), None: raises *)
  scandir : string -> option (list entry);     (* os.scandir, None: raises *)
  randbelow : nat -> nat;                      (* draws of random.shuffle *)
  imread : string -> option (Z * Z);           (* cv2.imread: None, or the
                                                  shape (rows, cols) *)
  waitKey : Z -> Z                             (* cv2.waitKey(ms): a key code,
                                                  -1 when the wait times out *)
}.

(** What the program does to its environment. *)
Inductive event : Type :=
| System (cmd : string)            (* os.system(cmd) *)
| Imshow (width height : Z)        (* cv2.imshow of a frame of that size *)
| WaitKey (ms : Z)                 (* cv2.waitKey(ms) *)
| DestroyWindow.                   (* cv2.destroyWindow *)

(** The variables assigned once, before the loop. *)
Record setup : Type := mkSetup {
  configfn : string;
  isWindows : bool;
  wid : Q;
  hgt : Q
}.

(** The variables the loop assigns. *)
Record vars : Type := mkVars {
  delay : pyfloat;
  wakehour : Z;
  bedtimehour : Z;
  photoFolder : string;
  pictureFiles : list string;
  lastHour : Z;
  sleeping : bool;
  done : bool
}.

Definition set_sleeping (v : vars) (b : bool) : vars :=
  mkVars (delay v) (wakehour v) (bedtimehour v) (photoFolder v)
         (pictureFiles v) (lastHour v) b (done v).
Definition set_done (v : vars) (b : bool) : vars :=
  mkVars (delay v) (wakehour v) (bedtimehour v) (photoFolder v)
         (pictureFiles v) (lastHour v) (sleeping v) b.

(** Where control is.  The [for] statement evaluates [pictureFiles] once,
    when it starts: its iterator keeps the list it was started on, while
    the variable may be assigned a new list by the hourly tasks. *)
Inductive machine : Type :=
| AtWhile (v : vars)                        (* about to test [not done] *)
| InFor (v : vars) (iter : list string)     (* about to ask the iterator *)
| Exited (v : vars)                         (* the window is destroyed *)
| Crashed.                                  (* an exception escaped *)

(** Lines 168 to 175: the screen size, from the rectangle the window
    reports.  The rectangle holds machine integers, which [float]
    converts without rounding. *)
Definition screen_size (rect_w rect_h : Z) : Q * Q :=
  let wid := inject_Z rect_w in
  let hgt := inject_Z rect_h in
  if PyFloat.Qlt_bool hgt 480 || PyFloat.Qlt_bool wid 640
  then (1920%Q, 1080%Q) else (wid, hgt).

(** Lines 211 to 215, and 335 to 339 of the script's entry point: the
    values read are taken only when [result[4]] is set. *)
Definition adopt (r : result) (old : pyfloat * Z * Z * string)
  : pyfloat * Z * Z * string :=
  if res_ok r
  then (res_delay r, res_wakeHour r, res_bedtimeHour r, res_photoFolder r)
  else old.

(** [os.system(cmd)] under [if not isWindows]. *)
Definition xset (s : setup) (cmd : string) : list event :=
  if isWindows s then [] else [System cmd].

(** [cv2.waitKey(ms) & 0xff], and whether the result differs from [0xff]. *)
Definition key_pressed (w : World) (ms : Z) : bool :=
  negb (Z.land (waitKey w ms) 255 =? 255).

(** Line 225. *)
Definition awake_hours (hour wakehour bedtimehour : Z) : bool :=
  (hour >=? wakehour) && (hour <? bedtimehour).

(** [int(delay*1000)]; [None] when [int] raises. *)
Definition delay_ms (d : pyfloat) : option Z :=
  PyFloat.to_int (PyFloat.mul d (Fin 1000)).

Arguments delay_ms : simpl never.

Section Loop.

Local Open Scope list_scope.

Variable pyfloat_of_string : string -> option pyfloat.
Variable s : setup.

(** Line 204: whether the hourly tasks are due. *)
Definition hourly_due (v : vars) (hour : Z) : bool :=
  negb (hour =? lastHour v) && negb (sleeping v).

(** Lines 204 to 219.  [None] when [scanForFiles] raises. *)
Definition hourly_tasks (v : vars) (w : World) : option vars * list event :=
  let hour := now_hour w in
  if hourly_due v hour then
    let controlFn := path_join (photoFolder v) (configfn s) in
    let result := checkForControlFile pyfloat_of_string (open_file w) controlFn
                    (delay v) (wakehour v) (bedtimehour v) (photoFolder v) in
    let '(delay', wakehour', bedtimehour', photoFolder') :=
      adopt result (delay v, wakehour v, bedtimehour v, photoFolder v) in
    match scanForFiles (scandir w) photoFolder' with
    | None => (None, xset s "xset s off")
    | Some found =>
        (Some (mkVars delay' wakehour' bedtimehour' photoFolder'
                      (shuffle (randbelow w) found) hour (sleeping v) (done v)),
         xset s "xset s off")
    end
  else (Some v, []).

(** Lines 238 to 245: [gotImg]. [len(img)] is the number of rows and
    raises on [None]. *)
Definition gotImg (img : option (Z * Z)) : bool :=
  match img with
  | Some (rows, _) => rows >? 0
  | None => false
  end.

(** Lines 226 to 281, the branch of waking hours, after the hourly tasks.
    The fit raises on a zero width, on a scaled size that is empty or not
    finite; [int] raises on a delay that is not finite. *)
Definition show_photo (v : vars) (fn : string) (rest : list string)
    (w : World) : machine * list event :=
  let wake_up := if sleeping v
                 then xset s "xset s off" ++ xset s "xset dpms force on"
                 else [] in
  let v := set_sleeping v false in
  let img := imread w fn in
  if negb (gotImg img) then (InFor v rest, wake_up)    (* continue *)
  else
    match img with
    | None => (InFor v rest, wake_up)
    | Some (rows, cols) =>
        match ImageFitter.bordered (wid s) (hgt s) rows cols with
        | None => (Crashed, wake_up)
        | Some (bw, bh) =>
            match delay_ms (delay v) with
            | None => (Crashed, wake_up ++ [Imshow bw bh])
            | Some ms =>
                let evs := wake_up ++ [Imshow bw bh; WaitKey ms] in
                if key_pressed w ms
                then (AtWhile (set_done v true), evs)   (* break *)
                else (InFor v rest, evs)
            end
        end
    end.

(** Lines 282 to 294, the branch of sleeping hours. *)
Definition sleep_wait (v : vars) (rest : list string) (w : World)
  : machine * list event :=
  let evs := xset s "xset dpms force standby" ++ [WaitKey (300 * 1000)] in
  let v := set_sleeping v true in
  if key_pressed w (300 * 1000)
  then (InFor (set_done v true) rest, evs)
  else (InFor v rest, evs).

(** The body of [for fn in pictureFiles], lines 197 to 294. *)
Definition body (v : vars) (fn : string) (rest : list string) (w : World)
  : machine * list event :=
  let hour := now_hour w in
  let ev0 := xset s "xset dpms force on" in
  match hourly_tasks v w with
  | (None, ev1) => (Crashed, ev0 ++ ev1)
  | (Some v1, ev1) =>
      let '(m, ev2) :=
        if awake_hours hour (wakehour v1) (bedtimehour v1)
        then show_photo v1 fn rest w
        else sleep_wait v1 rest w in
      (m, ev0 ++ ev1 ++ ev2)
  end.

(** One step of lines 191 to 298. *)
Definition step (m : machine) (w : World) : machine * list event :=
  match m with
  | AtWhile v =>
      if done v then (Exited v, [DestroyWindow]) else (InFor v (pictureFiles v), [])
  | InFor v [] => (AtWhile v, [])
  | InFor v (fn :: rest) => body v fn rest w
  | Exited v => (Exited v, [])
  | Crashed => (Crashed, [])
  end.

(** Steps along the successive states of the world, with the events in
    the order they happen. *)
Fixpoint run (m : machine) (ws : list World) : machine * list event :=
  match ws with
  | [] => (m, [])
  | w :: ws' =>
      let '(m1, ev1) := step m w in
      let '(m2, ev2) := run m1 ws' in
      (m2, ev1 ++ ev2)
  end.

(** Lines 153 to 188: the state in which the loop is entered.  [None]
    when the first scan raises. *)
Definition enter (params : pyfloat * Z * Z * string) (w : World)
  : option machine :=
  let '(delay, wakehour, bedtimehour, photoFolder) := params in
  match scanForFiles (scandir w) photoFolder with
  | None => None
  | Some found =>
      Some (AtWhile (mkVars delay wakehour bedtimehour photoFolder
                            (shuffle (randbelow w) found)
                            (now_hour w) false false))
  end.

End Loop.

(** [runFotoFrame(params)] along the worlds [w0 :: ws]: [w0] is the world
    of lines 153 to 188, then comes one world for each step of the loop.
    [platform_windows] is [sys.platform.startswith('win')]; [rect_w] and
    [rect_h] are the width and height [cv2.getWindowImageRect] reports. *)
Definition runFotoFrame (pyfloat_of_string : string -> option pyfloat)
    (params : pyfloat * Z * Z * string * string) (platform_windows : bool)
    (rect_w rect_h : Z) (w0 : World) (ws : list World)
  : machine * list event :=
  let '(delay, wakehour, bedtimehour, photoFolder, configfn) := params in
  let '(wid, hgt) := screen_size rect_w rect_h in
  let s := mkSetup configfn platform_windows wid hgt in
  match enter (delay, wakehour, bedtimehour, photoFolder) w0 with
  | None => (Crashed, [])
  | Some m =>
      let '(m', evs) := run pyfloat_of_string s m ws in
      (m', (xset s "xset s off" ++ evs)%list)
  end.

(** ** Notions used to state the properties of checkForControlFile *)

Definition is_none {A : Type} (o : option A) : bool :=
  match o with None => true | Some _ => false end.

(** Whether the loop body raises on [line]: a numeric key whose value
    [float] rejects. *)
Definition raises (pyfloat_of_string : string -> option pyfloat)
    (line : string) : bool :=
  (PyStr.startswith line "DELAY=" && is_none (pyfloat_of_string (PyStr.slice_from line 6)))
  || (PyStr.startswith line "WAKE=" && is_none (pyfloat_of_string (PyStr.slice_from line 5)))
  || (PyStr.startswith line "SLEEP=" && is_none (pyfloat_of_string (PyStr.slice_from line 6))).

(** The lines in front of the first one that raises. *)
Fixpoint processed (pyfloat_of_string : string -> option pyfloat)
    (lines : list string) : list string :=
  match lines with
  | [] => []
  | line :: rest =>
      if raises pyfloat_of_string line then []
      else line :: processed pyfloat_of_string rest
  end.

(** Whether some line starts with [key]. *)
Definition seen (key : string) (lines : list string) : bool :=
  existsb (fun line => PyStr.startswith line key) lines.

Definition all_keys_seen (lines : list string) : bool :=
  seen "DELAY=" lines && seen "WAKE=" lines
  && seen "SLEEP=" lines && seen "PATH=" lines.

(** [readparams] as a function of the keys met. *)
Definition mask (d w s p : bool) : Z :=
  Z.b2z d + 2 * Z.b2z w + 4 * Z.b2z s + 8 * Z.b2z p.

Definition delay_in_range (x : pyfloat) : Prop :=
  exists q, x = Fin q /\ (1 <= q <= 60)%Q.

(** What the loader's variables hold once the keys [d], [w], [s], [p]
    have been met, [prior] being the values it was called with. *)
Record tracks (prior : result) (d w s p : bool) (st : result * Z) : Prop := {
  tr_mask : snd st = mask d w s p;
  tr_ok : res_ok (fst st) = res_ok prior;
  tr_delay : if d then delay_in_range (res_delay (fst st))
             else res_delay (fst st) = res_delay prior;
  tr_wake : if w then 0 <= res_wakeHour (fst st) <= 10
            else res_wakeHour (fst st) = res_wakeHour prior;
  tr_sleep : if s then 0 <= res_bedtimeHour (fst st) <= 23
             else res_bedtimeHour (fst st) = res_bedtimeHour prior;
  tr_path : p = false -> res_photoFolder (fst st) = res_photoFolder prior
}.

(** The folder left by the [PATH=] lines of [lines], read in order from
    [prior]: each one replaces it by its value without the last
    character. *)
Definition path_after (lines : list string) (prior : string) : string :=
  fold_left (fun acc line =>
               if PyStr.startswith line "PATH="
               then PyStr.removelast (PyStr.drop 5 line) else acc)
            lines prior.

(** What a line gives for the delay: for a [DELAY=] line, [float] of what
    follows the key brought into [1, 60]; nothing for another line, nor
    when [float] raises. *)
Definition delay_of (pyfloat_of_string : string -> option pyfloat)
    (line : string) : option pyfloat :=
  if PyStr.startswith line "DELAY=" then
    match pyfloat_of_string (PyStr.slice_from line 6) with
    | Some x => Some (PyFloat.min (Fin 60) (PyFloat.max (Fin 1) x))
    | None => None
    end
  else None.

(** What a line gives for an hour: for a line that starts with [key],
    [float] of what follows the key brought into [0, hi] and truncated. *)
Definition hour_of (pyfloat_of_string : string -> option pyfloat)
    (key : string) (hi : Q) (line : string) : option Z :=
  if PyStr.startswith line key then
    match pyfloat_of_string
            (PyStr.slice_from line (Z.of_nat (String.length key))) with
    | Some x => PyFloat.to_int (PyFloat.min (Fin hi) (PyFloat.max (Fin 0) x))
    | None => None
    end
  else None.

(** The value given by the last line of [lines] that gives one, [prior]
    when none does. *)
Definition last_value {A : Type} (value_of : string -> option A)
    (lines : list string) (prior : A) : A :=
  fold_left (fun acc line =>
               match value_of line with Some x => x | None => acc end)
            lines prior.

(** A line feed, and the sample file of the script's header, with and
    without a line feed after its last line. *)
Definition nl : string := String LF EmptyString.
Definition sample_head : string :=
  "DELAY=3.5" ++ nl ++ "WAKE=6" ++ nl ++ "SLEEP=21" ++ nl.
Definition sample_file : string :=
  sample_head ++ "PATH=/media/pi/photoframe" ++ nl.
Definition sample_file_unterminated : string :=
  sample_head ++ "PATH=/media/pi/photoframe".

(** ** Notions used to state the properties of scanForFiles *)

(** Induction on a tree, with the property available for every child of a
    folder. *)
Section EntryInduction.
Variable P : entry -> Prop.
Hypothesis P_file : forall name, P (EFile name).
Hypothesis P_dir : forall name children, Forall P children -> P (EDir name children).
Hypothesis P_denied : forall name, P (EDenied name).
Hypothesis P_other : forall name, P (EOther name).

Fixpoint entry_induction (e : entry) : P e :=
  match e with
  | EFile name => P_file name
  | EDir name children =>
      P_dir name children
        ((fix all (es : list entry) : Forall P es :=
            match es with
            | [] => Forall_nil P
            | e' :: es' => Forall_cons e' (entry_induction e') (all es')
            end) children)
  | EDenied name => P_denied name
  | EOther name => P_other name
  end.
End EntryInduction.

(** The regular files below an entry of [folder], each with its path and
    its name, folders listed in depth. *)
Fixpoint filesOfEntry (folder : string) (e : entry) {struct e}
  : list (string * string) :=
  match e with
  | EFile name => [(path_join folder name, name)]
  | EDir name children =>
      let sub := path_join folder name in
      (fix all (es : list entry) : list (string * string) :=
         match es with
         | [] => []
         | e' :: es' => (filesOfEntry sub e' ++ all es')%list
         end) children
  | EDenied _ => []
  | EOther _ => []
  end.

Definition filesOf (folder : string) (es : list entry) : list (string * string) :=
  flat_map (filesOfEntry folder) es.

(** Every folder of the tree can be listed. *)
Fixpoint readableEntry (e : entry) : bool :=
  match e with
  | EFile _ => true
  | EDir _ children =>
      (fix all (es : list entry) : bool :=
         match es with
         | [] => true
         | e' :: es' => readableEntry e' && all es'
         end) children
  | EDenied _ => false
  | EOther _ => true
  end.

Definition readable (es : list entry) : bool := forallb readableEntry es.

(** [name] ends in [ext], the case of letters ignored: its last characters
    lower to [ext]. *)
Definition ends_with_ci (name ext : string) : Prop :=
  exists stem tail, name = stem ++ tail /\ PyStr.lower tail = ext.

(** The paths of the pictures among files given with their names. *)
Definition pictures_of (files : list (string * string)) : list string :=
  map fst (filter (fun f => is_picture (snd f)) files).

(** The tree of the example: a.JPG, b.png, c.txt and sub/d.jpg. *)
Definition example_tree : list entry :=
  [EFile "a.JPG"; EFile "b.png"; EFile "c.txt"; EDir "sub" [EFile "d.jpg"]].

(** ** Notions used to state the properties of the image fit *)

(** Truncation toward zero, from the two roundings of the library. *)
Definition trunc_toward_zero (q : Q) : Z :=
  if Qle_bool 0 q then Qfloor q else Qceiling q.

(** [z] is [q] rounded to a nearest integer, whatever the rule for ties. *)
Definition rounds_to (q : Q) (z : Z) : Prop :=
  (Qabs (q - inject_Z z) <= 1 # 2)%Q.

(** The value of a float of the Standard Library's specification of
    IEEE 754, and of a primitive float of the kernel. *)
Definition of_spec (f : SpecFloat.spec_float) : pyfloat :=
  match f with
  | SpecFloat.S754_zero _ => Fin 0
  | SpecFloat.S754_infinity false => PInf
  | SpecFloat.S754_infinity true => NInf
  | SpecFloat.S754_nan => NaN
  | SpecFloat.S754_finite sign m e =>
      Fin (Qred ((if sign then - inject_Z (Zpos m) else inject_Z (Zpos m))
                 * 2 ^ e))
  end.

Definition of_prim (f : PrimFloat.float) : pyfloat :=
  of_spec (FloatOps.Prim2SF f).

(** The scale of the fit, computed without rounding. *)
Definition exact_ratio (W H w h : Z) : Q :=
  Qmin (inject_Z W / inject_Z w) (inject_Z H / inject_Z h).

(** [k] is the floor of [X], or the whole number below when [X] is
    whole. *)
Definition floor_or_below (X : Q) (k : Z) : Prop :=
  k = Qfloor X \/ ((X == inject_Z (Qfloor X))%Q /\ k = Qfloor X - 1).

(** ** Notions used to state the properties of the loop *)

Definition machine_vars (m : machine) : option vars :=
  match m with
  | AtWhile v | InFor v _ | Exited v => Some v
  | Crashed => None
  end.

(** Whether the step taken from [m] in the world [w] runs the hourly
    tasks. *)
Definition refresh_fires (m : machine) (w : World) : bool :=
  match m with
  | InFor v (_ :: _) => hourly_due v (now_hour w)
  | _ => false
  end.

(** How many times the hourly tasks run along [ws]. *)
Fixpoint refreshes (pyfloat_of_string : string -> option pyfloat) (s : setup)
    (m : machine) (ws : list World) : nat :=
  match ws with
  | [] => 0
  | w :: ws' =>
      ((if refresh_fires m w then 1 else 0)
       + refreshes pyfloat_of_string s (fst (step pyfloat_of_string s m w)) ws')%nat
  end.

(** An event that is a call of [os.system]. *)
Definition is_system (e : event) : bool :=
  match e with System _ => true | _ => false end.

(** The setting of the examples: a Windows machine with a 1920 by 1080
    screen, waking hours from 7 to 21, two pictures, and a world at hour
    [hour] in which every picture decodes to 640 by 480 and [cv2.waitKey]
    returns [key]. *)
Definition example_setup : setup := mkSetup "photoframe.ini" true 1920 1080.
Definition example_vars (lastHour : Z) (sleeping : bool) : vars :=
  mkVars (Fin 2) 7 21 "root" ["a.jpg"; "b.jpg"] lastHour sleeping false.
Definition example_world (hour key : Z) : World :=
  mkWorld hour (fun _ => None) (fun _ => Some example_tree) (fun _ => O)
          (fun _ => Some (480, 640)) (fun _ => key).

(** ** The script's entry point (lines 315 to 348) *)

(** [argv] is [sys.argv]; the control file is read in the world [w0]; when
    it is taken, [runFotoFrame] runs along [w1 :: ws].  [None] when
    [runFotoFrame] is not called. *)
Definition main (pyfloat_of_string : string -> option pyfloat)
    (argv : list string) (platform_windows : bool) (rect_w rect_h : Z)
    (w0 w1 : World) (ws : list World) : option (machine * list event) :=
  let photoFolder := "/media/HDD" in
  let delay := Fin 4 in
  let wakehour := 7 in
  let bedtimehour := 21 in
  let configfn := match argv with
                  | _ :: name :: _ => name
                  | _ => "photoframe.ini"
                  end in
  let result := checkForControlFile pyfloat_of_string (open_file w0) configfn
                  delay wakehour bedtimehour photoFolder in
  if res_ok result
  then Some (runFotoFrame pyfloat_of_string
               (res_delay result, res_wakeHour result, res_bedtimeHour result,
                res_photoFolder result, configfn)
               platform_windows rect_w rect_h w1 ws)
  else None.

(** ** Further notions *)

(** Whether [line] starts with one of the four keys. *)
Definition keyed (line : string) : bool :=
  PyStr.startswith line "DELAY=" || PyStr.startswith line "WAKE="
  || PyStr.startswith line "SLEEP=" || PyStr.startswith line "PATH=".

(** The loader's variables agree on the keys met. *)
Definition agree (d w s p : bool) (st1 st2 : result * Z) : Prop :=
  (d = true -> res_delay (fst st1) = res_delay (fst st2))
  /\ (w = true -> res_wakeHour (fst st1) = res_wakeHour (fst st2))
  /\ (s = true -> res_bedtimeHour (fst st1) = res_bedtimeHour (fst st2))
  /\ (p = true -> res_photoFolder (fst st1) = res_photoFolder (fst st2)).

(** The delay and the two hours are in the ranges of the control file. *)
Definition config_in_range (v : vars) : Prop :=
  delay_in_range (delay v)
  /\ 0 <= wakehour v <= 10 /\ 0 <= bedtimehour v <= 23.





Definition is_imshow (e : event) : bool :=
  match e with Imshow _ _ => true | _ => false end.

(** A wait of the sleeping hours, or the pause of a picture, between one
    second and one minute. *)
Definition wait_in_range (e : event) : Prop :=
  match e with
  | WaitKey ms => ms = 300000 \/ 1000 <= ms <= 60000
  | _ => True
  end.


(** One turn of a pass over the catalog: the picture, the world it is
    shown in, and the width and height of its frame with the pause. *)
Definition turn : Type := (string * World * (Z * Z * Z))%type.
Definition turn_file (t : turn) : string := fst (fst t).
Definition turn_world (t : turn) : World := snd (fst t).

(** What can happen in sleeping hours: a call of [os.system], a wait of
    300 seconds, the destruction of the window. *)
Definition is_night_event (e : event) : bool :=
  match e with
  | System _ => true
  | WaitKey ms => ms =? 300000
  | DestroyWindow => true
  | Imshow _ _ => false
  end.

(** The events of the turn of a picture that is shown. *)
Definition turn_events (s : setup) (t : turn) : list event :=
  let '(_, _, (bw, bh, ms)) := t in
  (xset s "xset dpms force on" ++ [Imshow bw bh; WaitKey ms])%list.

(** The control file named on the command line. *)
Definition configfn_of (argv : list string) : string :=
  match argv with
  | _ :: name :: _ => name
  | _ => "photoframe.ini"
  end.

(** How many steps a machine whose [done] is set can still take. *)
Definition steps_left (m : machine) : nat :=
  match m with
  | AtWhile _ => 1
  | InFor _ iter => List.length iter + 2
  | Exited _ => 0
  | Crashed => 0
  end.

(** What the turn of a picture that is shown does: the picture [fn]
    decodes in [w] to an image the fit accepts, the hour is the one of the
    last hourly tasks and a waking one, and no key is down. *)
Definition shown (s : setup) (v : vars) (fn : string) (w : World)
    (bw bh ms : Z) : Prop :=
  now_hour w = lastHour v
  /\ awake_hours (now_hour w) (wakehour v) (bedtimehour v) = true
  /\ delay_ms (delay v) = Some ms
  /\ key_pressed w ms = false
  /\ exists rows cols,
       imread w fn = Some (rows, cols) /\ rows > 0
       /\ ImageFitter.bordered (wid s) (hgt s) rows cols = Some (bw, bh).

(** * Strings *)

Module PyStrFacts.
Import PyStr.

Lemma length_append (a b : string) :
  String.length (a ++ b) = (String.length a + String.length b)%nat.
Proof. induction a as [|c a IH]; simpl; [reflexivity | now rewrite IH]. Qed.

Lemma drop_append (a b : string) : drop (String.length a) (a ++ b) = b.
Proof. induction a as [|c a IH]; simpl; [now destruct b | exact IH]. Qed.

Lemma drop_0 (s : string) : drop 0 s = s.
Proof. now destruct s. Qed.

Lemma take_pred_removelast (v : string) :
  take (String.length v - 1) v = removelast v.
Proof.
  induction v as [|c v IH]; [reflexivity|].
  destruct v as [|c' v']; [reflexivity|].
  replace (String.length (String c (String c' v')) - 1)%nat
    with (S (String.length (String c' v') - 1)) by (simpl; lia).
  simpl take. simpl removelast. f_equal. exact IH.
Qed.

Lemma removelast_append_char (t : string) (c : ascii) :
  removelast (t ++ String c EmptyString) = t.
Proof.
  induction t as [|a t IH]; [reflexivity|].
  simpl. rewrite IH. destruct t; reflexivity.
Qed.

(** [("PATH=" ++ v)[5:-1]] is [v] without its last character. *)
Lemma slice_PATH (v : string) : slice ("PATH=" ++ v) 5 (-1) = removelast v.
Proof.
  unfold slice, slice_bound.
  rewrite length_append.
  change (String.length "PATH=") with 5%nat.
  set (n := String.length v).
  change (5 <? 0) with false. change (-1 <? 0) with true. cbv iota.
  replace (Z.to_nat (Z.min 5 (Z.of_nat (5 + n)))) with 5%nat by lia.
  replace (Z.to_nat (Z.max 0 (Z.of_nat (5 + n) + -1) - Z.min 5 (Z.of_nat (5 + n))))
    with (n - 1)%nat by lia.
  change 5%nat with (String.length "PATH=") at 1.
  rewrite drop_append. apply take_pred_removelast.
Qed.

End PyStrFacts.

(** * Rounding to binary64 *)

Module Binary64Facts.
Import PyFloat.

Local Open Scope Q_scope.

Lemma inject_Z_pos (n : Z) : (0 < n)%Z -> 0 < inject_Z n.
Proof. intro H. change 0 with (inject_Z 0). now rewrite <- Zlt_Qlt. Qed.

Lemma pow2_pos (k : Z) : 0 < 2 ^ k.
Proof. now apply Qpower_0_lt. Qed.

Lemma pow2_add (a b : Z) : 2 ^ (a + b) == 2 ^ a * 2 ^ b.
Proof. apply Qpower_plus. discriminate. Qed.

Lemma pow2_le (a b : Z) : (a <= b)%Z -> 2 ^ a <= 2 ^ b.
Proof. intro H. apply Qpower_le_compat_l; [exact H | discriminate]. Qed.

Lemma pow2_lt (a b : Z) : (a < b)%Z -> 2 ^ a < 2 ^ b.
Proof. intro H. apply Qpower_lt_compat_l; [exact H | reflexivity]. Qed.

Lemma pow2_lt_inv (a b : Z) : 2 ^ a < 2 ^ b -> (a < b)%Z.
Proof. intro H. apply (Qpower_lt_compat_l_inv 2); [exact H | reflexivity]. Qed.

Lemma pow2_Z (k : Z) : (0 <= k)%Z -> inject_Z (2 ^ k) == 2 ^ k.
Proof. intro H. now rewrite Zpower_Qpower. Qed.

Lemma pow2_cancel (a : Z) (x : Q) : x / 2 ^ a * 2 ^ a == x.
Proof. pose proof (pow2_pos a). field. lra. Qed.

Lemma rne_bounds (y : Q) :
  inject_Z (rne y) - (1 # 2) <= y <= inject_Z (rne y) + (1 # 2).
Proof.
  unfold rne. pose proof (Qfloor_le y) as L. pose proof (Qlt_floor y) as U.
  rewrite inject_Z_plus in U. change (inject_Z 1) with 1 in U.
  destruct (Qcompare_spec (y - inject_Z (Qfloor y)) (1 # 2)) as [E|E|E].
  - destruct (Z.even (Qfloor y)); [|rewrite inject_Z_plus; change (inject_Z 1) with 1]; lra.
  - lra.
  - rewrite inject_Z_plus. change (inject_Z 1) with 1. lra.
Qed.

Lemma rne_ge (n : Z) (y : Q) : inject_Z n <= y -> (n <= rne y)%Z.
Proof.
  intro H. apply Qfloor_resp_le in H. rewrite Qfloor_Z in H.
  unfold rne. destruct (y - inject_Z (Qfloor y) ?= 1 # 2);
    [destruct (Z.even (Qfloor y))| |]; lia.
Qed.

Lemma rne_le (n : Z) (y : Q) : y <= inject_Z n -> (rne y <= n)%Z.
Proof.
  intro H. pose proof (Qfloor_resp_le _ _ H) as F. rewrite Qfloor_Z in F.
  unfold rne. pose proof (Qfloor_le y) as L.
  destruct (Z.eq_dec (Qfloor y) n) as [E|E].
  - rewrite E in *.
    destruct (Qcompare_spec (y - inject_Z n) (1 # 2)) as [C|C|C];
      [lra | lia | lra].
  - destruct (y - inject_Z (Qfloor y) ?= 1 # 2);
      [destruct (Z.even (Qfloor y))| |]; lia.
Qed.

Lemma mag_spec (x : Q) : 0 < x -> 2 ^ mag x <= x < 2 ^ (mag x + 1).
Proof.
  intro Hx. destruct x as [n d]. unfold mag. cbn [Qnum Qden].
  assert (Hn : (0 < n)%Z) by (unfold Qlt in Hx; simpl in Hx; lia).
  set (ln := Z.log2 n). set (ld := Z.log2 (Zpos d)).
  destruct (Z.log2_spec n Hn) as [N1 N2]. fold ln in N1, N2.
  destruct (Z.log2_spec (Zpos d) eq_refl) as [D1 D2]. fold ld in D1, D2.
  assert (Ln : (0 <= ln)%Z) by apply Z.log2_nonneg.
  assert (Ld : (0 <= ld)%Z) by apply Z.log2_nonneg.
  assert (X : (n # d) * inject_Z (Zpos d) == inject_Z n).
  { rewrite (Qmake_Qdiv n d). field. discriminate. }
  rewrite Zle_Qle, pow2_Z in N1, D1 by lia.
  rewrite Zlt_Qlt, pow2_Z in N2, D2 by lia.
  pose proof (pow2_pos ld) as Pd.
  destruct (Qle_bool (2 ^ (ln - ld)) (n # d)) eqn:B.
  - apply Qle_bool_iff in B. split; [exact B|].
    apply Qmult_lt_r with (z := 2 ^ ld); [exact Pd|].
    rewrite <- pow2_add. replace (ln - ld + 1 + ld)%Z with (Z.succ ln) by lia.
    apply Qle_lt_trans with (inject_Z n); [|exact N2].
    rewrite <- X. apply Qmult_le_l; [exact Hx | exact D1].
  - assert (B' : n # d < 2 ^ (ln - ld)).
    { apply Qnot_le_lt. intro C. apply Qle_bool_iff in C. congruence. }
    replace (ln - ld - 1 + 1)%Z with (ln - ld)%Z by lia.
    split; [|exact B'].
    apply Qmult_le_r with (z := 2 ^ Z.succ ld); [apply pow2_pos|].
    rewrite <- pow2_add. replace (ln - ld - 1 + Z.succ ld)%Z with ln by lia.
    apply Qle_trans with (inject_Z n); [exact N1|].
    rewrite <- X. apply Qmult_le_l; [exact Hx|]. now apply Qlt_le_weak.
Qed.

Lemma mag_unique (x : Q) (k : Z) : 2 ^ k <= x < 2 ^ (k + 1) -> mag x = k.
Proof.
  intros [L U].
  assert (Hx : 0 < x) by (pose proof (pow2_pos k); lra).
  destruct (mag_spec x Hx) as [L' U'].
  assert (k < mag x + 1)%Z by (apply pow2_lt_inv; lra).
  assert (mag x < k + 1)%Z by (apply pow2_lt_inv; lra).
  lia.
Qed.

Lemma mag_le (x y : Q) : 0 < x -> x <= y -> (mag x <= mag y)%Z.
Proof.
  intros Hx H.
  destruct (mag_spec x Hx) as [L _].
  destruct (mag_spec y) as [_ U]; [lra|].
  assert (mag x < mag y + 1)%Z by (apply pow2_lt_inv; lra).
  lia.
Qed.

Lemma Qabs_pos_eq (x : Q) : 0 < x -> Qabs x = x.
Proof.
  destruct x as [n d]. unfold Qlt, Qabs. simpl. intro H.
  f_equal. lia.
Qed.

Lemma rnd_eq (x : Q) :
  rnd x = inject_Z (rne (x / 2 ^ ulp_exp x)) * 2 ^ ulp_exp x.
Proof. reflexivity. Qed.

(** The absolute error is at most half a unit in the last place. *)
Lemma rnd_error (x : Q) :
  x - 2 ^ ulp_exp x * (1 # 2) <= rnd x <= x + 2 ^ ulp_exp x * (1 # 2).
Proof.
  rewrite rnd_eq. set (e := ulp_exp x).
  pose proof (pow2_pos e) as P.
  pose proof (rne_bounds (x / 2 ^ e)) as [L U].
  pose proof (pow2_cancel e x) as C.
  set (y := x / 2 ^ e) in *. set (r := inject_Z (rne y)) in *.
  set (p := 2 ^ e) in *. clearbody r. clearbody y. clearbody p.
  split; nra.
Qed.

Lemma ulp_exp_normal (x : Q) :
  2 ^ (-1022) <= x -> ulp_exp x = (mag x - 52)%Z.
Proof.
  intro H. assert (Hx : 0 < x) by (pose proof (pow2_pos (-1022)); lra).
  unfold ulp_exp. rewrite (Qabs_pos_eq x Hx).
  destruct (mag_spec x Hx) as [_ U].
  assert (-1022 < mag x + 1)%Z by (apply pow2_lt_inv; lra).
  lia.
Qed.

(** In the normal range the relative error is at most [2^-53]. *)
Lemma rnd_relative (x : Q) :
  2 ^ (-1022) <= x ->
  x * (1 - 2 ^ (-53)) <= rnd x <= x * (1 + 2 ^ (-53)).
Proof.
  intro H. assert (Hx : 0 < x) by (pose proof (pow2_pos (-1022)); lra).
  pose proof (rnd_error x) as [L U]. rewrite (ulp_exp_normal x H) in L, U.
  destruct (mag_spec x Hx) as [M _].
  replace (mag x - 52)%Z with (mag x + -52)%Z in L, U by lia.
  rewrite pow2_add in L, U.
  change (2 ^ (-52)) with (1 # 4503599627370496) in L, U.
  change (2 ^ (-53)) with (1 # 9007199254740992).
  set (p := 2 ^ mag x) in *. split; lra.
Qed.

Lemma grid_integer (m k e : Z) :
  (e <= k)%Z -> inject_Z m * 2 ^ k / 2 ^ e == inject_Z (m * 2 ^ (k - e)).
Proof.
  intro H. rewrite inject_Z_mult, pow2_Z by lia.
  replace k with ((k - e) + e)%Z at 1 by lia. rewrite pow2_add.
  pose proof (pow2_pos e). field. lra.
Qed.

Lemma rnd_lower (x : Q) :
  2 ^ (-1022) <= x -> 2 ^ mag x <= rnd x.
Proof.
  intro H. assert (Hx : 0 < x) by (pose proof (pow2_pos (-1022)); lra).
  rewrite rnd_eq, (ulp_exp_normal x H). set (e := (mag x - 52)%Z).
  destruct (mag_spec x Hx) as [M _].
  assert (G : inject_Z (2 ^ 52) <= x / 2 ^ e).
  { apply Qle_shift_div_l; [apply pow2_pos|].
    rewrite pow2_Z, <- pow2_add by lia.
    now replace (52 + e)%Z with (mag x) by (unfold e; lia). }
  apply rne_ge in G. rewrite Zle_Qle, pow2_Z in G by lia.
  replace (mag x) with (52 + e)%Z at 1 by (unfold e; lia).
  rewrite pow2_add. apply Qmult_le_compat_r; [exact G|].
  apply Qlt_le_weak, pow2_pos.
Qed.

Lemma ulp_exp_le_grid (x : Q) (m k : Z) :
  0 < x -> (0 < m < 2 ^ 53)%Z -> (-1074 <= k)%Z ->
  x <= inject_Z m * 2 ^ k -> (ulp_exp x <= k)%Z.
Proof.
  intros Hx Hm Hk H. unfold ulp_exp. rewrite (Qabs_pos_eq x Hx).
  destruct (mag_spec x Hx) as [M _].
  assert (inject_Z m < 2 ^ 53).
  { rewrite <- pow2_Z by lia. rewrite <- Zlt_Qlt. lia. }
  assert (2 ^ mag x < 2 ^ (53 + k)).
  { rewrite pow2_add. pose proof (pow2_pos k). nra. }
  assert (mag x < 53 + k)%Z by now apply pow2_lt_inv.
  lia.
Qed.

Lemma rnd_grid_le (x : Q) (m k : Z) :
  0 < x -> (0 < m < 2 ^ 53)%Z -> (-1074 <= k)%Z ->
  x <= inject_Z m * 2 ^ k -> rnd x <= inject_Z m * 2 ^ k.
Proof.
  intros Hx Hm Hk H.
  pose proof (ulp_exp_le_grid x m k Hx Hm Hk H) as E.
  rewrite rnd_eq. set (e := ulp_exp x) in *.
  pose proof (pow2_pos e) as P.
  assert (G : x / 2 ^ e <= inject_Z (m * 2 ^ (k - e))).
  { rewrite <- grid_integer by exact E.
    apply Qle_shift_div_l; [exact P|]. rewrite pow2_cancel. exact H. }
  apply rne_le in G. rewrite Zle_Qle in G.
  rewrite <- (pow2_cancel e (inject_Z m * 2 ^ k)), grid_integer by exact E.
  apply Qmult_le_compat_r; [exact G | lra].
Qed.

Lemma rnd_grid_ge (x : Q) (m k : Z) :
  (0 < m < 2 ^ 53)%Z -> (-1074 <= k)%Z ->
  inject_Z m * 2 ^ k <= x -> inject_Z m * 2 ^ k <= rnd x.
Proof.
  intros Hm Hk H.
  assert (Hg : 0 < inject_Z m * 2 ^ k).
  { pose proof (pow2_pos k). assert (0 < inject_Z m) by (apply inject_Z_pos; lia). nra. }
  assert (Hx : 0 < x) by lra.
  destruct (Z_le_gt_dec (ulp_exp x) k) as [E|E].
  - rewrite rnd_eq. set (e := ulp_exp x) in *.
    pose proof (pow2_pos e) as P.
    assert (G : inject_Z (m * 2 ^ (k - e)) <= x / 2 ^ e).
    { rewrite <- grid_integer by exact E.
      apply Qle_shift_div_l; [exact P|]. rewrite pow2_cancel. exact H. }
    apply rne_ge in G. rewrite Zle_Qle in G.
    rewrite <- (pow2_cancel e (inject_Z m * 2 ^ k)), grid_integer by exact E.
    apply Qmult_le_compat_r; [exact G | lra].
  - assert (N : ulp_exp x = (mag x - 52)%Z).
    { unfold ulp_exp in *. rewrite (Qabs_pos_eq x Hx) in *. lia. }
    assert (X : 2 ^ (-1022) <= x).
    { destruct (mag_spec x Hx) as [M _].
      apply Qle_trans with (2 ^ mag x); [apply pow2_le; lia | exact M]. }
    apply Qle_trans with (2 ^ mag x); [|now apply rnd_lower].
    apply Qle_trans with (2 ^ (53 + k)); [|apply pow2_le; lia].
    rewrite pow2_add.
    assert (inject_Z m <= 2 ^ 53).
    { rewrite <- pow2_Z by lia. rewrite <- Zle_Qle. lia. }
    pose proof (pow2_pos k). nra.
Qed.

Lemma rnd_grid (m k : Z) :
  (0 < m < 2 ^ 53)%Z -> (-1074 <= k)%Z ->
  rnd (inject_Z m * 2 ^ k) == inject_Z m * 2 ^ k.
Proof.
  intros Hm Hk. apply Qle_antisym.
  - apply rnd_grid_le; try assumption; [|apply Qle_refl].
    pose proof (pow2_pos k). assert (0 < inject_Z m) by (apply inject_Z_pos; lia). nra.
  - apply rnd_grid_ge; try assumption. apply Qle_refl.
Qed.

(** ** The operations on floats *)

Lemma grid_pos (m k : Z) : (0 < m)%Z -> 0 < inject_Z m * 2 ^ k.
Proof.
  intro H. pose proof (pow2_pos k). pose proof (inject_Z_pos m H). nra.
Qed.

Lemma round64_finite (x : Q) :
  - 2 ^ 1024 < rnd (Qred x) < 2 ^ 1024 ->
  round64 x = Fin (Qred (rnd (Qred x))).
Proof.
  intros [L U]. unfold round64. cbv zeta.
  destruct (Qle_bool (2 ^ 1024) (Qred (rnd (Qred x)))) eqn:A.
  { apply Qle_bool_iff in A. rewrite Qred_correct in A. lra. }
  destruct (Qle_bool (Qred (rnd (Qred x))) (- 2 ^ 1024)) eqn:B.
  { apply Qle_bool_iff in B. rewrite Qred_correct in B. lra. }
  reflexivity.
Qed.

(** Rounding keeps a number between two doubles that enclose it. *)
Lemma round64_between (x : Q) (m1 k1 m2 k2 : Z) :
  (0 < m1 < 2 ^ 53)%Z -> (-1074 <= k1)%Z ->
  (0 < m2 < 2 ^ 53)%Z -> (-1074 <= k2)%Z ->
  inject_Z m2 * 2 ^ k2 < 2 ^ 1024 ->
  inject_Z m1 * 2 ^ k1 <= x <= inject_Z m2 * 2 ^ k2 ->
  exists q, round64 x = Fin q
            /\ inject_Z m1 * 2 ^ k1 <= q <= inject_Z m2 * 2 ^ k2.
Proof.
  intros M1 K1 M2 K2 B [L U].
  pose proof (grid_pos m1 k1 (proj1 M1)) as P1.
  rewrite <- (Qred_correct x) in L, U.
  pose proof (rnd_grid_ge _ _ _ M1 K1 L) as L'.
  assert (Hx : 0 < Qred x) by lra.
  pose proof (rnd_grid_le _ _ _ Hx M2 K2 U) as U'.
  exists (Qred (rnd (Qred x))). split.
  - apply round64_finite. pose proof (pow2_pos 1024). lra.
  - rewrite Qred_correct. split; assumption.
Qed.

(** A double is its own rounding. *)
Lemma round64_grid (m k : Z) :
  (0 < m < 2 ^ 53)%Z -> (-1074 <= k)%Z -> inject_Z m * 2 ^ k < 2 ^ 1024 ->
  exists q, round64 (inject_Z m * 2 ^ k) = Fin q /\ q == inject_Z m * 2 ^ k.
Proof.
  intros M K B.
  destruct (round64_between (inject_Z m * 2 ^ k) m k m k M K M K B) as [q [E [L U]]].
  - split; apply Qle_refl.
  - exists q. split; [exact E | now apply Qle_antisym].
Qed.

Lemma round64_comp (x y : Q) : x == y -> round64 x = round64 y.
Proof. intro H. unfold round64. now rewrite (Qred_complete x y H). Qed.

Lemma round64_0 (x : Q) : x == 0 -> round64 x = Fin 0.
Proof. intro H. rewrite (round64_comp x 0 H). reflexivity. Qed.

(** In the normal range rounding is finite with a relative error of at
    most [2^-53]. *)
Lemma round64_normal (x : Q) :
  2 ^ (-1022) <= x <= 2 ^ 1023 ->
  exists q, round64 x = Fin q
            /\ x * (1 - 2 ^ (-53)) <= q <= x * (1 + 2 ^ (-53)).
Proof.
  intros [L U]. rewrite <- (Qred_correct x) in L, U.
  pose proof (rnd_relative _ L) as [A B].
  assert (X : 0 < Qred x) by (pose proof (pow2_pos (-1022)); lra).
  assert (P : 2 ^ 1024 == 2 * 2 ^ 1023) by reflexivity.
  assert (S : 2 ^ (-53) == 1 # 9007199254740992) by reflexivity.
  exists (Qred (rnd (Qred x))). split.
  - apply round64_finite. rewrite P, S in *.
    set (t := 2 ^ 1023) in *. clearbody t. split; nra.
  - rewrite Qred_correct. rewrite <- (Qred_correct x) at 1 4. split; assumption.
Qed.

(** Whole numbers below [2^53] are doubles. *)
Lemma round64_Z (n : Z) :
  (0 <= n < 2 ^ 53)%Z ->
  exists q, round64 (inject_Z n) = Fin q /\ q == inject_Z n.
Proof.
  intro H. destruct (Z.eq_dec n 0) as [->|N].
  - exists 0. split; reflexivity.
  - destruct (round64_grid n 0) as [q [E Q]]; [lia | lia | |].
    + rewrite Qmult_1_r. apply Qlt_trans with (2 ^ 53); [|reflexivity].
      rewrite <- pow2_Z by lia. rewrite <- Zlt_Qlt. lia.
    + exists q. rewrite Qmult_1_r in Q.
      rewrite (round64_comp (inject_Z n) (inject_Z n * 2 ^ 0)) by (now rewrite Qmult_1_r).
      now split.
Qed.

Lemma of_int_exact (n : Z) :
  (0 <= n < 2 ^ 53)%Z ->
  exists q, of_int n = Some (Fin q) /\ q == inject_Z n.
Proof.
  intro H. destruct (round64_Z n H) as [q [E Q]]. exists q.
  unfold of_int. now rewrite E.
Qed.

End Binary64Facts.

Module PyFloatFacts.
Import PyFloat.

Lemma Qlt_bool_true (x y : Q) : Qlt_bool x y = true <-> (x < y)%Q.
Proof.
  unfold Qlt_bool. rewrite negb_true_iff.
  split; intro H.
  - apply Qnot_le_lt. intro Hle. apply Qle_bool_iff in Hle. congruence.
  - destruct (Qle_bool y x) eqn:E; [|reflexivity].
    apply Qle_bool_iff in E. exfalso. exact (Qlt_not_le _ _ H E).
Qed.

Lemma Qlt_bool_false (x y : Q) : Qlt_bool x y = false <-> (y <= x)%Q.
Proof.
  unfold Qlt_bool. rewrite negb_false_iff. apply Qle_bool_iff.
Qed.

(** [min(hi, max(lo, x))] is finite and within the bounds, whatever [x]. *)
Lemma clamp_in_range (lo hi : Q) (x : pyfloat) :
  (lo <= hi)%Q ->
  exists q, min (Fin hi) (max (Fin lo) x) = Fin q /\ (lo <= q <= hi)%Q.
Proof.
  intro Hlh. unfold min, max, gt.
  destruct x as [q| | |]; simpl.
  - destruct (Qlt_bool lo q) eqn:E1; simpl.
    + destruct (Qlt_bool q hi) eqn:E2.
      * exists q. apply Qlt_bool_true in E1, E2.
        split; [reflexivity|]. split; apply Qlt_le_weak; assumption.
      * exists hi. split; [reflexivity|]. split; [assumption|apply Qle_refl].
    + destruct (Qlt_bool lo hi) eqn:E2.
      * exists lo. split; [reflexivity|]. split; [apply Qle_refl|assumption].
      * exists hi. split; [reflexivity|]. split; [assumption|apply Qle_refl].
  - exists hi. split; [reflexivity|]. split; [assumption|apply Qle_refl].
  - destruct (Qlt_bool lo hi) eqn:E2.
    + exists lo. split; [reflexivity|]. split; [apply Qle_refl|assumption].
    + exists hi. split; [reflexivity|]. split; [assumption|apply Qle_refl].
  - destruct (Qlt_bool lo hi) eqn:E2.
    + exists lo. split; [reflexivity|]. split; [apply Qle_refl|assumption].
    + exists hi. split; [reflexivity|]. split; [assumption|apply Qle_refl].
Qed.

Lemma Qtrunc_nonneg_floor (q : Q) : (0 <= q)%Q -> Qtrunc q = Qfloor q.
Proof.
  destruct q as [n d]. unfold Qle, Qtrunc, Qfloor. simpl. intro H.
  apply Z.quot_div_nonneg; lia.
Qed.

Lemma Qtrunc_bounds (q : Q) (hi : Z) :
  (0 <= q <= inject_Z hi)%Q -> 0 <= Qtrunc q <= hi.
Proof.
  intros [H0 H1]. rewrite Qtrunc_nonneg_floor by assumption.
  split.
  - change 0 with (Qfloor 0). apply Qfloor_resp_le. assumption.
  - rewrite <- (Qfloor_Z hi). apply Qfloor_resp_le. assumption.
Qed.

End PyFloatFacts.

Lemma mask_all (d w s p : bool) : (mask d w s p =? 15) = d && w && s && p.
Proof. destruct d, w, s, p; reflexivity. Qed.

Lemma mask_lor_1 (d w s p : bool) : Z.lor (mask d w s p) 1 = mask true w s p.
Proof. destruct d, w, s, p; reflexivity. Qed.
Lemma mask_lor_2 (d w s p : bool) : Z.lor (mask d w s p) 2 = mask d true s p.
Proof. destruct d, w, s, p; reflexivity. Qed.
Lemma mask_lor_4 (d w s p : bool) : Z.lor (mask d w s p) 4 = mask d w true p.
Proof. destruct d, w, s, p; reflexivity. Qed.
Lemma mask_lor_8 (d w s p : bool) : Z.lor (mask d w s p) 8 = mask d w s true.
Proof. destruct d, w, s, p; reflexivity. Qed.

(** The four keys exclude one another: they differ in their first letter. *)
Lemma key_first_letter (line key : string) (c : ascii) (k : string) :
  key = String c k -> PyStr.startswith line key = true ->
  exists rest, line = String c rest.
Proof.
  intros -> H. destruct line as [|b rest]; simpl in H; [discriminate|].
  apply andb_true_iff in H as [H _]. apply Ascii.eqb_eq in H. subst b.
  now exists rest.
Qed.

Section ConfigFacts.

Variable pf : string -> option pyfloat.

Lemma on_DELAY_tracks prior d w s p st line :
  tracks prior d w s p st ->
  match pf (PyStr.slice_from line 6) with
  | None =>
      if PyStr.startswith line "DELAY=" then on_DELAY pf st line = Raised st
      else on_DELAY pf st line = Normal st
  | Some _ =>
      exists st', on_DELAY pf st line = Normal st'
        /\ tracks prior (d || PyStr.startswith line "DELAY=") w s p st'
  end.
Proof.
  intros T. destruct st as [r rp]. unfold on_DELAY.
  destruct (PyStr.startswith line "DELAY=") eqn:E.
  - destruct (pf (PyStr.slice_from line 6)) as [x|]; [|reflexivity].
    eexists. split; [reflexivity|]. rewrite orb_true_r.
    destruct T as [Tm To Td Tw Ts Tp]. simpl in *.
    constructor; simpl; try assumption.
    + rewrite Tm. apply mask_lor_1.
    + apply PyFloatFacts.clamp_in_range. discriminate.
  - destruct (pf (PyStr.slice_from line 6)); [|reflexivity].
    exists (r, rp). rewrite orb_false_r. now split.
Qed.

Lemma on_WAKE_tracks prior d w s p st line :
  tracks prior d w s p st ->
  match pf (PyStr.slice_from line 5) with
  | None =>
      if PyStr.startswith line "WAKE=" then on_WAKE pf st line = Raised st
      else on_WAKE pf st line = Normal st
  | Some _ =>
      exists st', on_WAKE pf st line = Normal st'
        /\ tracks prior d (w || PyStr.startswith line "WAKE=") s p st'
  end.
Proof.
  intros T. destruct st as [r rp]. unfold on_WAKE.
  destruct (PyStr.startswith line "WAKE=") eqn:E.
  - destruct (pf (PyStr.slice_from line 5)) as [x|]; [|reflexivity].
    destruct (PyFloatFacts.clamp_in_range 0 10 x) as [q [-> Hq]]; [discriminate|].
    simpl. eexists. split; [reflexivity|]. rewrite orb_true_r.
    destruct T as [Tm To Td Tw Ts Tp]. simpl in *.
    constructor; simpl; try assumption.
    + rewrite Tm. apply mask_lor_2.
    + apply PyFloatFacts.Qtrunc_bounds. exact Hq.
  - destruct (pf (PyStr.slice_from line 5)); [|reflexivity].
    exists (r, rp). rewrite orb_false_r. now split.
Qed.

Lemma on_SLEEP_tracks prior d w s p st line :
  tracks prior d w s p st ->
  match pf (PyStr.slice_from line 6) with
  | None =>
      if PyStr.startswith line "SLEEP=" then on_SLEEP pf st line = Raised st
      else on_SLEEP pf st line = Normal st
  | Some _ =>
      exists st', on_SLEEP pf st line = Normal st'
        /\ tracks prior d w (s || PyStr.startswith line "SLEEP=") p st'
  end.
Proof.
  intros T. destruct st as [r rp]. unfold on_SLEEP.
  destruct (PyStr.startswith line "SLEEP=") eqn:E.
  - destruct (pf (PyStr.slice_from line 6)) as [x|]; [|reflexivity].
    destruct (PyFloatFacts.clamp_in_range 0 23 x) as [q [-> Hq]]; [discriminate|].
    simpl. eexists. split; [reflexivity|]. rewrite orb_true_r.
    destruct T as [Tm To Td Tw Ts Tp]. simpl in *.
    constructor; simpl; try assumption.
    + rewrite Tm. apply mask_lor_4.
    + apply PyFloatFacts.Qtrunc_bounds. exact Hq.
  - destruct (pf (PyStr.slice_from line 6)); [|reflexivity].
    exists (r, rp). rewrite orb_false_r. now split.
Qed.

Lemma on_PATH_tracks prior d w s p st line :
  tracks prior d w s p st ->
  exists st', on_PATH st line = Normal st'
    /\ tracks prior d w s (p || PyStr.startswith line "PATH=") st'.
Proof.
  intros T. destruct st as [r rp]. unfold on_PATH.
  destruct (PyStr.startswith line "PATH=") eqn:E.
  - eexists. split; [reflexivity|]. rewrite orb_true_r.
    destruct T as [Tm To Td Tw Ts Tp]. simpl in *.
    constructor; simpl; try assumption.
    + rewrite Tm. apply mask_lor_8.
    + discriminate.
  - exists (r, rp). rewrite orb_false_r. now split.
Qed.

Lemma process_line_raises st line :
  raises pf line = true -> process_line pf st line = Raised st.
Proof.
  unfold raises, process_line. destruct st as [r rp]. intro R.
  unfold on_DELAY, on_WAKE, on_SLEEP.
  destruct (PyStr.startswith line "DELAY=") eqn:ED.
  { assert (EW : PyStr.startswith line "WAKE=" = false).
    { destruct (key_first_letter _ _ _ _ eq_refl ED) as [rest ->]. reflexivity. }
    rewrite EW in R.
    destruct (pf (PyStr.slice_from line 6)); [|reflexivity].
    destruct (PyStr.startswith line "SLEEP="); discriminate. }
  cbn [bind]. cbn [orb andb] in R.
  destruct (PyStr.startswith line "WAKE=") eqn:EW.
  { assert (ES : PyStr.startswith line "SLEEP=" = false).
    { destruct (key_first_letter _ _ _ _ eq_refl EW) as [rest ->]. reflexivity. }
    rewrite ES in R.
    destruct (pf (PyStr.slice_from line 5)); [|reflexivity].
    discriminate. }
  cbn [bind]. cbn [orb andb] in R.
  destruct (PyStr.startswith line "SLEEP="); [|discriminate].
  destruct (pf (PyStr.slice_from line 6)); [discriminate|reflexivity].
Qed.

Lemma process_line_tracks prior d w s p st line :
  tracks prior d w s p st ->
  raises pf line = false ->
  exists st', process_line pf st line = Normal st'
    /\ tracks prior (d || PyStr.startswith line "DELAY=")
                    (w || PyStr.startswith line "WAKE=")
                    (s || PyStr.startswith line "SLEEP=")
                    (p || PyStr.startswith line "PATH=") st'.
Proof.
  intros T R. unfold raises in R.
  apply orb_false_iff in R as [R RS]. apply orb_false_iff in R as [RD RW].
  unfold process_line.
  assert (exists s1, on_DELAY pf st line = Normal s1
            /\ tracks prior (d || PyStr.startswith line "DELAY=") w s p s1)
    as [s1 [-> T1]].
  { pose proof (on_DELAY_tracks prior d w s p st line T) as H.
    destruct (pf (PyStr.slice_from line 6)); [exact H|].
    rewrite andb_true_r in RD. rewrite RD in *. rewrite orb_false_r.
    now exists st. }
  cbn [bind].
  assert (exists s2, on_WAKE pf s1 line = Normal s2
            /\ tracks prior (d || PyStr.startswith line "DELAY=")
                 (w || PyStr.startswith line "WAKE=") s p s2)
    as [s2 [-> T2]].
  { pose proof (on_WAKE_tracks prior _ w s p s1 line T1) as H.
    destruct (pf (PyStr.slice_from line 5)); [exact H|].
    rewrite andb_true_r in RW. rewrite RW in *. rewrite orb_false_r.
    now exists s1. }
  cbn [bind].
  assert (exists s3, on_SLEEP pf s2 line = Normal s3
            /\ tracks prior (d || PyStr.startswith line "DELAY=")
                 (w || PyStr.startswith line "WAKE=")
                 (s || PyStr.startswith line "SLEEP=") p s3)
    as [s3 [-> T3]].
  { pose proof (on_SLEEP_tracks prior _ _ s p s2 line T2) as H.
    destruct (pf (PyStr.slice_from line 6)); [exact H|].
    rewrite andb_true_r in RS. rewrite RS in *. rewrite orb_false_r.
    now exists s2. }
  cbn [bind].
  apply on_PATH_tracks. exact T3.
Qed.

(** Reading stops at the first line that raises; what was read in front
    of it stays. *)
Lemma read_lines_tracks prior lines : forall d w s p st,
  tracks prior d w s p st ->
  let ls := processed pf lines in
  tracks prior (d || seen "DELAY=" ls) (w || seen "WAKE=" ls)
               (s || seen "SLEEP=" ls) (p || seen "PATH=" ls)
               (final (read_lines pf lines st)).
Proof.
  induction lines as [|line rest IH]; intros d w s p st T; simpl.
  - now rewrite !orb_false_r.
  - destruct (raises pf line) eqn:R.
    + rewrite (process_line_raises st line R). simpl.
      now rewrite !orb_false_r.
    + destruct (process_line_tracks prior d w s p st line T R) as [st' [-> T']].
      specialize (IH _ _ _ _ _ T'). simpl in IH. simpl.
      now rewrite !orb_assoc.
Qed.

(** A line that does not raise lets the body run to its end, whatever the
    variables hold. *)
Lemma process_line_normal st line :
  raises pf line = false -> exists st', process_line pf st line = Normal st'.
Proof.
  intro R. destruct st as [r rp].
  unfold process_line, raises in *.
  apply orb_false_iff in R as [R RS]. apply orb_false_iff in R as [RD RW].
  unfold on_DELAY, on_WAKE, on_SLEEP, on_PATH.
  destruct (PyStr.startswith line "DELAY=");
    destruct (PyStr.startswith line "WAKE=");
    destruct (PyStr.startswith line "SLEEP=");
    destruct (PyStr.startswith line "PATH=");
    destruct (pf (PyStr.slice_from line 6)) as [x|];
    destruct (pf (PyStr.slice_from line 5)) as [y|];
    try discriminate; simpl;
    try (destruct (PyFloatFacts.clamp_in_range 0 10 y) as [q1 [-> _]]; [discriminate|]);
    try (destruct (PyFloatFacts.clamp_in_range 0 23 x) as [q2 [-> _]]; [discriminate|]);
    simpl; eexists; reflexivity.
Qed.

Lemma read_lines_normal lines : forall st,
  forallb (fun line => negb (raises pf line)) lines = true ->
  exists st', read_lines pf lines st = Normal st'.
Proof.
  induction lines as [|line rest IH]; intros st H; simpl.
  - now exists st.
  - simpl in H. apply andb_true_iff in H as [R H].
    apply negb_true_iff in R.
    destruct (process_line_normal st line R) as [st' ->].
    apply IH. exact H.
Qed.

End ConfigFacts.

Section ConfigTheorems.

Variable pf : string -> option pyfloat.

Lemma processed_all lines :
  forallb (fun line => negb (raises pf line)) lines = true ->
  processed pf lines = lines.
Proof.
  induction lines as [|line rest IH]; simpl; [reflexivity|].
  intro H. apply andb_true_iff in H as [R H].
  apply negb_true_iff in R. rewrite R. now rewrite IH.
Qed.

Lemma startswith_split (p : string) : forall s,
  PyStr.startswith s p = true -> s = p ++ PyStr.drop (String.length p) s.
Proof.
  induction p as [|a p IH]; intros s H; simpl.
  - now destruct s.
  - destruct s as [|b s]; simpl in H; [discriminate|].
    apply andb_true_iff in H as [E H]. apply Ascii.eqb_eq in E. subst b.
    simpl. f_equal. apply IH. exact H.
Qed.

Lemma startswith_PATH line :
  PyStr.startswith line "PATH=" = true ->
  line = "PATH=" ++ PyStr.drop 5 line.
Proof. apply (startswith_split "PATH="). Qed.

Lemma process_line_path st line st' :
  process_line pf st line = Normal st' ->
  res_photoFolder (fst st') =
    if PyStr.startswith line "PATH="
    then PyStr.removelast (PyStr.drop 5 line)
    else res_photoFolder (fst st).
Proof.
  destruct st as [r rp]. unfold process_line, on_DELAY, on_WAKE, on_SLEEP, on_PATH.
  intro H.
  destruct (PyStr.startswith line "PATH=") eqn:EP.
  - pose proof (PyStrFacts.slice_PATH (PyStr.drop 5 line)) as SL.
    rewrite <- (startswith_PATH line EP) in SL. rewrite SL in H. clear SL.
    destruct (PyStr.startswith line "DELAY=");
      destruct (PyStr.startswith line "WAKE=");
      destruct (PyStr.startswith line "SLEEP=");
      destruct (pf (PyStr.slice_from line 6)) as [x|];
      destruct (pf (PyStr.slice_from line 5)) as [y|];
      simpl in H; try discriminate H;
      repeat match type of H with
             | context [PyFloat.to_int ?e] => destruct (PyFloat.to_int e); simpl in H
             end;
      try discriminate H; injection H as <-; reflexivity.
  - destruct (PyStr.startswith line "DELAY=");
      destruct (PyStr.startswith line "WAKE=");
      destruct (PyStr.startswith line "SLEEP=");
      destruct (pf (PyStr.slice_from line 6)) as [x|];
      destruct (pf (PyStr.slice_from line 5)) as [y|];
      simpl in H; try discriminate H;
      repeat match type of H with
             | context [PyFloat.to_int ?e] => destruct (PyFloat.to_int e); simpl in H
             end;
      try discriminate H; injection H as <-; reflexivity.
Qed.

Lemma read_lines_path lines : forall st,
  res_photoFolder (fst (final (read_lines pf lines st)))
  = path_after (processed pf lines) (res_photoFolder (fst st)).
Proof.
  induction lines as [|line rest IH]; intro st; simpl; [reflexivity|].
  destruct (raises pf line) eqn:R.
  - now rewrite (process_line_raises pf st line R).
  - destruct (process_line pf st line) as [st'|st'] eqn:E.
    + simpl. rewrite IH. now rewrite (process_line_path _ _ _ E).
    + destruct (process_line_normal pf st line R) as [st'' E'].
      rewrite E' in E. discriminate E.
Qed.

(** A line that runs to its end leaves for each number the value that the
    line gives, or the one it found. *)
Lemma process_line_values st line st' :
  process_line pf st line = Normal st' ->
  res_delay (fst st')
  = match delay_of pf line with Some x => x | None => res_delay (fst st) end
  /\ res_wakeHour (fst st')
     = match hour_of pf "WAKE=" 10 line with
       | Some n => n
       | None => res_wakeHour (fst st)
       end
  /\ res_bedtimeHour (fst st')
     = match hour_of pf "SLEEP=" 23 line with
       | Some n => n
       | None => res_bedtimeHour (fst st)
       end.
Proof.
  destruct st as [r rp].
  unfold process_line, on_DELAY, on_WAKE, on_SLEEP, on_PATH, delay_of, hour_of.
  change (Z.of_nat (String.length "WAKE=")) with 5.
  change (Z.of_nat (String.length "SLEEP=")) with 6.
  intro H.
  destruct (PyStr.startswith line "DELAY=");
    destruct (PyStr.startswith line "WAKE=");
    destruct (PyStr.startswith line "SLEEP=");
    destruct (PyStr.startswith line "PATH=");
    destruct (pf (PyStr.slice_from line 6)) as [x|];
    destruct (pf (PyStr.slice_from line 5)) as [y|];
    cbn [bind] in H; try discriminate H;
    repeat match type of H with
           | context [PyFloat.to_int ?e] =>
               destruct (PyFloat.to_int e); cbn [bind] in H
           end;
    try discriminate H; injection H as <-; repeat split; reflexivity.
Qed.

Lemma read_lines_values lines : forall st,
  let st' := final (read_lines pf lines st) in
  let ls := processed pf lines in
  res_delay (fst st') = last_value (delay_of pf) ls (res_delay (fst st))
  /\ res_wakeHour (fst st')
     = last_value (hour_of pf "WAKE=" 10) ls (res_wakeHour (fst st))
  /\ res_bedtimeHour (fst st')
     = last_value (hour_of pf "SLEEP=" 23) ls (res_bedtimeHour (fst st)).
Proof.
  induction lines as [|line rest IH]; intro st; simpl; [auto|].
  destruct (raises pf line) eqn:R.
  - rewrite (process_line_raises pf st line R). simpl. auto.
  - destruct (process_line pf st line) as [st1|st1] eqn:E.
    + destruct (process_line_values _ _ _ E) as [Hd [Hw Hs]].
      specialize (IH st1). cbv zeta in IH. destruct IH as [Id [Iw Is]].
      unfold last_value in *. simpl.
      rewrite Id, Iw, Is, Hd, Hw, Hs. auto.
    + destruct (process_line_normal pf st line R) as [st2 E'].
      rewrite E' in E. discriminate E.
Qed.

End ConfigTheorems.

(** ** checkForControlFile: the properties *)

Section ConfigResults.

Variable pf : string -> option pyfloat.
Variable open_file : string -> option string.
Variables (controlFn : string) (delay : pyfloat) (wakeHour bedtimeHour : Z)
          (photoFolder : string).

Lemma checkForControlFile_unreadable :
  open_file controlFn = None ->
  checkForControlFile pf open_file controlFn delay wakeHour bedtimeHour photoFolder
  = mkResult delay wakeHour bedtimeHour photoFolder false.
Proof.
  intro H. unfold checkForControlFile. now rewrite H.
Qed.

(** What a readable file leaves: the variables of the loader after the
    lines in front of the first that raises, and the flag set when they
    held the four keys. *)
Lemma checkForControlFile_readable text :
  open_file controlFn = Some text ->
  let prior := mkResult delay wakeHour bedtimeHour photoFolder false in
  let r := checkForControlFile pf open_file controlFn delay wakeHour
             bedtimeHour photoFolder in
  let ls := processed pf (readlines (universal_newlines text)) in
  tracks prior (seen "DELAY=" ls) (seen "WAKE=" ls) (seen "SLEEP=" ls)
         (seen "PATH=" ls)
         (set_ok r false,
          mask (seen "DELAY=" ls) (seen "WAKE=" ls) (seen "SLEEP=" ls)
               (seen "PATH=" ls))
  /\ res_ok r = all_keys_seen ls
  /\ res_photoFolder r = path_after ls photoFolder.
Proof.
  intros H prior r ls.
  assert (T0 : tracks prior false false false false (prior, 0))
    by (constructor; simpl; auto).
  pose proof (read_lines_tracks pf prior (readlines (universal_newlines text))
                _ _ _ _ _ T0) as T.
  pose proof (read_lines_path pf (readlines (universal_newlines text)) (prior, 0)) as P.
  simpl in T, P. fold ls in T, P.
  subst r. unfold checkForControlFile. rewrite H. fold prior.
  destruct (final (read_lines pf (readlines (universal_newlines text)) (prior, 0)))
    as [r1 rp].
  destruct T as [Tm To Td Tw Ts Tp]. simpl in *.
  subst rp. rewrite mask_all. fold (all_keys_seen ls).
  destruct r1 as [a b c d e]. simpl in *. subst e.
  destruct (all_keys_seen ls); simpl; (split; [constructor; simpl; auto|auto]).
Qed.

(** The numbers a readable file leaves: for each the value given by the
    last line that gives one in front of the first that raises. *)
Lemma checkForControlFile_values text :
  open_file controlFn = Some text ->
  let r := checkForControlFile pf open_file controlFn delay wakeHour
             bedtimeHour photoFolder in
  let ls := processed pf (readlines (universal_newlines text)) in
  res_delay r = last_value (delay_of pf) ls delay
  /\ res_wakeHour r = last_value (hour_of pf "WAKE=" 10) ls wakeHour
  /\ res_bedtimeHour r = last_value (hour_of pf "SLEEP=" 23) ls bedtimeHour.
Proof.
  intros H r ls.
  pose proof (read_lines_values pf (readlines (universal_newlines text))
                (mkResult delay wakeHour bedtimeHour photoFolder false, 0)) as V.
  cbv zeta in V. fold ls in V. cbn [fst res_delay res_wakeHour res_bedtimeHour] in V.
  subst r. unfold checkForControlFile. rewrite H.
  destruct (final (read_lines pf (readlines (universal_newlines text)) _))
    as [r1 rp].
  cbn [fst] in V. now destruct (rp =? 15).
Qed.

End ConfigResults.

(** The part of C5 that holds of every file: when no line raises and the
    four keys are present the flag is set and the three numbers are in
    their ranges; the folder is what the [PATH=] lines leave. *)
Lemma checkForControlFile_complete pf open_file controlFn delay wakeHour
      bedtimeHour photoFolder text :
  open_file controlFn = Some text ->
  let lines := readlines (universal_newlines text) in
  forallb (fun line => negb (raises pf line)) lines = true ->
  all_keys_seen lines = true ->
  let r := checkForControlFile pf open_file controlFn delay wakeHour
             bedtimeHour photoFolder in
  res_ok r = true
  /\ delay_in_range (res_delay r)
  /\ 0 <= res_wakeHour r <= 10
  /\ 0 <= res_bedtimeHour r <= 23
  /\ res_photoFolder r = path_after lines photoFolder.
Proof.
  intros H lines Hok Hall r.
  destruct (checkForControlFile_readable pf open_file controlFn delay wakeHour
              bedtimeHour photoFolder text H) as [T [Ho Hp]].
  cbv zeta in T, Ho, Hp. fold lines in T, Ho, Hp. fold r in T, Ho, Hp.
  rewrite (processed_all pf lines Hok) in T, Ho, Hp.
  unfold all_keys_seen in Hall.
  apply andb_true_iff in Hall as [Hall E4].
  apply andb_true_iff in Hall as [Hall E3].
  apply andb_true_iff in Hall as [E1 E2].
  destruct T as [_ _ Td Tw Ts _]. rewrite E1 in Td. rewrite E2 in Tw. rewrite E3 in Ts.
  simpl in Td, Tw, Ts.
  rewrite Ho. unfold all_keys_seen. rewrite E1, E2, E3, E4. auto.
Qed.

(** C5 (defect).  The header's sample file, saved without a line feed after
    its last line, holds the four keys with numbers that parse; the folder
    read from it is not the value of its PATH line. *)
Theorem C5_unterminated_PATH_is_cut :
  checkForControlFile Decimal.decimal_float
    (fun _ => Some sample_file_unterminated)
    "photoframe.ini" (Fin 4) 7 21 "/media/HDD"
  = mkResult (Fin (7 # 2)) 6 21 "/media/pi/photofram" true.
Proof. vm_compute. reflexivity. Qed.

(** C6, as stated, fails: a file with the single line [DELAY=5] lacks three
    keys; the flag is unset, yet the delay returned is the one read. *)
Lemma C6_counterexample :
  let r := checkForControlFile Decimal.decimal_float
             (fun _ => Some ("DELAY=5" ++ nl))
             "photoframe.ini" (Fin 4) 7 21 "/media/HDD" in
  ~ (res_ok r = false
     /\ (res_delay r, res_wakeHour r, res_bedtimeHour r, res_photoFolder r)
        = (Fin 4, 7, 21, "/media/HDD")).
Proof.
  vm_compute. intros [_ H]. discriminate H.
Qed.

(** A line that raises after the four keys were read does not unset the
    flag. *)
Lemma malformed_line_after_the_keys :
  res_ok (checkForControlFile Decimal.decimal_float
            (fun _ => Some (sample_file ++ "DELAY=abc" ++ nl))
            "photoframe.ini" (Fin 4) 7 21 "/media/HDD") = true.
Proof. vm_compute. reflexivity. Qed.

(** C6 (amended).  [checkForControlFile] always returns.  When the file
    cannot be opened the result is the values passed in, flag unset.
    Otherwise the flag is set exactly when the four keys occur in front of
    the first line that raises; each value returned is the one given by
    the last line of its key there (the number read, brought into its
    range; the rest of the [PATH=] line without its last character), and
    the one passed in when the key does not occur there.  With the flag
    unset the caller keeps its own values, whatever the result holds. *)
Theorem C6_failed_reload :
  forall (pf : string -> option pyfloat) (open_file : string -> option string)
         (controlFn : string) (delay : pyfloat) (wakeHour bedtimeHour : Z)
         (photoFolder : string),
  let r := checkForControlFile pf open_file controlFn delay wakeHour
             bedtimeHour photoFolder in
  (open_file controlFn = None ->
     r = mkResult delay wakeHour bedtimeHour photoFolder false)
  /\ (forall text, open_file controlFn = Some text ->
        let ls := processed pf (readlines (universal_newlines text)) in
        res_ok r = all_keys_seen ls
        /\ res_delay r = last_value (delay_of pf) ls delay
        /\ res_wakeHour r = last_value (hour_of pf "WAKE=" 10) ls wakeHour
        /\ res_bedtimeHour r
           = last_value (hour_of pf "SLEEP=" 23) ls bedtimeHour
        /\ res_photoFolder r = path_after ls photoFolder
        /\ (seen "DELAY=" ls = false -> res_delay r = delay)
        /\ (seen "WAKE=" ls = false -> res_wakeHour r = wakeHour)
        /\ (seen "SLEEP=" ls = false -> res_bedtimeHour r = bedtimeHour)
        /\ (seen "PATH=" ls = false -> res_photoFolder r = photoFolder))
  /\ (res_ok r = false ->
        adopt r (delay, wakeHour, bedtimeHour, photoFolder)
        = (delay, wakeHour, bedtimeHour, photoFolder)).
Proof.
  intros pf open_file controlFn delay wakeHour bedtimeHour photoFolder r.
  split; [apply checkForControlFile_unreadable|].
  split.
  - intros text H ls.
    destruct (checkForControlFile_readable pf open_file controlFn delay wakeHour
                bedtimeHour photoFolder text H) as [T [Ho Hp]].
    destruct (checkForControlFile_values pf open_file controlFn delay wakeHour
                bedtimeHour photoFolder text H) as [Vd [Vw Vs]].
    fold ls in T, Ho, Hp, Vd, Vw, Vs. fold r in T, Ho, Hp, Vd, Vw, Vs.
    split; [exact Ho|].
    split; [exact Vd|]. split; [exact Vw|]. split; [exact Vs|].
    split; [exact Hp|].
    destruct T as [_ _ Td Tw Ts Tp]. simpl in *.
    repeat split; intro E; rewrite E in *; auto.
  - intro H. unfold adopt. now rewrite H.
Qed.

Lemma C6_failed_reload_witness :
  checkForControlFile Decimal.decimal_float (fun _ => None)
    "photoframe.ini" (Fin 4) 7 21 "/media/HDD"
  = mkResult (Fin 4) 7 21 "/media/HDD" false
  /\ res_wakeHour (checkForControlFile Decimal.decimal_float
                     (fun _ => Some ("DELAY=5" ++ nl))
                     "photoframe.ini" (Fin 4) 7 21 "/media/HDD") = 7
  /\ res_delay (checkForControlFile Decimal.decimal_float
                  (fun _ => Some ("DELAY=5" ++ nl))
                  "photoframe.ini" (Fin 4) 7 21 "/media/HDD") = Fin 5.
Proof.
  split; [|split].
  - exact (proj1 (C6_failed_reload Decimal.decimal_float (fun _ => None)
                    "photoframe.ini" (Fin 4) 7 21 "/media/HDD") eq_refl).
  - exact (proj1 (proj2 (proj2 (proj2 (proj2 (proj2 (proj2
             (proj1 (proj2 (C6_failed_reload Decimal.decimal_float
                              (fun _ => Some ("DELAY=5" ++ nl))
                              "photoframe.ini" (Fin 4) 7 21 "/media/HDD"))
                    ("DELAY=5" ++ nl) eq_refl))))))) eq_refl).
  - rewrite (proj1 (proj2
               (proj1 (proj2 (C6_failed_reload Decimal.decimal_float
                                (fun _ => Some ("DELAY=5" ++ nl))
                                "photoframe.ini" (Fin 4) 7 21 "/media/HDD"))
                      ("DELAY=5" ++ nl) eq_refl))).
    vm_compute. reflexivity.
Defined.

(** C10.  The value of a [PATH=] line is taken without its last character,
    line feed or not: a line ending in a line feed gives the text in front
    of it, a last line without one loses the last character of the folder.
    The folder returned for a readable file is what the [PATH=] lines in
    front of the first raising line leave. *)
Theorem C10_PATH_value_loses_its_last_character :
  (forall pf r readparams v,
      process_line pf (r, readparams) ("PATH=" ++ v)
      = Normal (set_photoFolder r (PyStr.removelast v), Z.lor readparams 8))
  /\ (forall t, PyStr.removelast (t ++ nl) = t)
  /\ (forall t c, PyStr.removelast (t ++ String c EmptyString) = t)
  /\ (forall pf open_file controlFn delay wakeHour bedtimeHour photoFolder text,
        open_file controlFn = Some text ->
        res_photoFolder (checkForControlFile pf open_file controlFn delay
                           wakeHour bedtimeHour photoFolder)
        = path_after (processed pf (readlines (universal_newlines text)))
                     photoFolder)
  /\ res_photoFolder (checkForControlFile Decimal.decimal_float
                        (fun _ => Some sample_file)
                        "photoframe.ini" (Fin 4) 7 21 "/media/HDD")
     = "/media/pi/photoframe"
  /\ res_photoFolder (checkForControlFile Decimal.decimal_float
                        (fun _ => Some sample_file_unterminated)
                        "photoframe.ini" (Fin 4) 7 21 "/media/HDD")
     = "/media/pi/photofram".
Proof.
  split; [|split; [|split; [|split; [|split]]]].
  - intros pf r readparams v. unfold process_line.
    change (on_DELAY pf (r, readparams) ("PATH=" ++ v)) with (Normal (r, readparams)).
    cbn [bind].
    change (on_WAKE pf (r, readparams) ("PATH=" ++ v)) with (Normal (r, readparams)).
    cbn [bind].
    change (on_SLEEP pf (r, readparams) ("PATH=" ++ v)) with (Normal (r, readparams)).
    cbn [bind].
    unfold on_PATH.
    change (PyStr.startswith ("PATH=" ++ v) "PATH=") with true. cbv iota.
    now rewrite PyStrFacts.slice_PATH.
  - intro t. apply PyStrFacts.removelast_append_char.
  - apply PyStrFacts.removelast_append_char.
  - intros pf open_file controlFn delay wakeHour bedtimeHour photoFolder text H.
    apply (checkForControlFile_readable pf open_file controlFn delay wakeHour
             bedtimeHour photoFolder text H).
  - vm_compute. reflexivity.
  - vm_compute. reflexivity.
Qed.

Lemma C10_PATH_value_loses_its_last_character_witness :
  res_photoFolder (checkForControlFile Decimal.decimal_float
                     (fun _ => Some ("PATH=/x"))
                     "photoframe.ini" (Fin 4) 7 21 "/media/HDD")
  = path_after (processed Decimal.decimal_float
                  (readlines (universal_newlines "PATH=/x"))) "/media/HDD".
Proof.
  exact (proj1 (proj2 (proj2 (proj2 C10_PATH_value_loses_its_last_character)))
           Decimal.decimal_float (fun _ => Some "PATH=/x")
           "photoframe.ini" (Fin 4) 7 21 "/media/HDD" "PATH=/x" eq_refl).
Defined.

(** * scanForFiles *)

Module ScanFacts.
Import PyStr PyStrFacts.

Lemma length_lower s : String.length (lower s) = String.length s.
Proof. induction s as [|c s IH]; simpl; [reflexivity | now rewrite IH]. Qed.

Lemma lower_append a b : lower (a ++ b) = lower a ++ lower b.
Proof. induction a as [|c a IH]; simpl; [reflexivity | now rewrite IH]. Qed.

Lemma lower_drop n : forall s, lower (drop n s) = drop n (lower s).
Proof.
  induction n as [|n IH]; intro s; destruct s as [|c s]; simpl; auto.
Qed.

Lemma take_drop n : forall s, take n s ++ drop n s = s.
Proof.
  induction n as [|n IH]; intro s; destruct s as [|c s]; simpl; auto.
  now rewrite IH.
Qed.

(** [endswith] is having the suffix at the end. *)
Lemma endswith_spec s p : endswith s p = true <-> exists pre, s = pre ++ p.
Proof.
  unfold endswith. rewrite andb_true_iff, Nat.leb_le, String.eqb_eq. split.
  - intros [_ H]. exists (take (String.length s - String.length p) s).
    set (k := (String.length s - String.length p)%nat) in *.
    rewrite <- (take_drop k s) at 1. now rewrite H.
  - intros [pre ->]. rewrite length_append. split; [lia|].
    replace (String.length pre + String.length p - String.length p)%nat
      with (String.length pre) by lia.
    apply drop_append.
Qed.

Lemma endswith_lower_ci name ext :
  endswith (lower name) ext = true <-> ends_with_ci name ext.
Proof.
  split.
  - intro H. pose proof H as H'. apply endswith_spec in H' as [pre Hpre].
    unfold endswith in H. apply andb_true_iff in H as [Hlen H].
    apply String.eqb_eq in H. rewrite length_lower in H.
    exists (take (String.length name - String.length ext) name),
           (drop (String.length name - String.length ext) name).
    split; [symmetry; apply take_drop|]. now rewrite lower_drop.
  - intros [stem [tail [-> H]]]. apply endswith_spec.
    exists (lower stem). rewrite lower_append. now rewrite H.
Qed.

Lemma is_picture_spec name :
  is_picture name = true
  <-> ends_with_ci name ".jpg" \/ ends_with_ci name ".png".
Proof.
  unfold is_picture. rewrite orb_true_iff, !endswith_lower_ci. reflexivity.
Qed.

End ScanFacts.

Lemma scanEntry_dir folder name children :
  scanEntry folder (EDir name children)
  = scanEntries (path_join folder name) children.
Proof.
  simpl. induction children as [|e es IH]; [reflexivity|].
  simpl. now rewrite IH.
Qed.

Lemma filesOfEntry_dir folder name children :
  filesOfEntry folder (EDir name children)
  = filesOf (path_join folder name) children.
Proof.
  simpl. induction children as [|e es IH]; [reflexivity|].
  simpl. now rewrite IH.
Qed.

Lemma readableEntry_dir name children :
  readableEntry (EDir name children) = readable children.
Proof.
  simpl. induction children as [|e es IH]; [reflexivity|].
  simpl. now rewrite IH.
Qed.

Lemma pictures_of_app a b :
  pictures_of (a ++ b) = (pictures_of a ++ pictures_of b)%list.
Proof. unfold pictures_of. now rewrite filter_app, map_app. Qed.

(** On a readable tree the scan returns, and returns the pictures among
    the regular files, in listing order. *)
Lemma scanEntry_readable e : forall folder,
  readableEntry e = true ->
  scanEntry folder e = Some (pictures_of (filesOfEntry folder e)).
Proof.
  induction e as [name|name children IH|name|name] using entry_induction;
    intros folder R.
  - simpl. unfold pictures_of. simpl. now destruct (is_picture name).
  - rewrite scanEntry_dir, filesOfEntry_dir. rewrite readableEntry_dir in R.
    generalize (path_join folder name) as sub. intro sub.
    induction children as [|e es IHes]; [reflexivity|].
    simpl in R. apply andb_true_iff in R as [Re Res].
    inversion IH as [|? ? He Hes]; subst.
    simpl. rewrite (He sub Re). rewrite (IHes Hes Res).
    unfold filesOf. now rewrite pictures_of_app.
  - discriminate R.
  - reflexivity.
Qed.

Lemma scanEntries_readable es : forall folder,
  readable es = true ->
  scanEntries folder es = Some (pictures_of (filesOf folder es)).
Proof.
  induction es as [|e es IH]; intros folder R; [reflexivity|].
  simpl in R. apply andb_true_iff in R as [Re Res].
  simpl. rewrite (scanEntry_readable e folder Re), (IH folder Res).
  now rewrite pictures_of_app.
Qed.

Lemma Permutation_filter {A : Type} (f : A -> bool) (l l' : list A) :
  Permutation l l' -> Permutation (filter f l) (filter f l').
Proof.
  induction 1 as [|x l l' _ IH|x y l|l l' l'' _ IH1 _ IH2]; simpl.
  - constructor.
  - destruct (f x); [now constructor | exact IH].
  - destruct (f x), (f y); try apply Permutation_refl. apply perm_swap.
  - now transitivity (filter f l').
Qed.

Lemma readable_Permutation es es' :
  Permutation es es' -> readable es = true -> readable es' = true.
Proof.
  unfold readable. rewrite !forallb_forall. intros P H e He.
  apply H. apply Permutation_in with (l := es'); [now symmetry | assumption].
Qed.

(** C8.  On a tree whose folders can all be listed, [scanForFiles] returns
    the paths of the regular files whose name ends in .jpg or .png, the case
    of letters ignored, with those of every folder in depth: each such file
    once, no other path.  Listing the entries in another order gives the
    same paths in another order.  On the tree a.JPG, b.png, c.txt,
    sub/d.jpg it returns a.JPG, b.png and sub/d.jpg. *)
Theorem C8_scan_returns_the_pictures :
  forall (scandir : string -> option (list entry)) (folder : string)
         (es : list entry),
  scandir folder = Some es ->
  readable es = true ->
  exists found,
    scanForFiles scandir folder = Some found
    /\ found = map fst (filter (fun f => is_picture (snd f)) (filesOf folder es))
    /\ (forall path,
          In path found
          <-> exists name,
                In (path, name) (filesOf folder es)
                /\ (ends_with_ci name ".jpg" \/ ends_with_ci name ".png"))
    /\ (forall es', Permutation es es' ->
          exists found', scanEntries folder es' = Some found'
                         /\ Permutation found found')
    /\ scanEntries "root" example_tree
       = Some ["root/a.JPG"; "root/b.png"; "root/sub/d.jpg"].
Proof.
  intros scandir folder es Hdir R.
  exists (pictures_of (filesOf folder es)).
  unfold scanForFiles. rewrite Hdir.
  split; [now apply scanEntries_readable|].
  split; [reflexivity|].
  split; [|split].
  - intro path. unfold pictures_of. rewrite in_map_iff. split.
    + intros [[p name] [E H]]. simpl in E. subst p.
      apply filter_In in H as [H Hp]. simpl in Hp.
      exists name. split; [exact H|]. now apply ScanFacts.is_picture_spec.
    + intros [name [H Hp]]. exists (path, name). split; [reflexivity|].
      apply filter_In. split; [exact H|]. now apply ScanFacts.is_picture_spec.
  - intros es' P. exists (pictures_of (filesOf folder es')).
    split; [apply scanEntries_readable; now apply (readable_Permutation es)|].
    unfold pictures_of, filesOf.
    apply Permutation_map, Permutation_filter, Permutation_flat_map. exact P.
  - reflexivity.
Qed.

Lemma C8_scan_returns_the_pictures_witness :
  exists found,
    scanForFiles (fun _ => Some example_tree) "root" = Some found
    /\ found = map fst (filter (fun f => is_picture (snd f))
                               (filesOf "root" example_tree)).
Proof.
  destruct (C8_scan_returns_the_pictures (fun _ => Some example_tree) "root"
              example_tree eq_refl eq_refl) as [found [H1 [H2 _]]].
  exists found. split; assumption.
Defined.
(** * The image fit *)

Module FitFacts.
Import PyFloat PyFloatFacts Binary64Facts ImageFitter.

Local Open Scope Q_scope.

Lemma Qtrunc_neg_ceiling (q : Q) : q <= 0 -> Qtrunc q = Qceiling q.
Proof.
  destruct q as [n d]. unfold Qle, Qtrunc, Qceiling, Qfloor. simpl. intro H.
  replace n with (- (- n))%Z at 1 by lia.
  rewrite Z.quot_opp_l by lia. f_equal.
  apply Z.quot_div_nonneg; lia.
Qed.

Lemma Qtrunc_spec (q : Q) : Qtrunc q = trunc_toward_zero q.
Proof.
  unfold trunc_toward_zero. destruct (Qle_bool 0 q) eqn:E.
  - apply Qtrunc_nonneg_floor. now apply Qle_bool_iff.
  - apply Qtrunc_neg_ceiling. apply Qlt_le_weak. apply Qlt_bool_true.
    unfold Qlt_bool. now rewrite E.
Qed.

Lemma Qfloor_between (x : Q) (n : Z) :
  inject_Z n <= x -> x < inject_Z n + 1 -> Qfloor x = n.
Proof.
  intros L U. apply Qfloor_resp_le in L. rewrite Qfloor_Z in L.
  pose proof (Qfloor_le x) as F.
  assert (inject_Z (Qfloor x) < inject_Z (n + 1)).
  { rewrite inject_Z_plus. change (inject_Z 1) with 1. lra. }
  rewrite <- Zlt_Qlt in H. lia.
Qed.

Lemma inject_Z_pred (n : Z) : inject_Z (n - 1) == inject_Z n - 1.
Proof.
  unfold Z.sub. rewrite inject_Z_plus, inject_Z_opp. reflexivity.
Qed.

(** A number within [1/d] of the fraction [N/d] has the floor of that
    fraction, unless the fraction is whole: then its floor is that whole
    number or the one below. *)
Lemma floor_near_fraction (x X : Q) (N d : Z) :
  (0 < d)%Z ->
  X * inject_Z d == inject_Z N ->
  (x - X) * inject_Z d < 1 -> (X - x) * inject_Z d < 1 ->
  ((N mod d <> 0)%Z -> Qfloor x = (N / d)%Z)
  /\ ((N mod d = 0)%Z -> Qfloor x = (N / d)%Z \/ Qfloor x = (N / d - 1)%Z).
Proof.
  intros Hd HX U L.
  pose proof (Z.div_mod N d ltac:(lia)) as DM.
  pose proof (Z.mod_pos_bound N d Hd) as MB.
  set (n := (N / d)%Z) in *. set (m := (N mod d)%Z) in *.
  assert (E : inject_Z N == inject_Z d * inject_Z n + inject_Z m).
  { rewrite DM at 1. now rewrite inject_Z_plus, inject_Z_mult. }
  pose proof (inject_Z_pos d Hd) as Pd.
  assert (M0 : 0 <= inject_Z m) by (change 0 with (inject_Z 0); rewrite <- Zle_Qle; lia).
  assert (M1 : inject_Z m + 1 <= inject_Z d).
  { change 1 with (inject_Z 1). rewrite <- inject_Z_plus, <- Zle_Qle. lia. }
  clearbody n m. rewrite E in HX. clear E DM.
  set (D := inject_Z d) in *. set (Qn := inject_Z n) in *.
  set (Qm := inject_Z m) in *.
  split.
  - intro Hm.
    assert (M2 : 1 <= Qm).
    { unfold Qm. change 1 with (inject_Z 1). rewrite <- Zle_Qle. lia. }
    apply Qfloor_between; fold Qn; clearbody D Qn Qm; nra.
  - intro Hm.
    assert (M2 : Qm == 0) by (unfold Qm; now rewrite Hm).
    destruct (Qlt_le_dec x Qn) as [C|C].
    + right. apply Qfloor_between.
      * rewrite inject_Z_pred. fold Qn. clearbody D Qn Qm. nra.
      * rewrite inject_Z_pred. fold Qn. lra.
    + left. apply Qfloor_between; fold Qn; [exact C|].
      clearbody D Qn Qm. nra.
Qed.

(** Rounding in a range that covers every number of the fit. *)
Lemma round64_mid (x : Q) :
  (1 # 1152921504606846976) <= x <= 1152921504606846976 ->
  exists q, round64 x = Fin q
            /\ x * (1 - 2 ^ (-53)) <= q <= x * (1 + 2 ^ (-53)).
Proof.
  intros [L U]. apply round64_normal. split.
  - apply Qle_trans with (2 ^ (-60)); [apply pow2_le; lia | exact L].
  - apply Qle_trans with (2 ^ 60); [exact U | apply pow2_le; lia].
Qed.

Lemma of_int_small (n : Z) :
  (0 <= n < 2 ^ 25)%Z ->
  exists q, of_int n = Some (Fin q) /\ q == inject_Z n.
Proof. intro H. apply of_int_exact. lia. Qed.

Lemma small_Q (n : Z) : (0 < n < 2 ^ 25)%Z -> 1 <= inject_Z n <= 33554432.
Proof.
  intro H. change 1 with (inject_Z 1). change 33554432 with (inject_Z 33554432).
  rewrite <- !Zle_Qle. lia.
Qed.

(** [size/n]: the exact quotient with a relative error of at most
    [2^-53]. *)
Lemma per_spec (S n : Z) :
  (0 < S < 2 ^ 25)%Z -> (0 < n < 2 ^ 25)%Z ->
  exists q, per (inject_Z S) n = Some (Fin q)
            /\ forall a, a * inject_Z n == inject_Z S ->
                 a * (1 - 2 ^ (-53)) <= q <= a * (1 + 2 ^ (-53)).
Proof.
  intros HS Hn. destruct (of_int_small n ltac:(lia)) as [qn [E Q]].
  pose proof (small_Q S HS) as [S1 S2]. pose proof (small_Q n Hn) as [N1 N2].
  unfold per. rewrite E. unfold div.
  assert (G : (qn ?= 0) = Gt) by (apply Qgt_alt; rewrite Q; lra).
  rewrite G.
  assert (X : inject_Z S / qn * inject_Z n == inject_Z S).
  { rewrite Q. field. lra. }
  set (x := inject_Z S / qn) in *.
  assert (Px : 0 < x).
  { unfold x. apply Qlt_shift_div_l; rewrite Q; lra. }
  destruct (round64_mid x) as [q [R B]].
  { clearbody x. set (Qn := inject_Z n) in *. set (QS := inject_Z S) in *.
    clearbody Qn QS. split; nra. }
  exists q. split; [now rewrite R|].
  intros a Ha.
  assert (a == x).
  { apply Qmult_inj_r with (inject_Z n); [lra|]. now rewrite Ha, X. }
  now rewrite H.
Qed.

Lemma floor_or_below_fraction (x X : Q) (N d : Z) :
  (0 < d)%Z ->
  X * inject_Z d == inject_Z N ->
  (x - X) * inject_Z d < 1 -> (X - x) * inject_Z d < 1 ->
  Qfloor X = (N / d)%Z /\ floor_or_below X (Qfloor x).
Proof.
  intros Hd HX U L.
  pose proof (inject_Z_pos d Hd) as Pd.
  assert (FX : Qfloor X = (N / d)%Z).
  { rewrite Zdiv_Qdiv. apply Qfloor_comp.
    apply Qmult_inj_r with (inject_Z d); [lra|]. rewrite HX. field. lra. }
  split; [exact FX|].
  destruct (floor_near_fraction x X N d Hd HX U L) as [A B].
  unfold floor_or_below. rewrite FX.
  destruct (Z.eq_dec (N mod d) 0) as [E|E].
  - destruct (B E) as [F|F]; [now left|]. right. split; [|exact F].
    apply Qmult_inj_r with (inject_Z d); [lra|]. rewrite HX.
    rewrite <- inject_Z_mult, (Z.mul_comm (N / d)).
    pose proof (Z.div_mod N d ltac:(lia)) as DM. rewrite E in DM.
    now rewrite Z.add_0_r in DM; rewrite <- DM.
  - left. now apply A.
Qed.

Section Fit.

Variables W H w h : Z.
Hypothesis HW : (0 < W < 2 ^ 25)%Z.
Hypothesis HH : (0 < H < 2 ^ 25)%Z.
Hypothesis Hw : (0 < w < 2 ^ 25)%Z.
Hypothesis Hh : (0 < h < 2 ^ 25)%Z.

Lemma exact_ratio_cases :
  let rho := exact_ratio W H w h in
  (rho * inject_Z w == inject_Z W /\ (W * h <= H * w)%Z)
  \/ (rho * inject_Z h == inject_Z H /\ (H * w <= W * h)%Z).
Proof.
  intro rho. subst rho. unfold exact_ratio.
  pose proof (small_Q W HW) as [W1 W2]. pose proof (small_Q H HH) as [H1 H2].
  pose proof (small_Q w Hw) as [w1 w2]. pose proof (small_Q h Hh) as [h1 h2].
  set (a := inject_Z W / inject_Z w). set (b := inject_Z H / inject_Z h).
  assert (Ea : a * inject_Z w == inject_Z W) by (unfold a; field; lra).
  assert (Eb : b * inject_Z h == inject_Z H) by (unfold b; field; lra).
  assert (C : forall x y : Q, x <= y ->
              x * (inject_Z w * inject_Z h) <= y * (inject_Z w * inject_Z h)).
  { intros x y Hxy. apply Qmult_le_compat_r; [exact Hxy|]. nra. }
  destruct (Q.min_spec a b) as [[L E]|[L E]]; rewrite E.
  - left. split; [exact Ea|]. rewrite Zle_Qle, !inject_Z_mult.
    rewrite <- Ea, <- Eb. apply Qlt_le_weak in L. specialize (C a b L). lra.
  - right. split; [exact Eb|]. rewrite Zle_Qle, !inject_Z_mult.
    rewrite <- Ea, <- Eb. specialize (C b a L). lra.
Qed.

(** The exact scaled width and height are fractions of the numerator
    [min(W*h, H*w)]. *)
Lemma exact_scaled :
  let rho := exact_ratio W H w h in
  let N := Z.min (W * h) (H * w) in
  rho * inject_Z w * inject_Z h == inject_Z N
  /\ rho * inject_Z h * inject_Z w == inject_Z N.
Proof.
  intros rho N.
  assert (A : rho * inject_Z w * inject_Z h == inject_Z N).
  { destruct exact_ratio_cases as [[E L]|[E L]]; fold rho in E; subst N.
    - rewrite Z.min_l by exact L. rewrite E. now rewrite inject_Z_mult.
    - rewrite Z.min_r by exact L. rewrite inject_Z_mult, <- E. ring. }
  split; [exact A|]. rewrite <- A. ring.
Qed.

Lemma numerator_bounds :
  (1 <= Z.min (W * h) (H * w) < 2 ^ 50)%Z.
Proof.
  assert (1 <= W * h)%Z by nia. assert (1 <= H * w)%Z by nia.
  assert (W * h < 2 ^ 50)%Z.
  { change (2 ^ 50)%Z with (2 ^ 25 * 2 ^ 25)%Z. nia. }
  lia.
Qed.

Lemma exact_ratio_pos : 0 < exact_ratio W H w h.
Proof.
  pose proof (small_Q W HW) as [W1 W2]. pose proof (small_Q H HH) as [H1 H2].
  pose proof (small_Q w Hw) as [w1 w2]. pose proof (small_Q h Hh) as [h1 h2].
  unfold exact_ratio.
  assert (0 < inject_Z W / inject_Z w) by (apply Qlt_shift_div_l; lra).
  assert (0 < inject_Z H / inject_Z h) by (apply Qlt_shift_div_l; lra).
  destruct (Q.min_spec (inject_Z W / inject_Z w) (inject_Z H / inject_Z h))
    as [[_ E]|[_ E]]; rewrite E; assumption.
Qed.

(** The scale computed is the exact one with a relative error of at most
    [2^-53]. *)
Lemma ratio_spec :
  exists r, ratio (inject_Z W) (inject_Z H) h w = Some (Fin r)
    /\ exact_ratio W H w h * (1 - 2 ^ (-53)) <= r
       <= exact_ratio W H w h * (1 + 2 ^ (-53)).
Proof.
  destruct (per_spec W w HW Hw) as [qa [Ea Ba]].
  destruct (per_spec H h HH Hh) as [qb [Eb Bb]].
  pose proof (small_Q w Hw) as [w1 w2]. pose proof (small_Q h Hh) as [h1 h2].
  specialize (Ba (inject_Z W / inject_Z w) ltac:(field; lra)).
  specialize (Bb (inject_Z H / inject_Z h) ltac:(field; lra)).
  unfold ratio, widratio, hgtratio. rewrite Ea, Eb.
  unfold exact_ratio.
  set (a := inject_Z W / inject_Z w) in *. set (b := inject_Z H / inject_Z h) in *.
  change (2 ^ (-53)) with (1 # 9007199254740992) in *.
  unfold min, lt.
  destruct (Qlt_bool qb qa) eqn:C.
  - exists qb. split; [reflexivity|]. apply Qlt_bool_true in C.
    destruct (Q.min_spec a b) as [[L E]|[L E]]; rewrite E; clearbody a b; lra.
  - exists qa. split; [reflexivity|]. apply Qlt_bool_false in C.
    destruct (Q.min_spec a b) as [[L E]|[L E]]; rewrite E; clearbody a b; lra.
Qed.

(** [int(ratio*n)] for a scale [r] near the exact one: the floor of a
    number near the exact product. *)
Lemma scaled_spec (r : Q) (n d : Z) :
  let rho := exact_ratio W H w h in
  let N := Z.min (W * h) (H * w) in
  rho * (1 - 2 ^ (-53)) <= r <= rho * (1 + 2 ^ (-53)) ->
  (0 < n < 2 ^ 25)%Z -> (0 < d < 2 ^ 25)%Z ->
  rho * inject_Z n * inject_Z d == inject_Z N ->
  exists k, scaled (Fin r) n = Some k
    /\ Qfloor (rho * inject_Z n) = (N / d)%Z
    /\ floor_or_below (rho * inject_Z n) k.
Proof.
  intros rho N [R1 R2] Hn Hd HX.
  pose proof numerator_bounds as NB. fold N in NB.
  pose proof exact_ratio_pos as Prho. fold rho in Prho.
  pose proof (small_Q n Hn) as [n1 n2]. pose proof (small_Q d Hd) as [d1 d2].
  assert (N1 : 1 <= inject_Z N <= 1125899906842624).
  { change 1 with (inject_Z 1).
    change 1125899906842624 with (inject_Z 1125899906842624).
    rewrite <- !Zle_Qle. change (2 ^ 50)%Z with 1125899906842624%Z in NB. lia. }
  destruct (of_int_small n ltac:(lia)) as [qn [E Q]].
  unfold scaled. rewrite E. unfold mul.
  rewrite (round64_comp (r * qn) (r * inject_Z n)) by now rewrite Q.
  change (2 ^ (-53)) with (1 # 9007199254740992) in *.
  set (X := rho * inject_Z n) in *.
  set (Qn := inject_Z n) in *. set (Qd := inject_Z d) in *.
  set (QN := inject_Z N) in *.
  assert (PX : 0 < X) by (unfold X; clearbody rho Qn; nra).
  assert (T1 : X * (1 - (1 # 9007199254740992)) <= r * Qn).
  { unfold X. clearbody rho Qn. nra. }
  assert (T2 : r * Qn <= X * (1 + (1 # 9007199254740992))).
  { unfold X. clearbody rho Qn. nra. }
  assert (XL : (1 # 33554432) <= X).
  { clearbody X Qd QN. nra. }
  assert (XU : X <= 1125899906842624).
  { clearbody X Qd QN. nra. }
  destruct (round64_mid (r * Qn)) as [q [Rq [B1 B2]]].
  { clearbody X. split; lra. }
  change (2 ^ (-53)) with (1 # 9007199254740992) in *.
  rewrite Rq. cbn [to_int].
  assert (Pq : 0 <= q) by (clearbody X; lra).
  rewrite (Qtrunc_nonneg_floor q Pq).
  exists (Qfloor q). split; [reflexivity|].
  apply (floor_or_below_fraction q X N d); [lia | exact HX | |].
  - fold Qd.
    assert (q <= X * (1 + (1 # 2251799813685248))) by (clearbody X; lra).
    assert ((q - X) * Qd <= X * Qd * (1 # 2251799813685248)).
    { clearbody X Qd. nra. }
    fold QN in HX. clearbody X Qd QN. lra.
  - fold Qd.
    assert (X * (1 - (1 # 2251799813685248)) <= q) by (clearbody X; lra).
    assert ((X - q) * Qd <= X * Qd * (1 # 2251799813685248)).
    { clearbody X Qd. nra. }
    fold QN in HX. clearbody X Qd QN. lra.
Qed.

(** The resized size: on each axis the floor of the exact scaled size, or
    the whole number below when that size is whole. *)
Lemma dims_spec :
  let rho := exact_ratio W H w h in
  let N := Z.min (W * h) (H * w) in
  exists r dw dh,
    ratio (inject_Z W) (inject_Z H) h w = Some (Fin r)
    /\ rho * (1 - 2 ^ (-53)) <= r <= rho * (1 + 2 ^ (-53))
    /\ scaled (Fin r) w = Some dw /\ scaled (Fin r) h = Some dh
    /\ dims (inject_Z W) (inject_Z H) h w = Some (dw, dh)
    /\ Qfloor (rho * inject_Z w) = (N / h)%Z
    /\ Qfloor (rho * inject_Z h) = (N / w)%Z
    /\ floor_or_below (rho * inject_Z w) dw
    /\ floor_or_below (rho * inject_Z h) dh.
Proof.
  intros rho N.
  destruct ratio_spec as [r [Er Br]]. fold rho in Br.
  destruct exact_scaled as [Xw Xh]. fold rho N in Xw, Xh.
  destruct (scaled_spec r w h Br Hw Hh Xw) as [dw [Ew [Fw Cw]]].
  destruct (scaled_spec r h w Br Hh Hw Xh) as [dh [Eh [Fh Ch]]].
  exists r, dw, dh. unfold dims. rewrite Er, Ew, Eh. auto 10.
Qed.

(** The same in whole numbers: with [N = min(W*h, H*w)] the resized width
    is [N/h] and the resized height [N/w], or one less where the division
    is exact. *)
Lemma dims_int :
  let N := Z.min (W * h) (H * w) in
  exists dw dh,
    dims (inject_Z W) (inject_Z H) h w = Some (dw, dh)
    /\ (dw = N / h \/ (N mod h = 0 /\ dw = N / h - 1))%Z
    /\ (dh = N / w \/ (N mod w = 0 /\ dh = N / w - 1))%Z.
Proof.
  intro N.
  destruct dims_spec as [r [dw [dh [_ [_ [_ [_ [D [Fw [Fh [Cw Ch]]]]]]]]]]].
  destruct exact_scaled as [Xw Xh]. fold N in Fw, Fh, Xw, Xh.
  assert (K : forall (X : Q) (d k : Z), (0 < d)%Z ->
            X * inject_Z d == inject_Z N -> Qfloor X = (N / d)%Z ->
            floor_or_below X k ->
            (k = N / d \/ (N mod d = 0 /\ k = N / d - 1))%Z).
  { intros X d k Hd HX FX [C|[C1 C2]]; [left; congruence|].
    right. rewrite FX in C1, C2. split; [|exact C2].
    rewrite C1, <- inject_Z_mult in HX.
    apply (proj1 (inject_Z_injective _ _)) in HX.
    apply Z.div_exact; [lia|]. rewrite Z.mul_comm. now symmetry. }
  exists dw, dh. split; [exact D|]. split.
  - apply (K _ h dw ltac:(lia) Xw Fw Cw).
  - apply (K _ w dh ltac:(lia) Xh Fh Ch).
Qed.

(** The resized image fits the screen, and misses at most one pixel on
    one axis. *)
Lemma dims_within :
  exists dw dh,
    dims (inject_Z W) (inject_Z H) h w = Some (dw, dh)
    /\ (0 <= dw <= W)%Z /\ (0 <= dh <= H)%Z
    /\ (W - 1 <= dw \/ H - 1 <= dh)%Z.
Proof.
  destruct dims_int as [dw [dh [D [Cw Ch]]]].
  pose proof numerator_bounds as NB.
  set (N := Z.min (W * h) (H * w)) in *.
  exists dw, dh. split; [exact D|].
  assert (Nh : (N <= W * h)%Z) by apply Z.le_min_l.
  assert (Nw : (N <= H * w)%Z) by apply Z.le_min_r.
  assert (Dh : (0 <= N / h <= W)%Z).
  { split; [apply Z.div_pos; lia|]. apply Z.div_le_upper_bound; lia. }
  assert (Dw : (0 <= N / w <= H)%Z).
  { split; [apply Z.div_pos; lia|]. apply Z.div_le_upper_bound; lia. }
  assert (Ph : (N mod h = 0 -> 1 <= N / h)%Z).
  { intro M. pose proof (Z.div_mod N h ltac:(lia)). nia. }
  assert (Pw : (N mod w = 0 -> 1 <= N / w)%Z).
  { intro M. pose proof (Z.div_mod N w ltac:(lia)). nia. }
  split; [destruct Cw as [->|[M ->]]; [lia | specialize (Ph M); lia]|].
  split; [destruct Ch as [->|[M ->]]; [lia | specialize (Pw M); lia]|].
  destruct (Z.min_spec (W * h) (H * w)) as [[_ E]|[_ E]]; fold N in E.
  - left. assert (N / h = W)%Z by (rewrite E; apply Z.div_mul; lia).
    destruct Cw as [->|[_ ->]]; lia.
  - right. assert (N / w = H)%Z by (rewrite E; apply Z.div_mul; lia).
    destruct Ch as [->|[_ ->]]; lia.
Qed.

End Fit.

(** [max(1,int((size-n)/2))] is computed without error. *)
Lemma border_spec (S n : Z) :
  (0 < S < 2 ^ 25)%Z -> (0 <= n <= S)%Z ->
  border (inject_Z S) n = Some (Z.max 1 ((S - n) / 2)).
Proof.
  intros HS Hn. destruct (of_int_small n ltac:(lia)) as [qn [E Q]].
  unfold border. rewrite E. unfold sub.
  rewrite (round64_comp (inject_Z S - qn) (inject_Z (S - n))).
  2:{ rewrite Q. unfold Z.sub. rewrite inject_Z_plus, inject_Z_opp. reflexivity. }
  destruct (round64_Z (S - n) ltac:(lia)) as [q [Eq Qq]]. rewrite Eq.
  unfold div. change (2 ?= 0) with Gt. cbv iota.
  assert (D : exists q2, round64 (q / 2) = Fin q2 /\ q2 == inject_Z (S - n) / 2).
  { destruct (Z.eq_dec (S - n) 0) as [Z0|Z0].
    - exists 0. split; [|rewrite Z0; reflexivity].
      apply round64_0. rewrite Qq, Z0. reflexivity.
    - destruct (round64_grid (S - n) (-1)) as [q2 [E2 Q2]]; [lia | lia | |].
      + apply Qlt_trans with (2 ^ 53); [|reflexivity].
        assert (inject_Z (S - n) < 2 ^ 53).
        { rewrite <- pow2_Z by lia. rewrite <- Zlt_Qlt. lia. }
        change (2 ^ (-1)) with (1 # 2).
        assert (0 <= inject_Z (S - n)).
        { change 0 with (inject_Z 0). rewrite <- Zle_Qle. lia. }
        lra.
      + exists q2. split.
        * rewrite <- E2. apply round64_comp. rewrite Qq. reflexivity.
        * rewrite Q2. reflexivity. }
  destruct D as [q2 [E2 Q2]]. rewrite E2. cbn [to_int option_map].
  f_equal. f_equal.
  assert (P : 0 <= q2).
  { rewrite Q2. apply Qle_shift_div_l; [reflexivity|]. rewrite Qmult_0_l.
    change 0 with (inject_Z 0). rewrite <- Zle_Qle. lia. }
  rewrite (Qtrunc_nonneg_floor q2 P), (Qfloor_comp _ _ Q2).
  symmetry. apply (Zdiv_Qdiv (S - n) 2).
Qed.

(** The frame of a resized image that fits the screen. *)
Lemma bordered_spec (W H w h dw dh : Z) :
  (0 < W < 2 ^ 25)%Z -> (0 < H < 2 ^ 25)%Z ->
  dims (inject_Z W) (inject_Z H) h w = Some (dw, dh) ->
  (0 <= dw <= W)%Z -> (0 <= dh <= H)%Z ->
  bordered (inject_Z W) (inject_Z H) h w
  = if ((dw <=? 0) || (dh <=? 0))%Z then None
    else Some (dw + 2 * Z.max 1 ((W - dw) / 2),
               dh + 2 * Z.max 1 ((H - dh) / 2))%Z.
Proof.
  intros HW HH D Bw Bh. unfold bordered, resized. rewrite D.
  destruct ((dw <=? 0) || (dh <=? 0))%Z; [reflexivity|].
  unfold widborder, hgtborder.
  now rewrite (border_spec W dw HW Bw), (border_spec H dh HH Bh).
Qed.

End FitFacts.

(** C4, as stated, fails: on a 1920 by 1080 screen an image 1000 wide and
    1998 high is scaled by 20/37, its width to 540.54...; the width
    computed is 540, which is not that number rounded.  And an image 854
    by 480 is scaled to a width of exactly 1920; the width computed is
    1919. *)
Lemma C4_counterexample :
  ~ (exists dw dh,
       ImageFitter.dims 1920 1080 1998 1000 = Some (dw, dh)
       /\ rounds_to (exact_ratio 1920 1080 1000 1998 * inject_Z 1000) dw)
  /\ ~ (exists dw dh,
          ImageFitter.dims 1920 1080 480 854 = Some (dw, dh)
          /\ rounds_to (exact_ratio 1920 1080 854 480 * inject_Z 854) dw).
Proof.
  split; intros [dw [dh [D R]]]; vm_compute in D; injection D as <- <-;
    unfold rounds_to in R; vm_compute in R; apply R; reflexivity.
Qed.

(** Nor is the size computed always the exact scaled size truncated: an
    image 854 by 480 is scaled to a width of exactly 1920 on a 1920 by
    1080 screen, and the width computed is 1919; an image 49 by 52920 is
    scaled to a width of exactly 1, and the width computed is 0. *)
Lemma scaled_size_one_below :
  (exact_ratio 1920 1080 854 480 * inject_Z 854 == 1920)%Q
  /\ ImageFitter.dims 1920 1080 480 854 = Some (1919, 1079)
  /\ (exact_ratio 1920 1080 49 52920 * inject_Z 49 == 1)%Q
  /\ ImageFitter.dims 1920 1080 52920 49 = Some (0, 1080).
Proof. repeat split; vm_compute; reflexivity. Qed.

(** C4 (amended).  For an image [w] by [h] on a screen [W] by [H], whole
    numbers below [2^25], the scale is [min(W/w, H/h)] computed in
    binary64, within a relative error of [2^-53] of the exact scale; the
    resized dimensions are the products of that scale by [w] and by [h],
    computed in binary64 and truncated toward zero by [int]: each is the
    floor of the exact scaled size, or the whole number below when the
    exact scaled size is whole; the borders are
    [max(1, floor((W - resized width)/2))] and the same in height.  A 1920
    by 1080 image on a 1920 by 1080 screen is scaled by 1 to 1920 by 1080
    with both borders 1. *)
Theorem C4_image_fit :
  forall W H w h : Z,
  0 < W < 2 ^ 25 -> 0 < H < 2 ^ 25 -> 0 < w < 2 ^ 25 -> 0 < h < 2 ^ 25 ->
  let scale := exact_ratio W H w h in
  (exists r dw dh,
     ImageFitter.ratio (inject_Z W) (inject_Z H) h w = Some (Fin r)
     /\ (scale * (1 - 2 ^ (-53)) <= r <= scale * (1 + 2 ^ (-53)))%Q
     /\ ImageFitter.scaled (Fin r) w = Some dw
     /\ ImageFitter.scaled (Fin r) h = Some dh
     /\ ImageFitter.dims (inject_Z W) (inject_Z H) h w = Some (dw, dh)
     /\ floor_or_below (scale * inject_Z w) dw
     /\ floor_or_below (scale * inject_Z h) dh
     /\ ImageFitter.widborder (inject_Z W) dw
        = Some (Z.max 1 (Qfloor ((inject_Z W - inject_Z dw) / 2)))
     /\ ImageFitter.hgtborder (inject_Z H) dh
        = Some (Z.max 1 (Qfloor ((inject_Z H - inject_Z dh) / 2))))
  /\ (forall q, PyFloat.to_int (Fin q) = Some (trunc_toward_zero q))
  /\ ImageFitter.ratio 1920 1080 1080 1920 = Some (Fin 1)
  /\ ImageFitter.dims 1920 1080 1080 1920 = Some (1920, 1080)
  /\ ImageFitter.widborder 1920 1920 = Some 1
  /\ ImageFitter.hgtborder 1080 1080 = Some 1.
Proof.
  intros W H w h HW HH Hw Hh scale.
  split; [|split; [|repeat split; vm_compute; reflexivity]].
  - destruct (FitFacts.dims_spec W H w h HW HH Hw Hh)
      as [r [dw [dh [Er [Br [Sw [Sh [D [_ [_ [Cw Ch]]]]]]]]]]].
    destruct (FitFacts.dims_within W H w h HW HH Hw Hh)
      as [dw' [dh' [D' [Bw [Bh _]]]]].
    rewrite D in D'. injection D' as <- <-.
    assert (B : forall S n : Z,
              Z.max 1 ((S - n) / 2)
              = Z.max 1 (Qfloor ((inject_Z S - inject_Z n) / 2))).
    { intros S n. rewrite (Zdiv_Qdiv (S - n) 2). f_equal.
      apply Qfloor_comp. unfold Z.sub.
      rewrite inject_Z_plus, inject_Z_opp. reflexivity. }
    exists r, dw, dh. fold scale in Br, Cw, Ch.
    repeat (split; [assumption|]).
    unfold ImageFitter.widborder, ImageFitter.hgtborder.
    rewrite (FitFacts.border_spec W dw HW Bw), (FitFacts.border_spec H dh HH Bh).
    now rewrite <- !B.
  - intro q. unfold PyFloat.to_int. now rewrite FitFacts.Qtrunc_spec.
Qed.

Lemma C4_image_fit_witness :
  exists dw dh,
    ImageFitter.dims (inject_Z 1920) (inject_Z 1080) 480 640 = Some (dw, dh)
    /\ floor_or_below (exact_ratio 1920 1080 640 480 * inject_Z 640) dw
    /\ floor_or_below (exact_ratio 1920 1080 640 480 * inject_Z 480) dh.
Proof.
  destruct (proj1 (C4_image_fit 1920 1080 640 480
                     (conj eq_refl eq_refl) (conj eq_refl eq_refl)
                     (conj eq_refl eq_refl) (conj eq_refl eq_refl)))
    as [r [dw [dh [_ [_ [_ [_ [D [Cw [Ch _]]]]]]]]]].
  exists dw, dh. auto.
Defined.

(** The operations on floats against the binary64 arithmetic of the
    kernel's primitive floats and against the Standard Library's
    specification of it, on the figures of the examples above and at the
    ends of the range: a quotient and a product that round down, an exact
    difference, ties among the subnormal numbers, overflow. *)
Module Binary64.
Import PrimFloat.
Local Open Scope float_scope.

Lemma division_and_product :
  PyFloat.div (Fin 1920) (Fin 854) = Some (of_prim (1920 / 854))
  /\ PyFloat.mul (of_prim (1920 / 854)) (Fin 854) = of_prim (1920 / 854 * 854)
  /\ PyFloat.to_int (of_prim (1920 / 854 * 854)) = Some 1919%Z
  /\ PyFloat.div (Fin 1080) (Fin 52920) = Some (of_prim (1080 / 52920))
  /\ PyFloat.mul (of_prim (1080 / 52920)) (Fin 49) = of_prim (1080 / 52920 * 49)
  /\ PyFloat.to_int (of_prim (1080 / 52920 * 49)) = Some 0%Z
  /\ PyFloat.div (Fin 1080) (Fin 1998) = Some (of_prim (1080 / 1998))
  /\ PyFloat.mul (of_prim (1080 / 1998)) (Fin 1000) = of_prim (1080 / 1998 * 1000)
  /\ PyFloat.to_int (of_prim (1080 / 1998 * 1000)) = Some 540%Z.
Proof. repeat split; vm_compute; reflexivity. Qed.

Lemma decimal_and_delay :
  Decimal.decimal_float "1.001" = Some (of_prim (1001 / 1000))
  /\ PyFloat.mul (of_prim (1001 / 1000)) (Fin 1000) = of_prim (1001 / 1000 * 1000)
  /\ delay_ms (of_prim (1001 / 1000)) = Some 1000%Z
  /\ Decimal.decimal_float "0.1" = Some (of_prim (1 / 10))
  /\ PyFloat.sub (of_prim (3 / 10)) (of_prim (1 / 10)) = of_prim (3 / 10 - 1 / 10)
  /\ PyFloat.sub (Fin 1920) (Fin 1919) = of_prim (1920 - 1919).
Proof. repeat split; vm_compute; reflexivity. Qed.

Lemma subnormal_and_overflow :
  PyFloat.div (of_prim 0x1p-1074) (Fin 2) = Some (of_prim (0x1p-1074 / 2))
  /\ PyFloat.mul (of_prim 0x1p-1074) (Fin (3 # 2)) = of_prim (0x1p-1074 * 1.5)
  /\ PyFloat.mul (of_prim 0x1p-1074) (Fin (5 # 2)) = of_prim (0x1p-1074 * 2.5)
  /\ PyFloat.div (of_prim 0x1.fffffffffffffp-1022) (Fin 2)
     = Some (of_prim (0x1.fffffffffffffp-1022 / 2))
  /\ PyFloat.mul (of_prim 0x1p1023) (Fin 2) = of_prim (0x1p1023 * 2)
  /\ PyFloat.mul (of_prim 0x1.fffffffffffffp1023) (of_prim 0x1.0000000000001p0)
     = of_prim (0x1.fffffffffffffp1023 * 0x1.0000000000001p0)
  /\ PyFloat.sub (of_prim 0x1.fffffffffffffp1023) (of_prim (-0x1p969))
     = of_prim (0x1.fffffffffffffp1023 - (-0x1p969))
  /\ PyFloat.sub (of_prim 0x1.fffffffffffffp1023) (of_prim (-0x1p970))
     = of_prim (0x1.fffffffffffffp1023 - (-0x1p970)).
Proof. repeat split; vm_compute; reflexivity. Qed.

Lemma ties_and_signs :
  PyFloat.sub (of_prim 0x1p53) (Fin (-1)) = of_prim (0x1p53 - (-1))
  /\ PyFloat.sub (of_prim 0x1.0000000000001p53) (Fin (-1))
     = of_prim (0x1.0000000000001p53 - (-1))
  /\ PyFloat.mul (of_prim (- (1 / 3))) (Fin 3) = of_prim (- (1 / 3) * 3)
  /\ PyFloat.div (Fin (-1)) (Fin 3) = Some (of_prim (-1 / 3))
  /\ PyFloat.sub (Fin 1) (of_prim (4 / 3)) = of_prim (1 - 4 / 3)
  /\ PyFloat.div (of_prim (-0x1p-1074)) (Fin 2) = Some (of_prim (-0x1p-1074 / 2))
  /\ PyFloat.mul (of_prim (-0x1p1023)) (Fin 2) = of_prim (-0x1p1023 * 2).
Proof. repeat split; vm_compute; reflexivity. Qed.

(** The same products and quotients through the specification. *)
Lemma against_the_specification :
  let SF := FloatOps.Prim2SF in
  PyFloat.div (Fin 1920) (Fin 854)
  = Some (of_spec (SpecFloat.SFdiv 53 1024 (SF 1920) (SF 854)))
  /\ PyFloat.mul (of_prim (1920 / 854)) (Fin 854)
     = of_spec (SpecFloat.SFmul 53 1024
                  (SpecFloat.SFdiv 53 1024 (SF 1920) (SF 854)) (SF 854))
  /\ PyFloat.mul (of_prim (1001 / 1000)) (Fin 1000)
     = of_spec (SpecFloat.SFmul 53 1024
                  (SpecFloat.SFdiv 53 1024 (SF 1001) (SF 1000)) (SF 1000))
  /\ PyFloat.sub (of_prim (3 / 10)) (of_prim (1 / 10))
     = of_spec (SpecFloat.SFsub 53 1024
                  (SpecFloat.SFdiv 53 1024 (SF 3) (SF 10))
                  (SpecFloat.SFdiv 53 1024 (SF 1) (SF 10))).
Proof. repeat split; vm_compute; reflexivity. Qed.

End Binary64.

(** * random.shuffle *)

Lemma nth_error_update {A : Type} (l : list A) : forall i j x a,
  nth_error l i = Some a ->
  nth_error (update l i x) j = if (j =? i)%nat then Some x else nth_error l j.
Proof.
  induction l as [|h t IH]; intros i j x a H.
  - destruct i; discriminate H.
  - destruct i as [|i]; destruct j as [|j]; simpl; try reflexivity.
    simpl in H. apply (IH i j x a H).
Qed.

Lemma update_Permutation {A : Type} (l : list A) : forall i x a,
  nth_error l i = Some a ->
  Permutation (x :: l) (a :: update l i x).
Proof.
  induction l as [|h t IH]; intros i x a H.
  - destruct i; discriminate H.
  - destruct i as [|i]; simpl in *.
    + injection H as ->. apply perm_swap.
    + apply perm_trans with (h :: x :: t); [apply perm_swap|].
      apply perm_trans with (h :: a :: update t i x); [|apply perm_swap].
      apply perm_skip. apply IH. exact H.
Qed.

Lemma swap_Permutation {A : Type} (l : list A) i j : Permutation l (swap l i j).
Proof.
  unfold swap.
  destruct (nth_error l i) as [a|] eqn:Ei; [|apply Permutation_refl].
  destruct (nth_error l j) as [b|] eqn:Ej; [|apply Permutation_refl].
  apply Permutation_cons_inv with (a := b).
  apply perm_trans with (a :: update l i b).
  - apply update_Permutation. exact Ei.
  - apply update_Permutation.
    rewrite (nth_error_update l i j b a Ei).
    destruct (j =? i)%nat; [reflexivity | exact Ej].
Qed.

Lemma shuffle_from_Permutation {A : Type} rnd i : forall l : list A,
  Permutation l (shuffle_from rnd i l).
Proof.
  induction i as [|i IH]; intro l; simpl; [apply Permutation_refl|].
  eapply perm_trans; [apply swap_Permutation | apply IH].
Qed.

(** The shuffled list holds the same paths, each as many times. *)
Lemma shuffle_Permutation {A : Type} rnd (l : list A) :
  Permutation l (shuffle rnd l).
Proof. apply shuffle_from_Permutation. Qed.

(** * The loop of runFotoFrame *)

Section LoopFacts.

Variable pf : string -> option pyfloat.
Variable s : setup.

(** Takes apart the conditionals of a goal or of the hypothesis [H]. *)
Ltac split_cases H :=
  repeat match type of H with
         | context [match ?x with _ => _ end] =>
             let E := fresh "E" in destruct x eqn:E; simpl in H
         | context [if ?b then _ else _] =>
             let E := fresh "E" in destruct b eqn:E; simpl in H
         end.

Lemma hourly_due_spec v hour :
  hourly_due v hour = true <-> sleeping v = false /\ hour <> lastHour v.
Proof.
  unfold hourly_due. rewrite andb_true_iff, !negb_true_iff, Z.eqb_neq. tauto.
Qed.

Lemma hourly_tasks_idle v w :
  hourly_due v (now_hour w) = false -> hourly_tasks pf s v w = (Some v, []).
Proof. intro H. unfold hourly_tasks. now rewrite H. Qed.

(** What the hourly tasks leave when they run. *)
Lemma hourly_tasks_due v w :
  hourly_due v (now_hour w) = true ->
  let result := checkForControlFile pf (open_file w)
                  (path_join (photoFolder v) (configfn s))
                  (delay v) (wakehour v) (bedtimehour v) (photoFolder v) in
  let kept := adopt result (delay v, wakehour v, bedtimehour v, photoFolder v) in
  match scanForFiles (scandir w) (snd kept) with
  | None => fst (hourly_tasks pf s v w) = None
  | Some found =>
      fst (hourly_tasks pf s v w)
      = Some (mkVars (fst (fst (fst kept))) (snd (fst (fst kept)))
                     (snd (fst kept)) (snd kept)
                     (shuffle (randbelow w) found)
                     (now_hour w) (sleeping v) (done v))
  end.
Proof.
  intro H. unfold hourly_tasks. rewrite H. cbv zeta.
  destruct (adopt _ _) as [[[d' w'] b'] f']. simpl.
  destruct (scanForFiles (scandir w) f'); reflexivity.
Qed.

(** The variables after the body, from those after the hourly tasks. *)
Lemma body_vars v fn rest w v' :
  machine_vars (fst (body pf s v fn rest w)) = Some v' ->
  exists v1 ev1,
    hourly_tasks pf s v w = (Some v1, ev1)
    /\ delay v' = delay v1 /\ wakehour v' = wakehour v1
    /\ bedtimehour v' = bedtimehour v1 /\ photoFolder v' = photoFolder v1
    /\ pictureFiles v' = pictureFiles v1 /\ lastHour v' = lastHour v1
    /\ sleeping v' = negb (awake_hours (now_hour w) (wakehour v1) (bedtimehour v1)).
Proof.
  unfold body. destruct (hourly_tasks pf s v w) as [[v1|] ev1]; [|discriminate].
  intro H. exists v1, ev1. split; [reflexivity|].
  assert (H' : machine_vars
                 (fst (if awake_hours (now_hour w) (wakehour v1) (bedtimehour v1)
                       then show_photo s v1 fn rest w
                       else sleep_wait s v1 rest w)) = Some v').
  { destruct (if awake_hours (now_hour w) (wakehour v1) (bedtimehour v1)
              then show_photo s v1 fn rest w else sleep_wait s v1 rest w).
    exact H. }
  clear H. rename H' into H.
  destruct (awake_hours (now_hour w) (wakehour v1) (bedtimehour v1)).
  - unfold show_photo in H. split_cases H; try discriminate H;
      injection H as <-; repeat split; reflexivity.
  - unfold sleep_wait in H. split_cases H; injection H as <-;
      repeat split; reflexivity.
Qed.

Lemma step_keeps_lastHour m w v v' :
  machine_vars m = Some v ->
  refresh_fires m w = false ->
  machine_vars (fst (step pf s m w)) = Some v' ->
  lastHour v' = lastHour v.
Proof.
  intros Hm Hf H. destruct m as [v0|v0 [|fn rest]|v0|]; simpl in *;
    try discriminate Hm; injection Hm as ->.
  - destruct (done v); simpl in H; now injection H as <-.
  - now injection H as <-.
  - destruct (body_vars _ _ _ _ _ H) as [v1 [ev1 [E [_ [_ [_ [_ [_ [L _]]]]]]]]].
    rewrite (hourly_tasks_idle v w Hf) in E. injection E as <- _. exact L.
  - now injection H as <-.
Qed.

Lemma step_sets_lastHour m w v' :
  refresh_fires m w = true ->
  machine_vars (fst (step pf s m w)) = Some v' ->
  lastHour v' = now_hour w.
Proof.
  intros Hf H. destruct m as [v0|v0 [|fn rest]|v0|]; simpl in *;
    try discriminate Hf.
  destruct (body_vars _ _ _ _ _ H) as [v1 [ev1 [E [_ [_ [_ [_ [_ [L _]]]]]]]]].
  rewrite L. pose proof (hourly_tasks_due v0 w Hf) as D. cbv zeta in D.
  rewrite E in D. simpl in D.
  destruct (scanForFiles _ _); [|discriminate D].
  now injection D as ->.
Qed.

Lemma refreshes_none ws : forall m h,
  (forall v, machine_vars m = Some v -> lastHour v = h) ->
  (forall w, In w ws -> now_hour w = h) ->
  refreshes pf s m ws = 0%nat.
Proof.
  induction ws as [|w ws IH]; intros m h Hm Hws; [reflexivity|].
  assert (Hw : now_hour w = h) by (apply Hws; now left).
  assert (Hf : refresh_fires m w = false).
  { destruct m as [v|v [|fn rest]|v|]; try reflexivity.
    simpl. unfold hourly_due. rewrite Hw, (Hm v eq_refl), Z.eqb_refl. reflexivity. }
  simpl. rewrite Hf. simpl. apply (IH _ h).
  - intros v' Hv'. destruct (machine_vars m) as [v|] eqn:Ev.
    + rewrite (step_keeps_lastHour m w v v' Ev Hf Hv'). now apply Hm.
    + destruct m; simpl in Ev; try discriminate Ev. discriminate Hv'.
  - intros w' Hw'. apply Hws. now right.
Qed.

(** While the hour stays the same the hourly tasks run at most once. *)
Lemma refreshes_once ws : forall m h,
  (forall w, In w ws -> now_hour w = h) ->
  (refreshes pf s m ws <= 1)%nat.
Proof.
  induction ws as [|w ws IH]; intros m h Hws; simpl; [lia|].
  assert (Hw : now_hour w = h) by (apply Hws; now left).
  assert (Hrest : forall w', In w' ws -> now_hour w' = h)
    by (intros w' Hw'; apply Hws; now right).
  destruct (refresh_fires m w) eqn:Hf.
  - rewrite (refreshes_none ws _ h); [lia| |exact Hrest].
    intros v' Hv'. rewrite <- Hw. now apply (step_sets_lastHour m w v' Hf).
  - simpl. now apply (IH _ h).
Qed.

End LoopFacts.

(** C1.  The test of line 225 holds exactly when the hour is at or after
    the waking hour and before the sleeping hour, and after every turn of
    the loop body that does not crash the flag [sleeping] is its negation,
    for the hours in force after the hourly tasks.  With waking at 7 and
    sleeping at 21 the hours 6 and 21 are asleep, 7 and 20 awake; with
    equal waking and sleeping hours every hour is asleep. *)
Theorem C1_awake_exactly_in_the_window :
  (forall hour wakehour bedtimehour,
      awake_hours hour wakehour bedtimehour = true
      <-> wakehour <= hour < bedtimehour)
  /\ (forall pf s v fn rest w v',
        machine_vars (fst (step pf s (InFor v (fn :: rest)) w)) = Some v' ->
        sleeping v'
        = negb (awake_hours (now_hour w) (wakehour v') (bedtimehour v')))
  /\ awake_hours 6 7 21 = false
  /\ awake_hours 7 7 21 = true
  /\ awake_hours 20 7 21 = true
  /\ awake_hours 21 7 21 = false
  /\ (forall hour wakehour, awake_hours hour wakehour wakehour = false).
Proof.
  split; [|split].
  - intros hour wakehour bedtimehour. unfold awake_hours.
    rewrite andb_true_iff, Z.geb_le, Z.ltb_lt. tauto.
  - intros pf s v fn rest w v' H. simpl in H.
    destruct (body_vars pf s v fn rest w v' H)
      as [v1 [ev1 [_ [_ [Ew [Eb [_ [_ [_ Es]]]]]]]]].
    now rewrite Ew, Eb.
  - repeat split; try reflexivity.
    intros hour wakehour. unfold awake_hours.
    destruct (hour >=? wakehour) eqn:E1; [|reflexivity].
    destruct (hour <? wakehour) eqn:E2; [|reflexivity].
    apply Z.geb_le in E1. apply Z.ltb_lt in E2. lia.
Qed.

Lemma C1_awake_exactly_in_the_window_witness :
  sleeping (set_sleeping (example_vars 22 false) true) = true
  /\ awake_hours 22 7 21 = false.
Proof.
  split.
  - exact (proj1 (proj2 C1_awake_exactly_in_the_window)
             Decimal.decimal_float example_setup (example_vars 22 false)
             "a.jpg" ["b.jpg"] (example_world 22 (-1))
             (set_sleeping (example_vars 22 false) true) eq_refl).
  - reflexivity.
Defined.

(** C2.  In a turn of the loop body the hourly tasks run exactly when
    [sleeping] is unset and the hour differs from [lastHour]; otherwise
    nothing changes.  When they run, the control file is read and its
    values replace the delay, the hours and the folder only if its flag is
    set; the folder then in force is scanned and the list shuffled either
    way (a scan that raises ends the program); [lastHour] becomes the hour,
    so that along any steps taken within one hour they run at most once.
    While [sleeping] is set they never run. *)
Theorem C2_hourly_tasks :
  forall (pf : string -> option pyfloat) (s : setup) (v : vars) (w : World),
  let hour := now_hour w in
  let result := checkForControlFile pf (open_file w)
                  (path_join (photoFolder v) (configfn s))
                  (delay v) (wakehour v) (bedtimehour v) (photoFolder v) in
  let folder := if res_ok result then res_photoFolder result else photoFolder v in
  (hourly_due v hour = true <-> sleeping v = false /\ hour <> lastHour v)
  /\ (hourly_due v hour = false -> hourly_tasks pf s v w = (Some v, []))
  /\ (hourly_due v hour = true ->
      match scanForFiles (scandir w) folder with
      | None => fst (hourly_tasks pf s v w) = None
      | Some found =>
          exists v',
            fst (hourly_tasks pf s v w) = Some v'
            /\ (delay v', wakehour v', bedtimehour v', photoFolder v')
               = (if res_ok result
                  then (res_delay result, res_wakeHour result,
                        res_bedtimeHour result, res_photoFolder result)
                  else (delay v, wakehour v, bedtimehour v, photoFolder v))
            /\ pictureFiles v' = shuffle (randbelow w) found
            /\ Permutation found (pictureFiles v')
            /\ lastHour v' = hour
            /\ sleeping v' = sleeping v
            /\ done v' = done v
      end)
  /\ (forall m ws,
        (forall w', In w' ws -> now_hour w' = hour) ->
        (refreshes pf s m ws <= 1)%nat)
  /\ (sleeping v = true -> hourly_due v hour = false).
Proof.
  intros pf s v w hour result folder.
  split; [apply hourly_due_spec|].
  split; [apply hourly_tasks_idle|].
  split; [|split].
  - intro Hdue. pose proof (hourly_tasks_due pf s v w Hdue) as D.
    cbv zeta in D. fold result in D.
    assert (Ef : snd (adopt result (delay v, wakehour v, bedtimehour v, photoFolder v))
                 = folder).
    { unfold adopt, folder. now destruct (res_ok result). }
    rewrite Ef in D.
    destruct (scanForFiles (scandir w) folder) as [found|]; [|exact D].
    eexists. split; [exact D|]. simpl.
    split; [unfold adopt; now destruct (res_ok result)|].
    split; [reflexivity|].
    split; [apply shuffle_Permutation|].
    repeat split; reflexivity.
  - intros m ws Hws. now apply (refreshes_once pf s ws m hour).
  - intro Hs. unfold hourly_due. rewrite Hs. apply andb_false_r.
Qed.

Lemma C2_hourly_tasks_witness :
  hourly_tasks Decimal.decimal_float example_setup (example_vars 9 false)
    (example_world 9 (-1))
  = (Some (example_vars 9 false), [])
  /\ (refreshes Decimal.decimal_float example_setup
        (InFor (example_vars 8 false) ["a.jpg"; "b.jpg"])
        [example_world 9 (-1); example_world 9 (-1)] <= 1)%nat.
Proof.
  pose proof (C2_hourly_tasks Decimal.decimal_float example_setup
                (example_vars 9 false) (example_world 9 (-1)))
    as [_ [Hidle [_ [Honce _]]]].
  split.
  - exact (Hidle eq_refl).
  - apply Honce. intros w' [<-|[<-|[]]]; reflexivity.
Defined.

(** C3 (defect).  The player is asleep at the head of a catalog of two
    pictures and a key is down during the first wait of 300 seconds.  The
    loop does not end there: the second picture gets its own turn, with a
    second wait of 300 seconds, and only then is the window destroyed. *)
Theorem C3_key_during_sleep_waits_again :
  run Decimal.decimal_float example_setup
      (InFor (example_vars 22 true) ["a.jpg"; "b.jpg"])
      [example_world 22 27; example_world 22 (-1);
       example_world 22 (-1); example_world 22 (-1)]
  = (Exited (set_done (example_vars 22 true) true),
     [WaitKey 300000; WaitKey 300000; DestroyWindow])
  /\ fst (step Decimal.decimal_float example_setup
            (InFor (example_vars 22 true) ["a.jpg"; "b.jpg"])
            (example_world 22 27))
     = InFor (set_done (example_vars 22 true) true) ["b.jpg"].
Proof. split; vm_compute; reflexivity. Qed.

(** The branch of sleeping hours has no [break]: whatever the key, the
    iterator is asked again. *)
Lemma sleep_wait_goes_on s v rest w :
  (exists v', fst (sleep_wait s v rest w) = InFor v' rest
              /\ done v' = (done v || key_pressed w (300 * 1000)))
  /\ snd (sleep_wait s v rest w)
     = (xset s "xset dpms force standby" ++ [WaitKey 300000])%list.
Proof.
  unfold sleep_wait. destruct (key_pressed w (300 * 1000)); split;
    try reflexivity; eexists; split;
    try reflexivity; simpl; now rewrite ?orb_true_r, ?orb_false_r.
Qed.

(** The branch of waking hours does have it: a key during the pause of a
    picture leads straight to the test of the [while]. *)
Lemma show_photo_breaks s v fn rest w rows cols bw bh ms :
  imread w fn = Some (rows, cols) -> rows > 0 ->
  ImageFitter.bordered (wid s) (hgt s) rows cols = Some (bw, bh) ->
  delay_ms (delay v) = Some ms ->
  key_pressed w ms = true ->
  fst (show_photo s v fn rest w) = AtWhile (set_done (set_sleeping v false) true).
Proof.
  intros Hi Hr Hb Hms Hk. unfold show_photo. rewrite Hi. unfold gotImg.
  assert (E1 : (rows >? 0) = true) by (apply Z.gtb_lt; lia). rewrite E1.
  cbn [negb]. rewrite Hb.
  cbn [delay set_sleeping]. rewrite Hms, Hk. reflexivity.
Qed.

(** C7.  In waking hours a picture that does not decode, [cv2.imread]
    returning nothing or an image without rows, takes the loop to the next
    path: the turn calls neither [cv2.imshow] nor [cv2.waitKey], the only
    events are calls of [os.system], and the loop is neither ended nor
    crashed. *)
Theorem C7_undecodable_picture_is_skipped :
  forall (pf : string -> option pyfloat) (s : setup) (v : vars) (fn : string)
         (rest : list string) (w : World) (v1 : vars) (ev1 : list event),
  hourly_tasks pf s v w = (Some v1, ev1) ->
  awake_hours (now_hour w) (wakehour v1) (bedtimehour v1) = true ->
  gotImg (imread w fn) = false ->
  (imread w fn = None \/ exists rows cols, imread w fn = Some (rows, cols) /\ rows <= 0)
  /\ fst (step pf s (InFor v (fn :: rest)) w) = InFor (set_sleeping v1 false) rest
  /\ forallb is_system (snd (step pf s (InFor v (fn :: rest)) w)) = true
  /\ done (set_sleeping v1 false) = done v.
Proof.
  intros pf s v fn rest w v1 ev1 Hh Ha Hg.
  split.
  { unfold gotImg in Hg. destruct (imread w fn) as [[rows cols]|]; [|now left].
    right. exists rows, cols. split; [reflexivity|].
    rewrite Z.gtb_ltb, Z.ltb_ge in Hg. exact Hg. }
  assert (Hev1 : forallb is_system ev1 = true /\ done v1 = done v).
  { unfold hourly_tasks in Hh. destruct (hourly_due v (now_hour w)).
    - destruct (adopt _ _) as [[[d' w'] b'] f'].
      destruct (scanForFiles (scandir w) f'); [|discriminate Hh].
      inversion Hh; subst.
      split; [unfold xset; now destruct (isWindows s) | reflexivity].
    - inversion Hh; subst. now split. }
  destruct Hev1 as [Hev1 Hdone].
  simpl. unfold body. rewrite Hh, Ha. unfold show_photo. rewrite Hg. simpl.
  split; [reflexivity|]. split; [|exact Hdone].
  rewrite !forallb_app, Hev1. unfold xset.
  destruct (isWindows s), (sleeping v1); reflexivity.
Qed.

Lemma C7_undecodable_picture_is_skipped_witness :
  fst (step Decimal.decimal_float example_setup
         (InFor (example_vars 9 false) ["a.jpg"; "b.jpg"])
         (mkWorld 9 (fun _ => None) (fun _ => Some example_tree) (fun _ => O)
                  (fun _ => None) (fun _ => -1)))
  = InFor (set_sleeping (example_vars 9 false) false) ["b.jpg"].
Proof.
  exact (proj1 (proj2
    (C7_undecodable_picture_is_skipped Decimal.decimal_float example_setup
       (example_vars 9 false) "a.jpg" ["b.jpg"]
       (mkWorld 9 (fun _ => None) (fun _ => Some example_tree) (fun _ => O)
                (fun _ => None) (fun _ => -1))
       (example_vars 9 false) [] eq_refl eq_refl eq_refl))).
Defined.

(** C9.  With an empty catalog and [done] unset the loop turns between the
    test of the [while] and an iterator with nothing to give, for as many
    steps as one likes: the body never runs, so no event happens, neither a
    wait for a key nor the destruction of the window, and the program
    neither ends nor crashes.  So it is for [runFotoFrame] when its first
    scan finds no picture: whatever the keys, it is still in the loop and
    has called nothing but [os.system]. *)
Theorem C9_empty_catalog_spins :
  (forall (pf : string -> option pyfloat) (s : setup) (v : vars)
          (ws : list World),
      pictureFiles v = [] -> done v = false ->
      (fst (run pf s (AtWhile v) ws) = AtWhile v
       \/ fst (run pf s (AtWhile v) ws) = InFor v [])
      /\ snd (run pf s (AtWhile v) ws) = [])
  /\ (forall (pf : string -> option pyfloat) delay wakehour bedtimehour
             photoFolder configfn platform_windows rect_w rect_h w0 ws,
        scanForFiles (scandir w0) photoFolder = Some [] ->
        let out := runFotoFrame pf
                     (delay, wakehour, bedtimehour, photoFolder, configfn)
                     platform_windows rect_w rect_h w0 ws in
        (exists v0, (fst out = AtWhile v0 \/ fst out = InFor v0 [])
                    /\ pictureFiles v0 = [] /\ done v0 = false)
        /\ forallb is_system (snd out) = true).
Proof.
  assert (G : forall pf s v ws m,
             pictureFiles v = [] -> done v = false ->
             m = AtWhile v \/ m = InFor v [] ->
             (fst (run pf s m ws) = AtWhile v \/ fst (run pf s m ws) = InFor v [])
             /\ snd (run pf s m ws) = []).
  { intros pf s v ws. induction ws as [|w ws IH]; intros m Hp Hd Hm;
      [simpl; now split|].
    simpl.
    assert (Hstep : step pf s m w = (InFor v [], [])
                    \/ step pf s m w = (AtWhile v, [])).
    { destruct Hm as [-> | ->]; simpl.
      - rewrite Hd, Hp. now left.
      - now right. }
    destruct Hstep as [-> | ->].
    + destruct (IH (InFor v []) Hp Hd (or_intror eq_refl)) as [H1 H2].
      destruct (run pf s (InFor v []) ws) as [m2 e2]. simpl in *. now subst.
    + destruct (IH (AtWhile v) Hp Hd (or_introl eq_refl)) as [H1 H2].
      destruct (run pf s (AtWhile v) ws) as [m2 e2]. simpl in *. now subst. }
  split.
  - intros pf s v ws Hp Hd. apply G; auto.
  - intros pf delay wakehour bedtimehour photoFolder configfn platform_windows
           rect_w rect_h w0 ws Hscan out.
    subst out. unfold runFotoFrame, enter. rewrite Hscan.
    destruct (screen_size rect_w rect_h) as [wd hg].
    set (v0 := mkVars delay wakehour bedtimehour photoFolder
                      (shuffle (randbelow w0) []) (now_hour w0) false false).
    set (s := mkSetup configfn platform_windows wd hg).
    destruct (G pf s v0 ws (AtWhile v0) eq_refl eq_refl (or_introl eq_refl))
      as [H1 H2].
    destruct (run pf s (AtWhile v0) ws) as [m2 e2]. simpl in H1, H2. subst e2.
    simpl. split.
    + exists v0. now split.
    + rewrite app_nil_r. unfold xset. now destruct (isWindows s).
Qed.

Lemma C9_empty_catalog_spins_witness :
  snd (run Decimal.decimal_float example_setup
         (AtWhile (mkVars (Fin 2) 7 21 "root" [] 9 false false))
         [example_world 9 27; example_world 9 27; example_world 9 27])
  = []
  /\ forallb is_system
       (snd (runFotoFrame Decimal.decimal_float
               (Fin 2, 7, 21, "root", "photoframe.ini") false 1920 1080
               (mkWorld 9 (fun _ => None) (fun _ => Some [EFile "notes.txt"])
                        (fun _ => O) (fun _ => None) (fun _ => 27))
               [example_world 9 27; example_world 9 27])) = true.
Proof.
  split.
  - exact (proj2 (proj1 C9_empty_catalog_spins Decimal.decimal_float
                    example_setup (mkVars (Fin 2) 7 21 "root" [] 9 false false)
                    [example_world 9 27; example_world 9 27; example_world 9 27]
                    eq_refl eq_refl)).
  - exact (proj2 (proj2 C9_empty_catalog_spins Decimal.decimal_float
                    (Fin 2) 7 21 "root" "photoframe.ini" false 1920 1080
                    (mkWorld 9 (fun _ => None) (fun _ => Some [EFile "notes.txt"])
                             (fun _ => O) (fun _ => None) (fun _ => 27))
                    [example_world 9 27; example_world 9 27] eq_refl)).
Defined.

(** * Further properties of checkForControlFile *)

Section ConfigMore.

Variable pf : string -> option pyfloat.

(** A result whose flag is set holds a delay and hours in range, whatever
    the file and the values passed in. *)
Lemma valid_result_ranges open_file controlFn delay wakeHour bedtimeHour
      photoFolder :
  let r := checkForControlFile pf open_file controlFn delay wakeHour
             bedtimeHour photoFolder in
  res_ok r = true ->
  delay_in_range (res_delay r)
  /\ 0 <= res_wakeHour r <= 10 /\ 0 <= res_bedtimeHour r <= 23.
Proof.
  intros r Hok. destruct (open_file controlFn) as [text|] eqn:Ho.
  - destruct (checkForControlFile_readable pf open_file controlFn delay wakeHour
                bedtimeHour photoFolder text Ho) as [T [Hs _]].
    cbv zeta in T, Hs. fold r in T, Hs. rewrite Hok in Hs. symmetry in Hs.
    unfold all_keys_seen in Hs.
    apply andb_true_iff in Hs as [Hs _].
    apply andb_true_iff in Hs as [Hs E3].
    apply andb_true_iff in Hs as [E1 E2].
    destruct T as [_ _ Td Tw Ts _]. rewrite E1 in Td. rewrite E2 in Tw.
    rewrite E3 in Ts. simpl in Td, Tw, Ts. auto.
  - subst r. rewrite (checkForControlFile_unreadable pf open_file controlFn delay
                        wakeHour bedtimeHour photoFolder Ho) in Hok.
    discriminate Hok.
Qed.

(** The same line, read from two states of the loader, ends the same way
    and leaves them in agreement on the keys met so far and on its own. *)
Lemma process_line_agree d w s p st1 st2 line :
  agree d w s p st1 st2 ->
  match process_line pf st1 line, process_line pf st2 line with
  | Normal a, Normal b =>
      agree (d || PyStr.startswith line "DELAY=")
            (w || PyStr.startswith line "WAKE=")
            (s || PyStr.startswith line "SLEEP=")
            (p || PyStr.startswith line "PATH=") a b
  | Raised a, Raised b => agree d w s p a b
  | _, _ => False
  end.
Proof.
  destruct st1 as [r1 n1], st2 as [r2 n2]. intros [Ad [Aw [As Ap]]].
  simpl in Ad, Aw, As, Ap.
  unfold process_line, on_DELAY, on_WAKE, on_SLEEP, on_PATH.
  destruct (PyStr.startswith line "DELAY=");
    destruct (PyStr.startswith line "WAKE=");
    destruct (PyStr.startswith line "SLEEP=");
    destruct (PyStr.startswith line "PATH=");
    destruct (pf (PyStr.slice_from line 6)) as [x|];
    destruct (pf (PyStr.slice_from line 5)) as [y|];
    cbn [bind];
    repeat match goal with
           | |- context [PyFloat.to_int ?e] => destruct (PyFloat.to_int e); cbn [bind]
           end;
    rewrite ?orb_true_r, ?orb_false_r;
    unfold agree; simpl; repeat split; intros; auto; try discriminate.
Qed.

Lemma read_lines_agree lines : forall d w s p st1 st2,
  agree d w s p st1 st2 ->
  let ls := processed pf lines in
  agree (d || seen "DELAY=" ls) (w || seen "WAKE=" ls)
        (s || seen "SLEEP=" ls) (p || seen "PATH=" ls)
        (final (read_lines pf lines st1)) (final (read_lines pf lines st2)).
Proof.
  induction lines as [|line rest IH]; intros d w s p st1 st2 A; simpl.
  - now rewrite !orb_false_r.
  - destruct (raises pf line) eqn:R.
    + rewrite !(process_line_raises pf _ line R). simpl.
      now rewrite !orb_false_r.
    + pose proof (process_line_agree d w s p st1 st2 line A) as H.
      destruct (process_line_normal pf st1 line R) as [a Ea].
      destruct (process_line_normal pf st2 line R) as [b Eb].
      rewrite Ea, Eb in *. specialize (IH _ _ _ _ _ _ H). simpl in IH. simpl.
      now rewrite !orb_assoc.
Qed.

(** A line that starts with none of the keys changes nothing. *)
Lemma process_line_unkeyed st line :
  keyed line = false -> process_line pf st line = Normal st.
Proof.
  unfold keyed. intro H.
  apply orb_false_iff in H as [H E4]. apply orb_false_iff in H as [H E3].
  apply orb_false_iff in H as [E1 E2].
  destruct st as [r n].
  unfold process_line, on_DELAY, on_WAKE, on_SLEEP, on_PATH.
  now rewrite E1, E2, E3, E4.
Qed.

Lemma read_lines_keyed lines : forall st,
  read_lines pf lines st = read_lines pf (filter keyed lines) st.
Proof.
  induction lines as [|line rest IH]; intro st; simpl; [reflexivity|].
  destruct (keyed line) eqn:K; simpl.
  - destruct (process_line pf st line); [apply IH | reflexivity].
  - rewrite (process_line_unkeyed st line K). apply IH.
Qed.

End ConfigMore.

(** X1.  A result whose flag is set holds a delay between 1 and 60, a
    waking hour between 0 and 10 and a sleeping hour between 0 and 23,
    whatever the file holds (values out of range, infinite or not a number,
    lines that raise after the four keys) and whatever values were passed
    in. *)
Theorem X1_valid_result_is_in_range :
  forall (pf : string -> option pyfloat) (open_file : string -> option string)
         (controlFn : string) (delay : pyfloat) (wakeHour bedtimeHour : Z)
         (photoFolder : string),
  let r := checkForControlFile pf open_file controlFn delay wakeHour
             bedtimeHour photoFolder in
  res_ok r = true ->
  (exists q, res_delay r = Fin q /\ (1 <= q <= 60)%Q)
  /\ 0 <= res_wakeHour r <= 10
  /\ 0 <= res_bedtimeHour r <= 23.
Proof.
  intros pf open_file controlFn delay wakeHour bedtimeHour photoFolder r Hok.
  exact (valid_result_ranges pf open_file controlFn delay wakeHour bedtimeHour
           photoFolder Hok).
Qed.

Lemma X1_valid_result_is_in_range_witness :
  0 <= res_wakeHour
         (checkForControlFile Decimal.decimal_float
            (fun _ => Some ("DELAY=0.1" ++ nl ++ "WAKE=15" ++ nl ++ "SLEEP=99"
                            ++ nl ++ "PATH=/p" ++ nl))
            "photoframe.ini" (Fin 4) 7 21 "/media/HDD") <= 10.
Proof.
  exact (proj1 (proj2
    (X1_valid_result_is_in_range Decimal.decimal_float
       (fun _ => Some ("DELAY=0.1" ++ nl ++ "WAKE=15" ++ nl ++ "SLEEP=99"
                       ++ nl ++ "PATH=/p" ++ nl))
       "photoframe.ini" (Fin 4) 7 21 "/media/HDD" eq_refl))).
Defined.

(** Every field of a result whose flag is set was read from the file. *)
Lemma valid_result_independent :
  forall (pf : string -> option pyfloat) (open_file : string -> option string)
         (controlFn : string)
         (delay1 delay2 : pyfloat) (wake1 wake2 bed1 bed2 : Z)
         (folder1 folder2 : string),
  res_ok (checkForControlFile pf open_file controlFn delay1 wake1 bed1 folder1)
  = true ->
  checkForControlFile pf open_file controlFn delay1 wake1 bed1 folder1
  = checkForControlFile pf open_file controlFn delay2 wake2 bed2 folder2.
Proof.
  intros pf open_file controlFn delay1 delay2 wake1 wake2 bed1 bed2
         folder1 folder2 Hok.
  destruct (open_file controlFn) as [text|] eqn:Ho.
  - destruct (checkForControlFile_readable pf open_file controlFn delay1 wake1
                bed1 folder1 text Ho) as [_ [Hs1 _]].
    destruct (checkForControlFile_readable pf open_file controlFn delay2 wake2
                bed2 folder2 text Ho) as [_ [Hs2 _]].
    cbv zeta in Hs1, Hs2. rewrite Hok in Hs1. symmetry in Hs1.
    rewrite Hs1 in Hs2.
    set (p1 := mkResult delay1 wake1 bed1 folder1 false).
    set (p2 := mkResult delay2 wake2 bed2 folder2 false).
    assert (A0 : agree false false false false (p1, 0) (p2, 0))
      by (repeat split; discriminate).
    pose proof (read_lines_agree pf (readlines (universal_newlines text))
                  _ _ _ _ _ _ A0) as A.
    cbv zeta in A. simpl orb in A.
    unfold all_keys_seen in Hs1.
    apply andb_true_iff in Hs1 as [Hs1 E4].
    apply andb_true_iff in Hs1 as [Hs1 E3].
    apply andb_true_iff in Hs1 as [E1 E2].
    rewrite E1, E2, E3, E4 in A. destruct A as [Ad [Aw [As Ap]]].
    specialize (Ad eq_refl). specialize (Aw eq_refl).
    specialize (As eq_refl). specialize (Ap eq_refl).
    assert (F : forall d w b f,
               let R := checkForControlFile pf open_file controlFn d w b f in
               let st := final (read_lines pf (readlines (universal_newlines text))
                                   (mkResult d w b f false, 0)) in
               res_delay R = res_delay (fst st)
               /\ res_wakeHour R = res_wakeHour (fst st)
               /\ res_bedtimeHour R = res_bedtimeHour (fst st)
               /\ res_photoFolder R = res_photoFolder (fst st)).
    { clear - Ho.
      intros d w b f R st. subst R st. unfold checkForControlFile. rewrite Ho.
      destruct (final _) as [r n].
      destruct (n =? 15); simpl; repeat split; reflexivity. }
    destruct (F delay1 wake1 bed1 folder1) as [F1 [F2 [F3 F4]]].
    destruct (F delay2 wake2 bed2 folder2) as [G1 [G2 [G3 G4]]].
    fold p1 in F1, F2, F3, F4. fold p2 in G1, G2, G3, G4.
    rewrite <- F1, <- G1 in Ad. rewrite <- F2, <- G2 in Aw.
    rewrite <- F3, <- G3 in As. rewrite <- F4, <- G4 in Ap.
    destruct (checkForControlFile pf open_file controlFn delay1 wake1 bed1 folder1).
    destruct (checkForControlFile pf open_file controlFn delay2 wake2 bed2 folder2).
    simpl in *. congruence.
  - rewrite (checkForControlFile_unreadable pf open_file controlFn delay1 wake1
               bed1 folder1 Ho) in Hok. discriminate Hok.
Qed.

(** X2.  A result whose flag is set does not depend on the values passed
    in: read from the same file with other previous values, the result is
    the same. *)
Theorem X2_valid_result_forgets_previous_values :
  forall (pf : string -> option pyfloat) (open_file : string -> option string)
         (controlFn : string)
         (delay1 delay2 : pyfloat) (wake1 wake2 bed1 bed2 : Z)
         (folder1 folder2 : string),
  res_ok (checkForControlFile pf open_file controlFn delay1 wake1 bed1 folder1)
  = true ->
  checkForControlFile pf open_file controlFn delay1 wake1 bed1 folder1
  = checkForControlFile pf open_file controlFn delay2 wake2 bed2 folder2.
Proof. exact valid_result_independent. Qed.

Lemma X2_valid_result_forgets_previous_values_witness :
  checkForControlFile Decimal.decimal_float (fun _ => Some sample_file)
    "photoframe.ini" (Fin 4) 7 21 "/media/HDD"
  = checkForControlFile Decimal.decimal_float (fun _ => Some sample_file)
      "photoframe.ini" (Fin 30) 1 2 "/elsewhere".
Proof.
  exact (X2_valid_result_forgets_previous_values Decimal.decimal_float
           (fun _ => Some sample_file) "photoframe.ini"
           (Fin 4) (Fin 30) 7 1 21 2 "/media/HDD" "/elsewhere" eq_refl).
Defined.

(** X3.  Only the lines that start with one of the four keys count: two
    files whose keyed lines are the same, in the same order, give the same
    result.  Blank lines, comments and keys written in another case or
    after a space are passed over. *)
Theorem X3_unkeyed_lines_are_ignored :
  forall (pf : string -> option pyfloat) (controlFn : string)
         (delay : pyfloat) (wakeHour bedtimeHour : Z) (photoFolder : string)
         (text1 text2 : string),
  filter keyed (readlines (universal_newlines text1))
  = filter keyed (readlines (universal_newlines text2)) ->
  checkForControlFile pf (fun _ => Some text1) controlFn delay wakeHour
    bedtimeHour photoFolder
  = checkForControlFile pf (fun _ => Some text2) controlFn delay wakeHour
      bedtimeHour photoFolder.
Proof.
  intros pf controlFn delay wakeHour bedtimeHour photoFolder text1 text2 H.
  unfold checkForControlFile.
  rewrite (read_lines_keyed pf (readlines (universal_newlines text1))).
  rewrite (read_lines_keyed pf (readlines (universal_newlines text2))).
  now rewrite H.
Qed.

Lemma X3_unkeyed_lines_are_ignored_witness :
  checkForControlFile Decimal.decimal_float
    (fun _ => Some ("# settings" ++ nl ++ sample_head ++ nl ++ " delay=9" ++ nl
                    ++ "PATH=/media/pi/photoframe" ++ nl))
    "photoframe.ini" (Fin 4) 7 21 "/media/HDD"
  = checkForControlFile Decimal.decimal_float (fun _ => Some sample_file)
      "photoframe.ini" (Fin 4) 7 21 "/media/HDD".
Proof.
  apply (X3_unkeyed_lines_are_ignored Decimal.decimal_float "photoframe.ini"
           (Fin 4) 7 21 "/media/HDD"
           ("# settings" ++ nl ++ sample_head ++ nl ++ " delay=9" ++ nl
            ++ "PATH=/media/pi/photoframe" ++ nl)
           sample_file).
  vm_compute. reflexivity.
Defined.

(** * Further properties of scanForFiles *)

Lemma scanEntry_unreadable e : forall folder,
  readableEntry e = false -> scanEntry folder e = None.
Proof.
  induction e as [name|name children IH|name|name] using entry_induction;
    intros folder R; try discriminate R; [|reflexivity].
  rewrite scanEntry_dir. rewrite readableEntry_dir in R.
  generalize (path_join folder name) as sub. intro sub.
  induction children as [|e es IHes]; [discriminate R|].
  inversion IH as [|? ? He Hes]; subst.
  simpl in R. simpl.
  destruct (readableEntry e) eqn:Re.
  - simpl in R. rewrite (IHes Hes R).
    now destruct (scanEntry sub e).
  - now rewrite (He sub eq_refl).
Qed.

Lemma scanEntries_unreadable es : forall folder,
  readable es = false -> scanEntries folder es = None.
Proof.
  induction es as [|e es IH]; intros folder R; [discriminate R|].
  simpl in R. simpl.
  destruct (readableEntry e) eqn:Re.
  - simpl in R. rewrite (IH folder R). now destruct (scanEntry folder e).
  - now rewrite (scanEntry_unreadable e folder Re).
Qed.

(** X4.  The scan raises exactly when the folder itself or one folder
    anywhere below it cannot be listed: a single such folder loses the
    whole scan, the pictures found before it included. *)
Theorem X4_scan_raises_iff_a_folder_is_denied :
  forall (scandir : string -> option (list entry)) (folder : string),
  scanForFiles scandir folder = None
  <-> scandir folder = None
      \/ exists es, scandir folder = Some es /\ readable es = false.
Proof.
  intros scandir folder. unfold scanForFiles.
  destruct (scandir folder) as [es|]; [|split; [now left | reflexivity]].
  split.
  - intro H. right. exists es. split; [reflexivity|].
    destruct (readable es) eqn:R; [|reflexivity].
    rewrite (scanEntries_readable es folder R) in H. discriminate H.
  - intros [H|[es' [E R]]]; [discriminate H|].
    injection E as <-. now apply scanEntries_unreadable.
Qed.

Lemma X4_scan_raises_iff_a_folder_is_denied_witness :
  scanForFiles
    (fun _ => Some [EFile "a.jpg"; EDir "sub" [EFile "b.jpg"; EDenied "private"]])
    "root"
  = None.
Proof.
  apply (proj2 (X4_scan_raises_iff_a_folder_is_denied
                  (fun _ => Some [EFile "a.jpg";
                                  EDir "sub" [EFile "b.jpg"; EDenied "private"]])
                  "root")).
  right. eexists. split; reflexivity.
Defined.

Lemma drop_append_more (a b : string) (c : ascii) :
  PyStr.drop (String.length a + 1) (a ++ String c b) = b.
Proof.
  induction a as [|x a IH]; simpl; [now destruct b | exact IH].
Qed.

(** X5.  A file whose name ends in .jpeg, in whatever case, is not taken
    for a picture: only the endings .jpg and .png are. *)
Theorem X5_jpeg_ending_is_not_a_picture :
  forall stem ext : string,
  PyStr.lower ext = ".jpeg" -> is_picture (stem ++ ext) = false.
Proof.
  intros stem ext H. unfold is_picture.
  rewrite ScanFacts.lower_append, H.
  unfold PyStr.endswith. rewrite !PyStrFacts.length_append.
  change (String.length ".jpeg") with 5%nat.
  change (String.length ".jpg") with 4%nat.
  change (String.length ".png") with 4%nat.
  replace (String.length (PyStr.lower stem) + 5 - 4)%nat
    with (String.length (PyStr.lower stem) + 1)%nat by lia.
  rewrite drop_append_more. simpl. now rewrite !andb_false_r.
Qed.

Lemma X5_jpeg_ending_is_not_a_picture_witness :
  is_picture ("holiday" ++ ".JPEG") = false.
Proof.
  exact (X5_jpeg_ending_is_not_a_picture "holiday" ".JPEG" eq_refl).
Defined.

(** * Further properties of the screen size and of the image fit *)

(** X6.  The screen size used is the one the window reports when that is
    at least 640 wide and 480 high, and 1920 by 1080 otherwise; either way
    it is at least 640 by 480. *)
Theorem X6_screen_size_is_sane :
  forall rect_w rect_h : Z,
  (640 <= rect_w /\ 480 <= rect_h ->
     screen_size rect_w rect_h = (inject_Z rect_w, inject_Z rect_h))
  /\ (rect_w < 640 \/ rect_h < 480 ->
        screen_size rect_w rect_h = (1920%Q, 1080%Q))
  /\ (640 <= fst (screen_size rect_w rect_h))%Q
  /\ (480 <= snd (screen_size rect_w rect_h))%Q.
Proof.
  intros rect_w rect_h. unfold screen_size.
  destruct (PyFloat.Qlt_bool (inject_Z rect_h) 480) eqn:Eh;
    destruct (PyFloat.Qlt_bool (inject_Z rect_w) 640) eqn:Ew; simpl;
    try apply PyFloatFacts.Qlt_bool_true in Eh;
    try apply PyFloatFacts.Qlt_bool_true in Ew;
    try apply PyFloatFacts.Qlt_bool_false in Eh;
    try apply PyFloatFacts.Qlt_bool_false in Ew;
    change 480%Q with (inject_Z 480) in *;
    change 640%Q with (inject_Z 640) in *;
    rewrite <- ?Zlt_Qlt, <- ?Zle_Qle in *;
    repeat split; intros; try reflexivity; try discriminate; try lia.
Qed.

Lemma X6_screen_size_is_sane_witness :
  screen_size 1280 720 = (inject_Z 1280, inject_Z 720)
  /\ screen_size (-1) (-1) = (1920%Q, 1080%Q).
Proof.
  pose proof (X6_screen_size_is_sane 1280 720) as [H1 _].
  pose proof (X6_screen_size_is_sane (-1) (-1)) as [_ [H2 _]].
  split.
  - apply H1. split; discriminate.
  - apply H2. left. reflexivity.
Defined.

Module FitMore.
Import FitFacts ImageFitter.

Section Fit.

Variables W H w h : Z.
Hypothesis HW : 0 < W < 2 ^ 25.
Hypothesis HH : 0 < H < 2 ^ 25.
Hypothesis Hw : 0 < w < 2 ^ 25.
Hypothesis Hh : 0 < h < 2 ^ 25.

(** A picture more than [H] times higher than wide is resized to a width
    of 0. *)
Lemma too_high :
  H * w < h ->
  exists dh, dims (inject_Z W) (inject_Z H) h w = Some (0, dh).
Proof.
  intro E. destruct (dims_int W H w h HW HH Hw Hh) as [dw [dh [D [Cw _]]]].
  pose proof (numerator_bounds W H w h HW HH Hw Hh) as NB.
  set (N := Z.min (W * h) (H * w)) in *.
  assert (Nw : N <= H * w) by apply Z.le_min_r.
  assert (Z0 : N / h = 0) by (apply Z.div_small; lia).
  assert (M : N mod h = N) by (apply Z.mod_small; lia).
  exists dh. rewrite D. do 2 f_equal. destruct Cw as [->|[M0 _]]; lia.
Qed.

(** A picture more than [W] times wider than high is resized to a height
    of 0. *)
Lemma too_wide :
  W * h < w ->
  exists dw, dims (inject_Z W) (inject_Z H) h w = Some (dw, 0).
Proof.
  intro E. destruct (dims_int W H w h HW HH Hw Hh) as [dw [dh [D [_ Ch]]]].
  pose proof (numerator_bounds W H w h HW HH Hw Hh) as NB.
  set (N := Z.min (W * h) (H * w)) in *.
  assert (Nh : N <= W * h) by apply Z.le_min_l.
  assert (Z0 : N / w = 0) by (apply Z.div_small; lia).
  assert (M : N mod w = N) by (apply Z.mod_small; lia).
  exists dw. rewrite D. do 2 f_equal. destruct Ch as [->|[M0 _]]; lia.
Qed.

(** Short of those proportions both resized dimensions are positive. *)
Lemma proportionate :
  1 < W -> 1 < H -> h < H * w -> w < W * h ->
  exists dw dh, dims (inject_Z W) (inject_Z H) h w = Some (dw, dh)
                /\ 0 < dw <= W /\ 0 < dh <= H.
Proof.
  intros W1 H1 E1 E2.
  destruct (dims_int W H w h HW HH Hw Hh) as [dw [dh [D [Cw Ch]]]].
  destruct (dims_within W H w h HW HH Hw Hh) as [dw' [dh' [D' [Bw [Bh _]]]]].
  rewrite D in D'. injection D' as <- <-.
  set (N := Z.min (W * h) (H * w)) in *.
  assert (Nh : h < N) by (unfold N; apply Z.min_glb_lt; nia).
  assert (Nw : w < N) by (unfold N; apply Z.min_glb_lt; nia).
  assert (Qh : 1 <= N / h) by (apply Z.div_le_lower_bound; lia).
  assert (Qw : 1 <= N / w) by (apply Z.div_le_lower_bound; lia).
  exists dw, dh. split; [exact D|]. split; split; try lia.
  - destruct Cw as [->|[M ->]]; [lia|].
    pose proof (Z.div_mod N h ltac:(lia)). nia.
  - destruct Ch as [->|[M ->]]; [lia|].
    pose proof (Z.div_mod N w ltac:(lia)). nia.
Qed.

(** The size of the frame. *)
Lemma frame_size bw bh :
  bordered (inject_Z W) (inject_Z H) h w = Some (bw, bh) ->
  exists dw dh,
    dims (inject_Z W) (inject_Z H) h w = Some (dw, dh)
    /\ 0 < dw <= W /\ 0 < dh <= H /\ (W - 1 <= dw \/ H - 1 <= dh)
    /\ bw = dw + 2 * Z.max 1 ((W - dw) / 2)
    /\ bh = dh + 2 * Z.max 1 ((H - dh) / 2).
Proof.
  intro B.
  destruct (dims_within W H w h HW HH Hw Hh) as [dw [dh [D [Bw [Bh F]]]]].
  rewrite (bordered_spec W H w h dw dh HW HH D Bw Bh) in B.
  destruct ((dw <=? 0) || (dh <=? 0)) eqn:E; [discriminate B|].
  apply orb_false_iff in E as [E1 E2]. apply Z.leb_gt in E1, E2.
  injection B as <- <-. exists dw, dh. repeat split; try assumption; lia.
Qed.

(** Frame and screen differ by a pixel or two at most, and on one axis
    the frame is the larger. *)
Lemma frame_bounds bw bh :
  bordered (inject_Z W) (inject_Z H) h w = Some (bw, bh) ->
  W - 1 <= bw <= W + 2 /\ H - 1 <= bh <= H + 2 /\ (W < bw \/ H < bh).
Proof.
  intro B.
  destruct (frame_size bw bh B) as [dw [dh [_ [Bw [Bh [F [-> ->]]]]]]].
  pose proof (Z.div_mod (W - dw) 2 ltac:(lia)) as Dw.
  pose proof (Z.mod_pos_bound (W - dw) 2 ltac:(lia)) as Mw.
  pose proof (Z.div_mod (H - dh) 2 ltac:(lia)) as Dh.
  pose proof (Z.mod_pos_bound (H - dh) 2 ltac:(lia)) as Mh.
  lia.
Qed.

Lemma elongated_no_frame :
  H * w < h \/ W * h < w ->
  resized (inject_Z W) (inject_Z H) h w = None
  /\ bordered (inject_Z W) (inject_Z H) h w = None.
Proof.
  intros [E|E].
  - destruct (too_high E) as [dh D].
    unfold bordered, resized. now rewrite D.
  - destruct (too_wide E) as [dw D].
    unfold bordered, resized. rewrite D. now rewrite orb_true_r.
Qed.

Lemma proportionate_frame :
  1 < W -> 1 < H -> h < H * w -> w < W * h ->
  exists dw dh bw bh,
    resized (inject_Z W) (inject_Z H) h w = Some (dw, dh)
    /\ 0 < dw <= W /\ 0 < dh <= H
    /\ bordered (inject_Z W) (inject_Z H) h w = Some (bw, bh).
Proof.
  intros W1 H1 E1 E2.
  destruct (proportionate W1 H1 E1 E2) as [dw [dh [D [Bw Bh]]]].
  assert (R : resized (inject_Z W) (inject_Z H) h w = Some (dw, dh)).
  { unfold resized. rewrite D.
    replace (dw <=? 0) with false by (symmetry; apply Z.leb_gt; lia).
    replace (dh <=? 0) with false by (symmetry; apply Z.leb_gt; lia).
    reflexivity. }
  exists dw, dh. eexists. eexists. split; [exact R|].
  split; [exact Bw|]. split; [exact Bh|].
  rewrite (bordered_spec W H w h dw dh HW HH D ltac:(lia) ltac:(lia)).
  replace (dw <=? 0) with false by (symmetry; apply Z.leb_gt; lia).
  replace (dh <=? 0) with false by (symmetry; apply Z.leb_gt; lia).
  reflexivity.
Qed.

End Fit.
End FitMore.

(** X7.  On a screen [W] by [H] an image [w] by [h], whole numbers below
    [2^25], is resized to a width between 0 and [W] and a height between 0
    and [H], and it fills the screen along one axis but for one pixel at
    most: the width is [W] or [W - 1], or the height is [H] or [H - 1].
    The pixel is lost on a 1920 by 1080 screen by an image 854 by 480,
    resized to 1919 by 1079. *)
Theorem X7_resized_image_fits_and_nearly_fills_an_axis :
  forall W H w h : Z,
  0 < W < 2 ^ 25 -> 0 < H < 2 ^ 25 -> 0 < w < 2 ^ 25 -> 0 < h < 2 ^ 25 ->
  (exists dw dh,
     ImageFitter.dims (inject_Z W) (inject_Z H) h w = Some (dw, dh)
     /\ 0 <= dw <= W /\ 0 <= dh <= H
     /\ (W - 1 <= dw \/ H - 1 <= dh))
  /\ ImageFitter.dims 1920 1080 480 854 = Some (1919, 1079).
Proof.
  intros W H w h HW HH Hw Hh.
  split; [now apply FitFacts.dims_within | vm_compute; reflexivity].
Qed.

Lemma X7_resized_image_fits_and_nearly_fills_an_axis_witness :
  exists dw dh,
    ImageFitter.dims (inject_Z 1920) (inject_Z 1080) 480 640 = Some (dw, dh)
    /\ 0 <= dw <= 1920 /\ 0 <= dh <= 1080
    /\ (1920 - 1 <= dw \/ 1080 - 1 <= dh).
Proof.
  exact (proj1 (X7_resized_image_fits_and_nearly_fills_an_axis 1920 1080 640 480
                  (conj eq_refl eq_refl) (conj eq_refl eq_refl)
                  (conj eq_refl eq_refl) (conj eq_refl eq_refl))).
Defined.

(** X8.  The frame shown, resized image and borders, is between one pixel
    narrower and two pixels wider than the screen, and the same in height;
    along an axis that the resized image fills, or misses by a pixel, it is
    larger than the screen, so that the frame never has the size of the
    screen on both axes. *)
Theorem X8_frame_exceeds_the_screen :
  forall W H w h bw bh : Z,
  0 < W < 2 ^ 25 -> 0 < H < 2 ^ 25 -> 0 < w < 2 ^ 25 -> 0 < h < 2 ^ 25 ->
  ImageFitter.bordered (inject_Z W) (inject_Z H) h w = Some (bw, bh) ->
  W - 1 <= bw <= W + 2
  /\ H - 1 <= bh <= H + 2
  /\ (W < bw \/ H < bh).
Proof.
  intros W H w h bw bh HW HH Hw Hh. now apply FitMore.frame_bounds.
Qed.

Lemma X8_frame_exceeds_the_screen_witness :
  1920 - 1 <= 1921 <= 1920 + 2
  /\ 1080 - 1 <= 1081 <= 1080 + 2
  /\ (1920 < 1921 \/ 1080 < 1081).
Proof.
  apply (X8_frame_exceeds_the_screen 1920 1080 854 480 1921 1081
           (conj eq_refl eq_refl) (conj eq_refl eq_refl)
           (conj eq_refl eq_refl) (conj eq_refl eq_refl)).
  vm_compute. reflexivity.
Defined.

(** X9.  A picture more than [H] times higher than wide, or more than [W]
    times wider than high, is resized to an empty size, which [cv2.resize]
    refuses: there is no frame.  A picture short of both proportions is
    resized to a size that is not empty and gets its frame.  At the very
    proportion either happens: on a 1920 by 1080 screen a picture 49 by
    52920 has no frame, a picture 1 by 1080 has one. *)
Theorem X9_elongated_image_loses_a_dimension :
  forall W H w h : Z,
  1 < W < 2 ^ 25 -> 1 < H < 2 ^ 25 -> 0 < w < 2 ^ 25 -> 0 < h < 2 ^ 25 ->
  (H * w < h \/ W * h < w ->
     ImageFitter.resized (inject_Z W) (inject_Z H) h w = None
     /\ ImageFitter.bordered (inject_Z W) (inject_Z H) h w = None)
  /\ (h < H * w -> w < W * h ->
        exists dw dh bw bh,
          ImageFitter.resized (inject_Z W) (inject_Z H) h w = Some (dw, dh)
          /\ 0 < dw <= W /\ 0 < dh <= H
          /\ ImageFitter.bordered (inject_Z W) (inject_Z H) h w = Some (bw, bh))
  /\ ImageFitter.bordered 1920 1080 52920 49 = None
  /\ ImageFitter.bordered 1920 1080 1080 1 = Some (1919, 1082).
Proof.
  intros W H w h HW HH Hw Hh.
  assert (HW' : 0 < W < 2 ^ 25) by lia. assert (HH' : 0 < H < 2 ^ 25) by lia.
  split; [|split; [|split; vm_compute; reflexivity]].
  - now apply FitMore.elongated_no_frame.
  - apply FitMore.proportionate_frame; try assumption; lia.
Qed.

Lemma X9_elongated_image_loses_a_dimension_witness :
  ImageFitter.resized (inject_Z 1920) (inject_Z 1080) 5000 1 = None
  /\ ImageFitter.bordered (inject_Z 1920) (inject_Z 1080) 5000 1 = None.
Proof.
  apply (proj1 (X9_elongated_image_loses_a_dimension 1920 1080 1 5000
                  (conj eq_refl eq_refl) (conj eq_refl eq_refl)
                  (conj eq_refl eq_refl) (conj eq_refl eq_refl))).
  left. reflexivity.
Defined.

(** * Further properties of the loop *)

Section LoopMore.

Local Open Scope list_scope.

Variable pf : string -> option pyfloat.
Variable s : setup.

Lemma run_cons m w ws :
  run pf s m (w :: ws)
  = (fst (run pf s (fst (step pf s m w)) ws),
     snd (step pf s m w) ++ snd (run pf s (fst (step pf s m w)) ws)).
Proof.
  simpl. destruct (step pf s m w) as [m1 e1]. simpl.
  now destruct (run pf s m1 ws).
Qed.


Lemma run_crashed ws : run pf s Crashed ws = (Crashed, []).
Proof.
  induction ws as [|w ws IH]; [reflexivity|].
  rewrite run_cons. simpl. now rewrite IH.
Qed.

(** The body, with the pair of the branch taken apart. *)
Lemma body_eq v fn rest w :
  body pf s v fn rest w
  = match hourly_tasks pf s v w with
    | (None, ev1) => (Crashed, xset s "xset dpms force on" ++ ev1)
    | (Some v1, ev1) =>
        let b := if awake_hours (now_hour w) (wakehour v1) (bedtimehour v1)
                 then show_photo s v1 fn rest w
                 else sleep_wait s v1 rest w in
        (fst b, xset s "xset dpms force on" ++ ev1 ++ snd b)
    end.
Proof.
  unfold body. destruct (hourly_tasks pf s v w) as [[v1|] ev1]; [|reflexivity].
  cbv zeta.
  now destruct (if awake_hours (now_hour w) (wakehour v1) (bedtimehour v1)
                then show_photo s v1 fn rest w else sleep_wait s v1 rest w).
Qed.

Lemma xset_system cmd : forallb is_system (xset s cmd) = true.
Proof. unfold xset. now destruct (isWindows s). Qed.

Lemma hourly_tasks_keeps v w v1 ev1 :
  hourly_tasks pf s v w = (Some v1, ev1) ->
  done v1 = done v /\ sleeping v1 = sleeping v
  /\ forallb is_system ev1 = true.
Proof.
  unfold hourly_tasks. destruct (hourly_due v (now_hour w)).
  - destruct (adopt _ _) as [[[d' w'] b'] f'].
    destruct (scanForFiles (scandir w) f'); intro H; [|discriminate H].
    inversion H; subst. simpl. repeat split. apply xset_system.
  - intro H. inversion H; subst. now repeat split.
Qed.

Lemma hourly_tasks_events v w :
  forallb is_system (snd (hourly_tasks pf s v w)) = true.
Proof.
  unfold hourly_tasks. destruct (hourly_due v (now_hour w)); [|reflexivity].
  destruct (adopt _ _) as [[[d' w'] b'] f'].
  destruct (scanForFiles (scandir w) f'); apply xset_system.
Qed.

(** The ways out of the branch of waking hours. *)
Lemma show_photo_cases v fn rest w :
  fst (show_photo s v fn rest w) = Crashed
  \/ fst (show_photo s v fn rest w) = InFor (set_sleeping v false) rest
  \/ (fst (show_photo s v fn rest w)
      = AtWhile (set_done (set_sleeping v false) true)
      /\ exists ms, key_pressed w ms = true).
Proof.
  unfold show_photo.
  destruct (negb (gotImg (imread w fn))); [now right; left|].
  destruct (imread w fn) as [[rows cols]|]; [|now right; left].
  destruct (ImageFitter.bordered (wid s) (hgt s) rows cols) as [[bw bh]|];
    [|now left].
  destruct (delay_ms (delay (set_sleeping v false))) as [ms|]; [|now left].
  destruct (key_pressed w ms) eqn:K.
  - right; right. split; [reflexivity | now exists ms].
  - now right; left.
Qed.

(** The events of the branch of waking hours: calls of [os.system], then
    nothing, or a frame, or a frame and the pause of the delay. *)
Lemma show_photo_events v fn rest w :
  exists sys, forallb is_system sys = true
    /\ (snd (show_photo s v fn rest w) = sys
        \/ (exists bw bh, snd (show_photo s v fn rest w) = sys ++ [Imshow bw bh])
        \/ (exists bw bh ms,
              delay_ms (delay v) = Some ms
              /\ snd (show_photo s v fn rest w)
                 = sys ++ [Imshow bw bh; WaitKey ms])).
Proof.
  unfold show_photo.
  set (wake_up := if sleeping v
                  then xset s "xset s off" ++ xset s "xset dpms force on"
                  else []).
  assert (Hsys : forallb is_system wake_up = true).
  { subst wake_up. destruct (sleeping v); [|reflexivity].
    now rewrite forallb_app, !xset_system. }
  exists wake_up. split; [exact Hsys|].
  destruct (negb (gotImg (imread w fn))); [now left|].
  destruct (imread w fn) as [[rows cols]|]; [|now left].
  destruct (ImageFitter.bordered (wid s) (hgt s) rows cols) as [[bw bh]|];
    [|now left].
  change (delay (set_sleeping v false)) with (delay v).
  destruct (delay_ms (delay v)) as [ms|] eqn:D.
  - right; right. exists bw, bh, ms. split; [reflexivity|].
    now destruct (key_pressed w ms).
  - right; left. now exists bw, bh.
Qed.

(** The whole pair for a picture that is shown. *)
Lemma show_photo_shown v fn rest w rows cols bw bh ms :
  imread w fn = Some (rows, cols) -> rows > 0 ->
  ImageFitter.bordered (wid s) (hgt s) rows cols = Some (bw, bh) ->
  delay_ms (delay v) = Some ms ->
  show_photo s v fn rest w
  = (if key_pressed w ms
     then AtWhile (set_done (set_sleeping v false) true)
     else InFor (set_sleeping v false) rest,
     (if sleeping v
      then xset s "xset s off" ++ xset s "xset dpms force on" else [])
     ++ [Imshow bw bh; WaitKey ms]).
Proof.
  intros Hi Hr Hb Hms. unfold show_photo. rewrite Hi. unfold gotImg.
  assert (E1 : (rows >? 0) = true) by (apply Z.gtb_lt; lia). rewrite E1.
  cbn [negb]. rewrite Hb.
  cbn [delay set_sleeping fst snd]. rewrite Hms.
  now destruct (key_pressed w ms).
Qed.

Lemma sleep_wait_eq v rest w :
  sleep_wait s v rest w
  = (InFor (if key_pressed w (300 * 1000)
            then set_done (set_sleeping v true) true
            else set_sleeping v true) rest,
     xset s "xset dpms force standby" ++ [WaitKey 300000]).
Proof. unfold sleep_wait. now destruct (key_pressed w (300 * 1000)). Qed.

(** Where a turn of the body can lead. *)
Lemma body_cases v fn rest w :
  fst (body pf s v fn rest w) = Crashed
  \/ exists v1 ev1,
       hourly_tasks pf s v w = (Some v1, ev1)
       /\ (fst (body pf s v fn rest w) = InFor (set_sleeping v1 false) rest
           \/ (fst (body pf s v fn rest w)
               = AtWhile (set_done (set_sleeping v1 false) true)
               /\ exists ms, key_pressed w ms = true)
           \/ fst (body pf s v fn rest w) = InFor (set_sleeping v1 true) rest
           \/ (fst (body pf s v fn rest w)
               = InFor (set_done (set_sleeping v1 true) true) rest
               /\ key_pressed w (300 * 1000) = true)).
Proof.
  rewrite body_eq.
  destruct (hourly_tasks pf s v w) as [[v1|] ev1]; [|now left].
  cbv zeta. cbn [fst].
  destruct (awake_hours (now_hour w) (wakehour v1) (bedtimehour v1)).
  - destruct (show_photo_cases v1 fn rest w) as [C|[C|C]].
    + now left.
    + right. exists v1, ev1. split; [reflexivity|]. now left.
    + right. exists v1, ev1. split; [reflexivity|]. now right; left.
  - right. exists v1, ev1. split; [reflexivity|].
    rewrite sleep_wait_eq. cbn [fst].
    destruct (key_pressed w (300 * 1000)) eqn:K.
    + right; right; right. now split.
    + now right; right; left.
Qed.


End LoopMore.

Section LoopRuns.

Local Open Scope list_scope.

Variable pf : string -> option pyfloat.
Variable s : setup.


Lemma set_sleeping_same v b : sleeping v = b -> set_sleeping v b = v.
Proof. intros <-. now destruct v. Qed.



(** With [done] set, a step keeps it set and comes nearer to the exit. *)
Lemma step_done m w :
  (forall v, machine_vars m = Some v -> done v = true) ->
  (forall v, machine_vars (fst (step pf s m w)) = Some v -> done v = true)
  /\ (steps_left (fst (step pf s m w)) <= steps_left m - 1)%nat.
Proof.
  intro D. destruct m as [v|v [|fn rest]|v|]; simpl in *.
  - rewrite (D v eq_refl). simpl. split; [|lia].
    intros v' H. injection H as <-. now apply D.
  - split; [|lia]. intros v' H. injection H as <-. now apply D.
  - destruct (body_cases pf s v fn rest w)
      as [C|[v1 [ev1 [Hh [C|[[C _]|[C|[C _]]]]]]]]; rewrite C; simpl;
      try (split; [discriminate | lia]);
      destruct (hourly_tasks_keeps pf s v w v1 ev1 Hh) as [Hd _];
      (split; [|lia]); intros v' H; injection H as <-; simpl;
      try reflexivity; rewrite Hd; now apply D.
  - split; [|lia]. intros v' H. injection H as <-. now apply D.
  - split; [discriminate | lia].
Qed.


Lemma run_done ws : forall m,
  (forall v, machine_vars m = Some v -> done v = true) ->
  (steps_left m <= List.length ws)%nat ->
  fst (run pf s m ws) = Crashed \/ exists v, fst (run pf s m ws) = Exited v.
Proof.
  induction ws as [|w ws IH]; intros m D L.
  - simpl in *. destruct m as [v|v it|v|]; simpl in L; try lia;
      [right; now exists v | now left].
  - rewrite run_cons. cbn [fst].
    destruct (step_done m w D) as [D1 L1].
    apply IH; [exact D1|]. simpl in L. lia.
Qed.


End LoopRuns.



(** X11.  Once [done] is set the program is over after at most as many
    steps as there are paths left in the iterator, plus two: each path
    left still gets its turn, then the iterator is found empty and the
    test of the [while] ends the loop (or the program has crashed). *)
Theorem X11_done_ends_the_loop_after_the_pass :
  forall (pf : string -> option pyfloat) (s : setup) (ws : list World)
         (m : machine),
  (forall v, machine_vars m = Some v -> done v = true) ->
  (steps_left m <= List.length ws)%nat ->
  fst (run pf s m ws) = Crashed \/ exists v, fst (run pf s m ws) = Exited v.
Proof. intros pf s ws m. apply run_done. Qed.

Lemma X11_done_ends_the_loop_after_the_pass_witness :
  fst (run Decimal.decimal_float example_setup
         (InFor (set_done (example_vars 22 true) true) ["b.jpg"])
         [example_world 22 (-1); example_world 22 (-1); example_world 22 (-1)])
  = Crashed
  \/ exists v,
       fst (run Decimal.decimal_float example_setup
              (InFor (set_done (example_vars 22 true) true) ["b.jpg"])
              [example_world 22 (-1); example_world 22 (-1);
               example_world 22 (-1)])
       = Exited v.
Proof.
  refine (X11_done_ends_the_loop_after_the_pass Decimal.decimal_float
            example_setup
            [example_world 22 (-1); example_world 22 (-1); example_world 22 (-1)]
            (InFor (set_done (example_vars 22 true) true) ["b.jpg"]) _ _).
  - intros v H. injection H as <-. reflexivity.
  - simpl. lia.
Defined.



Section LoopTurns.

Local Open Scope list_scope.

Variable pf : string -> option pyfloat.
Variable s : setup.

Lemma system_is_night l :
  forallb is_system l = true -> forallb is_night_event l = true.
Proof.
  intro H. rewrite forallb_forall in *. intros e He.
  specialize (H e He). now destruct e.
Qed.

Lemma system_wait_in_range l :
  forallb is_system l = true -> Forall wait_in_range l.
Proof.
  intro H. rewrite forallb_forall in H. apply Forall_forall. intros e He.
  specialize (H e He). now destruct e.
Qed.

Lemma delay_ms_in_range d ms :
  delay_in_range d -> delay_ms d = Some ms -> 1000 <= ms <= 60000.
Proof.
  intros [q [-> [Hlo Hhi]]] H. unfold delay_ms, PyFloat.mul in H.
  destruct (Binary64Facts.round64_between (q * 1000) 1000 0 60000 0)
    as [p [E [L U]]]; try (split; reflexivity); try discriminate.
  { change (inject_Z 1000 * 2 ^ 0)%Q with (1000 * 1)%Q.
    change (inject_Z 60000 * 2 ^ 0)%Q with (60000 * 1)%Q. split; lra. }
  rewrite E in H. cbn [PyFloat.to_int] in H. injection H as <-.
  change (2 ^ 0)%Q with 1%Q in L, U. rewrite Qmult_1_r in L, U.
  assert (P : (0 <= p)%Q)
    by (apply Qle_trans with (inject_Z 1000); [discriminate | exact L]).
  rewrite (PyFloatFacts.Qtrunc_nonneg_floor p P). split.
  - rewrite <- (Qfloor_Z 1000). now apply Qfloor_resp_le.
  - rewrite <- (Qfloor_Z 60000). now apply Qfloor_resp_le.
Qed.

(** The hourly tasks keep the delay and the hours in range: they change
    them only for the values of a result whose flag is set. *)
Lemma hourly_tasks_in_range v w v1 ev1 :
  config_in_range v ->
  hourly_tasks pf s v w = (Some v1, ev1) ->
  config_in_range v1.
Proof.
  intros C. unfold hourly_tasks. destruct (hourly_due v (now_hour w)).
  - set (r := checkForControlFile pf (open_file w)
                (path_join (photoFolder v) (configfn s))
                (delay v) (wakehour v) (bedtimehour v) (photoFolder v)).
    pose proof (valid_result_ranges pf (open_file w)
                  (path_join (photoFolder v) (configfn s))
                  (delay v) (wakehour v) (bedtimehour v) (photoFolder v)) as V.
    cbv zeta in V. fold r in V. unfold adopt.
    destruct (res_ok r).
    + destruct (scanForFiles (scandir w) (res_photoFolder r)); intro H;
        [|discriminate H].
      inversion H; subst. unfold config_in_range. simpl. now apply V.
    + destruct (scanForFiles (scandir w) (photoFolder v)); intro H;
        [|discriminate H].
      inversion H; subst. exact C.
  - intro H. inversion H; subst. exact C.
Qed.

Lemma step_in_range m w v :
  machine_vars m = Some v -> config_in_range v ->
  (forall v', machine_vars (fst (step pf s m w)) = Some v' -> config_in_range v')
  /\ Forall wait_in_range (snd (step pf s m w)).
Proof.
  intros Hm C. destruct m as [v0|v0 [|fn rest]|v0|]; simpl in Hm;
    try discriminate Hm; injection Hm as ->; simpl.
  - destruct (done v); simpl; split;
      try (intros v' H; injection H as <-; exact C);
      repeat constructor.
  - split; [intros v' H; injection H as <-; exact C | constructor].
  - split.
    + intros v' H.
      destruct (body_vars pf s v fn rest w v' H)
        as [v1 [ev1 [Hh [Ed [Ew [Eb _]]]]]].
      pose proof (hourly_tasks_in_range v w v1 ev1 C Hh) as C1.
      unfold config_in_range in *. now rewrite Ed, Ew, Eb.
    + rewrite body_eq.
      pose proof (hourly_tasks_events pf s v w) as Hev.
      destruct (hourly_tasks pf s v w) as [[v1|] ev1] eqn:Hh; simpl in Hev.
      * cbv zeta. cbn [snd].
        pose proof (hourly_tasks_in_range v w v1 ev1 C Hh) as [Cd _].
        apply Forall_app. split; [apply system_wait_in_range, xset_system|].
        apply Forall_app. split; [now apply system_wait_in_range|].
        destruct (awake_hours (now_hour w) (wakehour v1) (bedtimehour v1)).
        -- destruct (show_photo_events s v1 fn rest w)
             as [sys [Hs [E|[[bw [bh E]]|[bw [bh [ms [D E]]]]]]]]; rewrite E.
           ++ now apply system_wait_in_range.
           ++ apply Forall_app. split; [now apply system_wait_in_range|].
              constructor; [exact I | constructor].
           ++ apply Forall_app. split; [now apply system_wait_in_range|].
              constructor; [exact I|]. constructor; [|constructor].
              simpl. right. exact (delay_ms_in_range _ _ Cd D).
        -- rewrite sleep_wait_eq. cbn [snd]. apply Forall_app.
           split; [apply system_wait_in_range, xset_system|].
           constructor; [|constructor]. simpl. now left.
      * cbn [snd]. apply Forall_app.
        split; [apply system_wait_in_range, xset_system|].
        now apply system_wait_in_range.
  - split; [intros v' H; injection H as <-; exact C | constructor].
Qed.

Lemma run_in_range ws : forall m,
  (forall v, machine_vars m = Some v -> config_in_range v) ->
  (forall v', machine_vars (fst (run pf s m ws)) = Some v' -> config_in_range v')
  /\ Forall wait_in_range (snd (run pf s m ws)).
Proof.
  induction ws as [|w ws IH]; intros m C; [simpl; split; [exact C | constructor]|].
  rewrite run_cons. cbn [fst snd].
  assert (S1 : (forall v', machine_vars (fst (step pf s m w)) = Some v'
                           -> config_in_range v')
               /\ Forall wait_in_range (snd (step pf s m w))).
  { destruct (machine_vars m) as [v|] eqn:Hm.
    - exact (step_in_range m w v Hm (C v eq_refl)).
    - destruct m; simpl in Hm; try discriminate Hm. simpl.
      split; [discriminate | constructor]. }
  destruct S1 as [C1 F1]. destruct (IH _ C1) as [C2 F2].
  split; [exact C2|]. apply Forall_app. now split.
Qed.

(** In sleeping hours, with [sleeping] set: one step. *)
Lemma step_asleep v m w :
  sleeping v = true ->
  awake_hours (now_hour w) (wakehour v) (bedtimehour v) = false ->
  (exists v', machine_vars m = Some v' /\ (v' = v \/ v' = set_done v true)) ->
  (exists v', machine_vars (fst (step pf s m w)) = Some v'
              /\ (v' = v \/ v' = set_done v true))
  /\ forallb is_night_event (snd (step pf s m w)) = true.
Proof.
  intros Hs Ha [v' [Hm Hv]].
  assert (Hs' : sleeping v' = true) by (destruct Hv as [-> | ->]; exact Hs).
  assert (Ha' : awake_hours (now_hour w) (wakehour v') (bedtimehour v') = false)
    by (destruct Hv as [-> | ->]; exact Ha).
  destruct m as [v0|v0 [|fn rest]|v0|]; simpl in Hm; try discriminate Hm;
    injection Hm as ->; simpl.
  - destruct (done v'); simpl; (split; [now exists v' | reflexivity]).
  - split; [now exists v' | reflexivity].
  - rewrite body_eq.
    assert (Hh : hourly_tasks pf s v' w = (Some v', [])).
    { apply hourly_tasks_idle. unfold hourly_due. rewrite Hs'.
      apply andb_false_r. }
    rewrite Hh. cbv zeta. rewrite Ha', sleep_wait_eq. cbn [fst snd].
    rewrite (set_sleeping_same v' true Hs').
    split.
    + destruct (key_pressed w (300 * 1000)).
      * exists (set_done v' true). split; [reflexivity|].
        right. now destruct Hv as [-> | ->].
      * now exists v'.
    + rewrite !forallb_app.
      rewrite (system_is_night _ (xset_system s _)).
      rewrite (system_is_night _ (xset_system s _)). reflexivity.
  - split; [now exists v' | reflexivity].
Qed.

Lemma run_asleep v ws : forall m,
  sleeping v = true ->
  (forall w, In w ws ->
             awake_hours (now_hour w) (wakehour v) (bedtimehour v) = false) ->
  (exists v', machine_vars m = Some v' /\ (v' = v \/ v' = set_done v true)) ->
  (exists v', machine_vars (fst (run pf s m ws)) = Some v'
              /\ (v' = v \/ v' = set_done v true))
  /\ forallb is_night_event (snd (run pf s m ws)) = true.
Proof.
  induction ws as [|w ws IH]; intros m Hs Ha Hm; [simpl; now split|].
  rewrite run_cons. cbn [fst snd].
  destruct (step_asleep v m w Hs (Ha w (or_introl eq_refl)) Hm) as [M1 E1].
  destruct (IH _ Hs (fun w' Hw' => Ha w' (or_intror Hw')) M1) as [M2 E2].
  split; [exact M2|]. now rewrite forallb_app, E1, E2.
Qed.

(** A pass over pictures that are all shown. *)
Lemma run_pass v (turns : list turn) :
  sleeping v = false ->
  (forall fn w bw bh ms, In (fn, w, (bw, bh, ms)) turns ->
                         shown s v fn w bw bh ms) ->
  run pf s (InFor v (map turn_file turns)) (map turn_world turns)
  = (InFor v [], flat_map (turn_events s) turns).
Proof.
  intros Hs. induction turns as [|[[fn w] [[bw bh] ms]] turns IH]; intro Hall;
    [reflexivity|].
  destruct (Hall fn w bw bh ms (or_introl eq_refl))
    as [Hhour [Ha [Hms [Hk [rows [cols [Hi [Hr Hb]]]]]]]].
  cbn [map turn_file turn_world fst snd flat_map turn_events].
  rewrite run_cons.
  assert (Hbody : body pf s v fn (map turn_file turns) w
                  = (InFor v (map turn_file turns),
                     xset s "xset dpms force on" ++ [Imshow bw bh; WaitKey ms])).
  { rewrite body_eq.
    assert (Hh : hourly_tasks pf s v w = (Some v, [])).
    { apply hourly_tasks_idle. unfold hourly_due.
      rewrite Hhour, Z.eqb_refl. reflexivity. }
    rewrite Hh. cbv zeta. rewrite Ha.
    rewrite (show_photo_shown s v fn _ w rows cols bw bh ms Hi Hr Hb Hms).
    rewrite Hk, Hs, (set_sleeping_same v false Hs). reflexivity. }
  cbn [step]. rewrite Hbody. cbn [fst snd].
  rewrite IH; [|intros; apply Hall; now right]. cbn [fst snd].
  now rewrite <- app_assoc.
Qed.

End LoopTurns.

(** X13.  A key during the pause of a picture ends the program at once:
    the turn shows the picture, waits, and leaves the [for] loop; the
    next step is the exit, and the destruction of the window follows the
    wait directly. *)
Theorem X13_key_during_a_picture_ends_the_loop :
  forall (pf : string -> option pyfloat) (s : setup) (v : vars) (fn : string)
         (rest : list string) (w w' : World) (v1 : vars) (ev1 : list event)
         (rows cols bw bh ms : Z),
  hourly_tasks pf s v w = (Some v1, ev1) ->
  awake_hours (now_hour w) (wakehour v1) (bedtimehour v1) = true ->
  imread w fn = Some (rows, cols) -> rows > 0 ->
  ImageFitter.bordered (wid s) (hgt s) rows cols = Some (bw, bh) ->
  delay_ms (delay v1) = Some ms ->
  key_pressed w ms = true ->
  fst (run pf s (InFor v (fn :: rest)) [w; w'])
  = Exited (set_done (set_sleeping v1 false) true)
  /\ exists pre,
       forallb is_system pre = true
       /\ snd (run pf s (InFor v (fn :: rest)) [w; w'])
          = (pre ++ [Imshow bw bh; WaitKey ms; DestroyWindow])%list.
Proof.
  intros pf s v fn rest w w' v1 ev1 rows cols bw bh ms Hh Ha Hi Hr Hb Hms Hk.
  destruct (hourly_tasks_keeps pf s v w v1 ev1 Hh) as [_ [_ Hev]].
  rewrite !run_cons. cbn [step]. rewrite body_eq, Hh. cbv zeta. rewrite Ha.
  rewrite (show_photo_shown s v1 fn rest w rows cols bw bh ms Hi Hr Hb Hms).
  rewrite Hk. cbn [fst snd step done set_done run]. split; [reflexivity|].
  exists (xset s "xset dpms force on" ++ ev1
          ++ (if sleeping v1
              then xset s "xset s off" ++ xset s "xset dpms force on"
              else []))%list.
  split.
  - rewrite !forallb_app, Hev, !xset_system.
    destruct (sleeping v1); [|reflexivity].
    now rewrite forallb_app, !xset_system.
  - rewrite app_nil_r, <- !app_assoc. reflexivity.
Qed.

Lemma X13_key_during_a_picture_ends_the_loop_witness :
  fst (run Decimal.decimal_float example_setup
         (InFor (example_vars 9 false) ["a.jpg"; "b.jpg"])
         [example_world 9 27; example_world 9 27])
  = Exited (set_done (set_sleeping (example_vars 9 false) false) true).
Proof.
  refine (proj1 (X13_key_during_a_picture_ends_the_loop Decimal.decimal_float
                   example_setup (example_vars 9 false) "a.jpg" ["b.jpg"]
                   (example_world 9 27) (example_world 9 27)
                   (example_vars 9 false) [] 480 640 1920 1082 2000
                   eq_refl eq_refl eq_refl eq_refl _ _ eq_refl));
    vm_compute; reflexivity.
Defined.

(** X14.  While the hours are sleeping ones and [sleeping] is set, nothing
    happens but waits of 300 seconds and calls of [os.system] (and the
    destruction of the window once a key has ended the pass): no picture
    is shown and, whatever the control file and the folders have become,
    the program does not crash and its variables stay as they are, [done]
    apart. *)
Theorem X14_sleeping_hours_are_quiet :
  forall (pf : string -> option pyfloat) (s : setup) (v : vars)
         (iter : list string) (ws : list World),
  sleeping v = true ->
  (forall w, In w ws ->
             awake_hours (now_hour w) (wakehour v) (bedtimehour v) = false) ->
  (exists v', machine_vars (fst (run pf s (InFor v iter) ws)) = Some v'
              /\ (v' = v \/ v' = set_done v true))
  /\ forallb is_night_event (snd (run pf s (InFor v iter) ws)) = true.
Proof.
  intros pf s v iter ws Hs Ha.
  apply (run_asleep pf s v ws (InFor v iter) Hs Ha).
  exists v. split; [reflexivity | now left].
Qed.

Lemma X14_sleeping_hours_are_quiet_witness :
  forallb is_night_event
    (snd (run Decimal.decimal_float example_setup
            (InFor (example_vars 21 true) ["a.jpg"; "b.jpg"])
            [example_world 22 (-1); example_world 23 (-1); example_world 0 27]))
  = true.
Proof.
  apply (X14_sleeping_hours_are_quiet Decimal.decimal_float example_setup
           (example_vars 21 true) ["a.jpg"; "b.jpg"]
           [example_world 22 (-1); example_world 23 (-1); example_world 0 27]
           eq_refl).
  intros w [<-|[<-|[<-|[]]]]; reflexivity.
Defined.

(** X15.  Whatever the control files hold, at start and at every hourly
    reload, the program started by the script only ever waits 300 seconds
    (asleep) or between 1 and 60 seconds (after a picture), and its delay
    and hours stay in the ranges of the control file. *)
Theorem X15_every_wait_is_in_range :
  forall (pf : string -> option pyfloat) (argv : list string)
         (platform_windows : bool) (rect_w rect_h : Z) (w0 w1 : World)
         (ws : list World) (m : machine) (evs : list event),
  main pf argv platform_windows rect_w rect_h w0 w1 ws = Some (m, evs) ->
  Forall wait_in_range evs
  /\ (forall v, machine_vars m = Some v -> config_in_range v).
Proof.
  intros pf argv platform_windows rect_w rect_h w0 w1 ws m evs.
  unfold main.
  set (fn := match argv with _ :: name :: _ => name | _ => "photoframe.ini" end).
  pose proof (valid_result_ranges pf (open_file w0) fn (Fin 4) 7 21 "/media/HDD")
    as V. cbv zeta in V.
  destruct (res_ok (checkForControlFile pf (open_file w0) fn (Fin 4) 7 21
                      "/media/HDD")); [|discriminate].
  specialize (V eq_refl).
  unfold runFotoFrame, enter.
  destruct (screen_size rect_w rect_h) as [wd hg].
  destruct (scanForFiles (scandir w1) _) as [found|].
  - set (v0 := mkVars _ _ _ _ _ _ _ _).
    set (s := mkSetup _ _ _ _).
    destruct (run_in_range pf s ws (AtWhile v0)) as [C F].
    { intros v H. injection H as <-. exact V. }
    destruct (run pf s (AtWhile v0) ws) as [m' evs'].
    intro H. injection H as <- <-. split; [|exact C].
    apply Forall_app. split; [|exact F].
    apply system_wait_in_range, xset_system.
  - intro H. injection H as <- <-. split; [constructor | discriminate].
Qed.

Lemma X15_every_wait_is_in_range_witness :
  Forall wait_in_range
    (snd (runFotoFrame Decimal.decimal_float
            (Fin (7 # 2), 6, 21, "/media/pi/photoframe", "photoframe.ini")
            true 1920 1080 (example_world 9 (-1)) [example_world 9 (-1)])).
Proof.
  refine (proj1 (X15_every_wait_is_in_range Decimal.decimal_float [] true
                   1920 1080
                   (mkWorld 9 (fun _ => Some sample_file) (fun _ => None)
                            (fun _ => O) (fun _ => None) (fun _ => -1))
                   (example_world 9 (-1)) [example_world 9 (-1)] _ _ _)).
  vm_compute. reflexivity.
Defined.

(** X16.  A pass over a catalog whose pictures are all displayed (each
    decodes to an image with rows, the fit gives it a frame and the delay
    is finite), within the hour of the last hourly tasks, in waking hours
    and with no key down, shows every picture once in the order of the
    catalog, each in its frame and followed by the pause of the delay, and
    leaves the variables as they were. *)
Theorem X16_a_pass_shows_every_picture :
  forall (pf : string -> option pyfloat) (s : setup) (v : vars)
         (turns : list turn),
  sleeping v = false ->
  (forall fn w bw bh ms, In (fn, w, (bw, bh, ms)) turns ->
                         shown s v fn w bw bh ms) ->
  run pf s (InFor v (map turn_file turns)) (map turn_world turns)
  = (InFor v [], flat_map (turn_events s) turns).
Proof. intros pf s v turns. apply run_pass. Qed.

Lemma X16_a_pass_shows_every_picture_witness :
  run Decimal.decimal_float example_setup
      (InFor (example_vars 9 false) ["a.jpg"; "b.jpg"])
      [example_world 9 (-1); example_world 9 (-1)]
  = (InFor (example_vars 9 false) [],
     [Imshow 1920 1082; WaitKey 2000; Imshow 1920 1082; WaitKey 2000]).
Proof.
  refine (X16_a_pass_shows_every_picture Decimal.decimal_float example_setup
            (example_vars 9 false)
            [("a.jpg", example_world 9 (-1), (1920, 1082, 2000));
             ("b.jpg", example_world 9 (-1), (1920, 1082, 2000))] eq_refl _).
  intros fn w bw bh ms [H|[H|[]]]; injection H as <- <- <- <- <-;
    (split; [reflexivity|]; split; [reflexivity|];
     split; [vm_compute; reflexivity|]; split; [reflexivity|]);
    exists 480, 640; (split; [reflexivity|]; split; [reflexivity|]);
    vm_compute; reflexivity.
Defined.

(** X17.  A rescan in the middle of a pass does not change the pass: the
    turn in which the hourly tasks run goes on to the paths that were left
    in the iterator, while [pictureFiles] already holds the shuffled
    result of the new scan; that list is used when the iterator is
    exhausted and the [for] loop starts again. *)
Theorem X17_rescan_takes_effect_at_the_next_pass :
  forall (pf : string -> option pyfloat) (s : setup) (v : vars) (fn : string)
         (rest : list string) (w : World) (v' : vars) (iter' : list string),
  fst (step pf s (InFor v (fn :: rest)) w) = InFor v' iter' ->
  iter' = rest
  /\ (hourly_due v (now_hour w) = true ->
      exists found,
        scanForFiles (scandir w) (photoFolder v') = Some found
        /\ pictureFiles v' = shuffle (randbelow w) found)
  /\ (forall w', done v' = false ->
        step pf s (AtWhile v') w' = (InFor v' (pictureFiles v'), [])).
Proof.
  intros pf s v fn rest w v' iter' H. simpl in H.
  split; [|split].
  - destruct (body_cases pf s v fn rest w)
      as [C|[v1 [ev1 [_ [C|[[C _]|[C|[C _]]]]]]]]; rewrite C in H;
      try discriminate H; now injection H.
  - intro Hdue.
    assert (Hv : machine_vars (fst (body pf s v fn rest w)) = Some v')
      by now rewrite H.
    destruct (body_vars pf s v fn rest w v' Hv)
      as [v1 [ev1 [Hh [_ [_ [_ [Ef [Ep _]]]]]]]].
    pose proof (hourly_tasks_due pf s v w Hdue) as D. cbv zeta in D.
    rewrite Hh in D. cbn [fst] in D.
    destruct (scanForFiles (scandir w) _) as [found|] eqn:Hscan;
      [|discriminate D].
    injection D as ->. cbn [photoFolder pictureFiles] in Ef, Ep.
    exists found. rewrite Ef, Ep. now split.
  - intros w' Hd. simpl. now rewrite Hd.
Qed.

Lemma X17_rescan_takes_effect_at_the_next_pass_witness :
  pictureFiles
    (mkVars (Fin 2) 7 21 "root"
            (shuffle (fun _ => O) ["root/a.JPG"; "root/b.png"; "root/sub/d.jpg"])
            9 false false)
  = ["root/b.png"; "root/sub/d.jpg"; "root/a.JPG"].
Proof.
  pose proof (X17_rescan_takes_effect_at_the_next_pass Decimal.decimal_float
                example_setup (example_vars 8 false) "a.jpg" ["b.jpg"]
                (example_world 9 (-1))
                (mkVars (Fin 2) 7 21 "root"
                        (shuffle (fun _ => O)
                                 ["root/a.JPG"; "root/b.png"; "root/sub/d.jpg"])
                        9 false false)
                ["b.jpg"] eq_refl) as [_ [H _]].
  destruct (H eq_refl) as [found [Hscan Hp]].
  vm_compute in Hscan. injection Hscan as <-. rewrite Hp. reflexivity.
Defined.

(** X18.  The turn in which the program wakes up does not run the hourly
    tasks, even when the hour has changed during the night: the test of
    line 204 still sees [sleeping] set.  The control file is not read and
    the folder not scanned in that turn; they are due at the next turn of
    the same hour. *)
Theorem X18_hourly_tasks_wait_one_turn_after_waking :
  forall (pf : string -> option pyfloat) (s : setup) (v : vars) (fn : string)
         (rest : list string) (w : World) (v' : vars),
  sleeping v = true ->
  machine_vars (fst (step pf s (InFor v (fn :: rest)) w)) = Some v' ->
  refresh_fires (InFor v (fn :: rest)) w = false
  /\ (delay v', wakehour v', bedtimehour v', photoFolder v')
     = (delay v, wakehour v, bedtimehour v, photoFolder v)
  /\ pictureFiles v' = pictureFiles v
  /\ lastHour v' = lastHour v
  /\ (awake_hours (now_hour w) (wakehour v) (bedtimehour v) = true ->
      now_hour w <> lastHour v ->
      sleeping v' = false /\ hourly_due v' (now_hour w) = true).
Proof.
  intros pf s v fn rest w v' Hs H.
  assert (Hf : hourly_due v (now_hour w) = false)
    by (unfold hourly_due; rewrite Hs; apply andb_false_r).
  simpl in H.
  destruct (body_vars pf s v fn rest w v' H)
    as [v1 [ev1 [Hh [Ed [Ew [Eb [Ef [Ep [El Esl]]]]]]]]].
  rewrite (hourly_tasks_idle pf s v w Hf) in Hh. injection Hh as <- _.
  split; [exact Hf|]. split; [now rewrite Ed, Ew, Eb, Ef|].
  split; [exact Ep|]. split; [exact El|].
  intros Ha Hne. rewrite Ha in Esl. simpl in Esl. split; [exact Esl|].
  apply hourly_due_spec. rewrite El. now split.
Qed.

Lemma X18_hourly_tasks_wait_one_turn_after_waking_witness :
  refresh_fires (InFor (example_vars 21 true) ["a.jpg"; "b.jpg"])
                (example_world 7 (-1)) = false.
Proof.
  exact (proj1 (X18_hourly_tasks_wait_one_turn_after_waking
                  Decimal.decimal_float example_setup (example_vars 21 true)
                  "a.jpg" ["b.jpg"] (example_world 7 (-1))
                  (set_sleeping (example_vars 21 true) false)
                  eq_refl eq_refl)).
Defined.

(** X19.  The script starts the frame exactly when the control file named
    on the command line ([photoframe.ini] without an argument) can be
    opened and holds the four keys in front of any line that raises; the
    frame then runs with the values of that file, none of the defaults of
    the script. *)
Theorem X19_frame_starts_only_with_a_complete_control_file :
  forall (pf : string -> option pyfloat) (argv : list string)
         (platform_windows : bool) (rect_w rect_h : Z) (w0 w1 : World)
         (ws : list World),
  (main pf argv platform_windows rect_w rect_h w0 w1 ws <> None
   <-> exists text,
         open_file w0 (configfn_of argv) = Some text
         /\ all_keys_seen (processed pf (readlines (universal_newlines text)))
            = true)
  /\ (forall out delay wakehour bedtimehour photoFolder,
        main pf argv platform_windows rect_w rect_h w0 w1 ws = Some out ->
        let r := checkForControlFile pf (open_file w0) (configfn_of argv)
                   delay wakehour bedtimehour photoFolder in
        out = runFotoFrame pf
                (res_delay r, res_wakeHour r, res_bedtimeHour r,
                 res_photoFolder r, configfn_of argv)
                platform_windows rect_w rect_h w1 ws).
Proof.
  intros pf argv platform_windows rect_w rect_h w0 w1 ws. unfold main.
  fold (configfn_of argv).
  set (r0 := checkForControlFile pf (open_file w0) (configfn_of argv)
               (Fin 4) 7 21 "/media/HDD").
  split.
  - destruct (open_file w0 (configfn_of argv)) as [text|] eqn:Ho.
    + destruct (checkForControlFile_readable pf (open_file w0) (configfn_of argv)
                  (Fin 4) 7 21 "/media/HDD" text Ho) as [_ [Hs _]].
      cbv zeta in Hs. fold r0 in Hs. rewrite Hs.
      destruct (all_keys_seen _) eqn:E.
      * split; [intros _; now exists text | discriminate].
      * split; [intro H; now contradiction H|].
        intros [text' [E1 E2]]. injection E1 as <-. congruence.
    + assert (Hr : res_ok r0 = false).
      { subst r0. now rewrite (checkForControlFile_unreadable pf (open_file w0)
                                 (configfn_of argv) (Fin 4) 7 21 "/media/HDD" Ho). }
      rewrite Hr. split; [intro H; now contradiction H|].
      intros [text [E _]]. discriminate E.
  - intros out delay wakehour bedtimehour photoFolder.
    destruct (res_ok r0) eqn:Hok; [|discriminate].
    intro H. injection H as <-. cbv zeta.
    now rewrite <- (valid_result_independent pf (open_file w0)
                      (configfn_of argv) (Fin 4) delay 7 wakehour 21 bedtimehour
                      "/media/HDD" photoFolder Hok).
Qed.

Lemma X19_frame_starts_only_with_a_complete_control_file_witness :
  main Decimal.decimal_float ["digitalFotoFrame.py"; "frame.ini"] true 1920 1080
       (mkWorld 9 (fun _ => Some sample_file) (fun _ => None)
                (fun _ => O) (fun _ => None) (fun _ => -1))
       (example_world 9 (-1)) []
  <> None.
Proof.
  apply (proj1 (X19_frame_starts_only_with_a_complete_control_file
                  Decimal.decimal_float ["digitalFotoFrame.py"; "frame.ini"]
                  true 1920 1080
                  (mkWorld 9 (fun _ => Some sample_file) (fun _ => None)
                           (fun _ => O) (fun _ => None) (fun _ => -1))
                  (example_world 9 (-1)) [])).
  exists sample_file. split; [reflexivity | vm_compute; reflexivity].
Defined.

(** * The fit within the loop *)

Section LoopFit.

Local Open Scope list_scope.

Variable pf : string -> option pyfloat.
Variable s : setup.
Variables W H : Z.
Hypothesis wid_W : wid s = inject_Z W.
Hypothesis hgt_H : hgt s = inject_Z H.
Hypothesis HW : 1 < W < 2 ^ 25.
Hypothesis HH : 1 < H < 2 ^ 25.

(** A delay in range gives a pause. *)
Lemma delay_ms_total d :
  delay_in_range d -> exists ms, delay_ms d = Some ms /\ 1000 <= ms <= 60000.
Proof.
  intro R. destruct R as [q [E [Hlo Hhi]]].
  destruct (Binary64Facts.round64_between (q * 1000) 1000 0 60000 0)
    as [p [Ep _]]; try (split; reflexivity); try discriminate.
  { change (inject_Z 1000 * 2 ^ 0)%Q with (1000 * 1)%Q.
    change (inject_Z 60000 * 2 ^ 0)%Q with (60000 * 1)%Q. split; lra. }
  assert (D : delay_ms d = Some (PyFloat.Qtrunc p)).
  { subst d. unfold delay_ms, PyFloat.mul. now rewrite Ep. }
  exists (PyFloat.Qtrunc p). split; [exact D|].
  apply (delay_ms_in_range d); [|exact D]. exists q. now split.
Qed.

(** The turn of a picture that is too elongated. *)
Lemma body_elongated v fn rest w v1 ev1 rows cols :
  hourly_tasks pf s v w = (Some v1, ev1) ->
  awake_hours (now_hour w) (wakehour v1) (bedtimehour v1) = true ->
  imread w fn = Some (rows, cols) ->
  0 < rows < 2 ^ 25 -> 0 < cols < 2 ^ 25 ->
  H * cols < rows \/ W * rows < cols ->
  fst (body pf s v fn rest w) = Crashed
  /\ forallb is_system (snd (body pf s v fn rest w)) = true.
Proof.
  intros Hh Ha Hi Hr Hc E.
  destruct (hourly_tasks_keeps pf s v w v1 ev1 Hh) as [_ [_ Hev]].
  destruct (FitMore.elongated_no_frame W H cols rows ltac:(lia) ltac:(lia)
              Hc Hr E) as [_ B].
  rewrite body_eq, Hh. cbv zeta. rewrite Ha. unfold show_photo.
  rewrite Hi. unfold gotImg.
  replace (rows >? 0) with true by (symmetry; apply Z.gtb_lt; lia).
  cbn [negb]. rewrite wid_W, hgt_H, B. cbn [fst snd].
  split; [reflexivity|].
  rewrite !forallb_app, Hev, xset_system.
  destruct (sleeping v1); [|reflexivity].
  now rewrite forallb_app, !xset_system.
Qed.

(** The turn of a picture short of both proportions. *)
Lemma body_proportionate v fn rest w v1 ev1 rows cols :
  hourly_tasks pf s v w = (Some v1, ev1) ->
  awake_hours (now_hour w) (wakehour v1) (bedtimehour v1) = true ->
  imread w fn = Some (rows, cols) ->
  0 < rows < 2 ^ 25 -> 0 < cols < 2 ^ 25 ->
  rows < H * cols -> cols < W * rows ->
  delay_in_range (delay v1) ->
  exists pre bw bh ms,
    forallb is_system pre = true
    /\ snd (body pf s v fn rest w) = pre ++ [Imshow bw bh; WaitKey ms]
    /\ W - 1 <= bw <= W + 2 /\ H - 1 <= bh <= H + 2 /\ (W < bw \/ H < bh)
    /\ 1000 <= ms <= 60000
    /\ fst (body pf s v fn rest w)
       = if key_pressed w ms
         then AtWhile (set_done (set_sleeping v1 false) true)
         else InFor (set_sleeping v1 false) rest.
Proof.
  intros Hh Ha Hi Hr Hc E1 E2 Rd.
  destruct (hourly_tasks_keeps pf s v w v1 ev1 Hh) as [_ [_ Hev]].
  destruct (FitMore.proportionate_frame W H cols rows ltac:(lia) ltac:(lia)
              Hc Hr ltac:(lia) ltac:(lia) E1 E2)
    as [dw [dh [bw [bh [_ [_ [_ B]]]]]]].
  destruct (FitMore.frame_bounds W H cols rows ltac:(lia) ltac:(lia) Hc Hr
              bw bh B) as [Fw [Fh Fx]].
  destruct (delay_ms_total (delay v1) Rd) as [ms [D Rms]].
  rewrite <- wid_W, <- hgt_H in B.
  rewrite body_eq, Hh. cbv zeta. rewrite Ha.
  rewrite (show_photo_shown s v1 fn rest w rows cols bw bh ms Hi
             ltac:(lia) B D).
  cbn [fst snd].
  exists (xset s "xset dpms force on" ++ ev1
          ++ (if sleeping v1
              then xset s "xset s off" ++ xset s "xset dpms force on"
              else [])), bw, bh, ms.
  split.
  { rewrite !forallb_app, Hev, !xset_system.
    destruct (sleeping v1); [|reflexivity].
    now rewrite forallb_app, !xset_system. }
  split; [now rewrite <- !app_assoc|].
  repeat (split; [assumption|]). reflexivity.
Qed.

End LoopFit.

(** X20.  In waking hours, on a screen [W] by [H] (whole numbers from 2
    up, below [2^25]), the turn of a picture that decodes to [rows] by
    [cols]: when the picture is more than [H] times higher than wide or
    more than [W] times wider than high, the program crashes, having only
    called [os.system], and nothing happens after that; when it is short
    of both proportions and the delay is in the range of the control file,
    the picture is shown in a frame within a pixel or two of the screen,
    larger than it on one axis, and the pause lasts between one second and
    one minute. *)
Theorem X20_picture_is_shown_unless_too_elongated :
  forall (pf : string -> option pyfloat) (s : setup) (W H : Z) (v : vars)
         (fn : string) (rest : list string) (w : World) (ws : list World)
         (v1 : vars) (ev1 : list event) (rows cols : Z),
  wid s = inject_Z W -> hgt s = inject_Z H ->
  1 < W < 2 ^ 25 -> 1 < H < 2 ^ 25 ->
  hourly_tasks pf s v w = (Some v1, ev1) ->
  awake_hours (now_hour w) (wakehour v1) (bedtimehour v1) = true ->
  imread w fn = Some (rows, cols) ->
  0 < rows < 2 ^ 25 -> 0 < cols < 2 ^ 25 ->
  (H * cols < rows \/ W * rows < cols ->
     fst (run pf s (InFor v (fn :: rest)) (w :: ws)) = Crashed
     /\ forallb is_system (snd (run pf s (InFor v (fn :: rest)) (w :: ws)))
        = true)
  /\ (rows < H * cols -> cols < W * rows -> delay_in_range (delay v1) ->
        exists pre bw bh ms,
          forallb is_system pre = true
          /\ snd (step pf s (InFor v (fn :: rest)) w)
             = (pre ++ [Imshow bw bh; WaitKey ms])%list
          /\ W - 1 <= bw <= W + 2 /\ H - 1 <= bh <= H + 2
          /\ (W < bw \/ H < bh)
          /\ 1000 <= ms <= 60000
          /\ fst (step pf s (InFor v (fn :: rest)) w)
             = if key_pressed w ms
               then AtWhile (set_done (set_sleeping v1 false) true)
               else InFor (set_sleeping v1 false) rest).
Proof.
  intros pf s W H v fn rest w ws v1 ev1 rows cols EW EH HW HH Hh Ha Hi Hr Hc.
  split.
  - intro E.
    destruct (body_elongated pf s W H EW EH HW HH v fn rest w v1 ev1 rows cols
                Hh Ha Hi Hr Hc E) as [C S].
    rewrite run_cons. cbn [step fst snd]. rewrite C, run_crashed.
    cbn [fst snd]. split; [reflexivity|]. now rewrite app_nil_r.
  - intros E1 E2 Rd. cbn [step].
    exact (body_proportionate pf s W H EW EH HW HH v fn rest w v1 ev1 rows cols
             Hh Ha Hi Hr Hc E1 E2 Rd).
Qed.

Lemma X20_picture_is_shown_unless_too_elongated_witness :
  fst (run Decimal.decimal_float example_setup
         (InFor (example_vars 9 false) ["a.jpg"; "b.jpg"])
         [mkWorld 9 (fun _ => None) (fun _ => Some example_tree) (fun _ => O)
                  (fun _ => Some (5000, 1)) (fun _ => -1);
          example_world 9 (-1)])
  = Crashed.
Proof.
  refine (proj1 (proj1 (X20_picture_is_shown_unless_too_elongated
                   Decimal.decimal_float example_setup 1920 1080
                   (example_vars 9 false) "a.jpg" ["b.jpg"]
                   (mkWorld 9 (fun _ => None) (fun _ => Some example_tree)
                            (fun _ => O) (fun _ => Some (5000, 1))
                            (fun _ => -1))
                   [example_world 9 (-1)] (example_vars 9 false) [] 5000 1
                   eq_refl eq_refl (conj eq_refl eq_refl) (conj eq_refl eq_refl)
                   eq_refl eq_refl eq_refl
                   (conj eq_refl eq_refl) (conj eq_refl eq_refl)) _)).
  left. reflexivity.
Defined.
